(** * Verification of the HDF5/JSON utilities of xml2h5 ([util.py])

    A shallow embedding of the validator ([check_shape], [check_type],
    [validate_h5json]), the hierarchy walker ([order_objs]) and the
    identity rewriter ([substitute_uuids]) of [util.py]. JSON values are
    modelled as the Python objects [json.load] produces; Python exceptions
    are an error result carrying the exception class and the message
    template of the [raise] statement. *)

From stdpp Require Import base gmap strings list sets.
From Stdlib Require Import String Ascii ZArith QArith Bool Lia.

Set Warnings "-register-all".
Close Scope Q_scope.
Open Scope string_scope.

(* ================================================================== *)
(** ** JSON values and Python exceptions *)

(** A decoded JSON document: [None], [bool], [int], [float] (by its exact
    rational value), [unicode], [list] and [dict] (keys in insertion
    order, no duplicates). *)
Inductive json : Type :=
| JNull
| JBool (b : bool)
| JInt (z : Z)
| JFloat (q : Q)
| JStr (s : string)
| JArr (l : list json)
| JObj (kvs : list (string * json)).

Inductive exc : Type :=
| KeyError | ValueError | TypeError | NotImplementedError
| AttributeError | UnboundLocalError | RuntimeError.

Definition py_err : Type := (exc * string)%type.

(** The outcome of a Python call: a raised exception or a value. *)
Definition res (A : Type) : Type := sum py_err A.

Definition ok {A} (a : A) : res A := inr a.
Definition raise {A} (e : exc) (msg : string) : res A := inl (e, msg).

Definition rbind {A B} (m : res A) (k : A -> res B) : res B :=
  match m with
  | inl e => inl e
  | inr a => k a
  end.

Notation "x <- m ;; k" := (rbind m (fun x => k))
  (at level 63, m at next level, right associativity).

(** [for x in l: f(x)] *)
Fixpoint iter_res {A} (f : A -> res unit) (l : list A) : res unit :=
  match l with
  | [] => ok tt
  | x :: xs => _ <- f x ;; iter_res f xs
  end.

(** [for i, x in enumerate(l, i0): f(i, x)] *)
Fixpoint iteri_res {A} (f : nat -> A -> res unit) (i : nat) (l : list A)
  : res unit :=
  match l with
  | [] => ok tt
  | x :: xs => _ <- f i x ;; iteri_res f (S i) xs
  end.

(** [[f(x) for x in l]] *)
Fixpoint map_res {A B} (f : A -> res B) (l : list A) : res (list B) :=
  match l with
  | [] => ok []
  | x :: xs => y <- f x ;; ys <- map_res f xs ;; ok (y :: ys)
  end.

(* ------------------------------------------------------------------ *)
(** *** Python operations on JSON values *)

Fixpoint dict_get (k : string) (kvs : list (string * json)) : option json :=
  match kvs with
  | [] => None
  | (k', v) :: rest => if String.eqb k k' then Some v else dict_get k rest
  end.

(** [k in c] for a string [k]: key test on a dict, element test on a list,
    substring test on a string; other objects are not iterable. *)
Definition py_in (k : string) (c : json) : res bool :=
  match c with
  | JObj kvs => ok (if dict_get k kvs then true else false)
  | JArr l =>
      ok (existsb (fun x => match x with JStr s => String.eqb s k | _ => false end) l)
  | JStr s => ok (if String.index 0 k s then true else false)
  | _ => raise TypeError "argument of type is not iterable"
  end.

(** [c[k]] for a string key [k]. *)
Definition getitem (c : json) (k : string) : res json :=
  match c with
  | JObj kvs =>
      match dict_get k kvs with
      | Some v => ok v
      | None => raise KeyError k
      end
  | JArr _ => raise TypeError "list indices must be integers, not str"
  | JStr _ => raise TypeError "string indices must be integers, not str"
  | _ => raise TypeError "object has no attribute '__getitem__'"
  end.

(** [c.get(k, d)] *)
Definition dict_get_default (c : json) (k : string) (d : json) : res json :=
  match c with
  | JObj kvs =>
      match dict_get k kvs with
      | Some v => ok v
      | None => ok d
      end
  | _ => raise AttributeError "object has no attribute 'get'"
  end.

(** [len(c)] *)
Definition py_len (c : json) : res nat :=
  match c with
  | JArr l => ok (List.length l)
  | JStr s => ok (String.length s)
  | JObj kvs => ok (List.length kvs)
  | _ => raise TypeError "object of this type has no len()"
  end.

(** [type(v) is list] *)
Definition is_list (v : json) : bool :=
  match v with JArr _ => true | _ => false end.

(** [isinstance(v, numbers.Integral)]: [bool] is a subclass of [int]. *)
Definition as_integral (v : json) : option Z :=
  match v with
  | JInt z => Some z
  | JBool b => Some (if b then 1%Z else 0%Z)
  | _ => None
  end.

(** [isinstance(v, numbers.Real)], with the value. *)
Definition as_real (v : json) : option Q :=
  match v with
  | JInt z => Some (inject_Z z)
  | JBool b => Some (if b then 1%Q else 0%Q)
  | JFloat q => Some q
  | _ => None
  end.

(** [isinstance(v, basestring)] *)
Definition is_basestring (v : json) : bool :=
  match v with JStr _ => true | _ => false end.

(** [v == s] for a string literal [s]. *)
Definition py_eq_str (v : json) (s : string) : bool :=
  match v with JStr t => String.eqb t s | _ => false end.

(** [v in (s1, ..., sn)] for a tuple of string literals. *)
Definition str_in (v : json) (choices : list string) : bool :=
  existsb (py_eq_str v) choices.

(** [v < c] in Python 2 for an integer [c]: numbers compare by value,
    [None] sorts before every number, every other object after. *)
Definition py_lt_int (v : json) (c : Z) : bool :=
  match v with
  | JNull => true
  | _ =>
      match as_real v with
      | Some q => negb (Qle_bool (inject_Z c) q)
      | None => false
      end
  end.

(** Python equality [a == b] on decoded JSON values: numbers by value
    across [bool], [int] and [float]; lists elementwise; dicts by their
    key/value pairs. *)
Fixpoint py_eqb (a b : json) : bool :=
  match a, b with
  | JNull, JNull => true
  | JStr s, JStr t => String.eqb s t
  | JArr l, JArr m =>
      (fix go (l m : list json) : bool :=
         match l, m with
         | [], [] => true
         | x :: xs, y :: ys => py_eqb x y && go xs ys
         | _, _ => false
         end) l m
  | JObj k1, JObj k2 =>
      Nat.eqb (List.length k1) (List.length k2) &&
      (fix go (k1 : list (string * json)) : bool :=
         match k1 with
         | [] => true
         | (k, v) :: rest =>
             match dict_get k k2 with
             | Some w => py_eqb v w && go rest
             | None => false
             end
         end) k1
  | _, _ =>
      match as_real a, as_real b with
      | Some p, Some q => Qeq_bool p q
      | _, _ => false
      end
  end.

(** [l.count(x)] *)
Definition py_count (x : json) (l : list json) : nat :=
  List.length (List.filter (py_eqb x) l).

(** Number of nodes of a JSON value; bounds the depth of every structural
    recursion over it. *)
Fixpoint json_size (v : json) : nat :=
  match v with
  | JArr l =>
      S ((fix go (l : list json) : nat :=
            match l with [] => 0 | x :: xs => json_size x + go xs end) l)
  | JObj kvs =>
      S ((fix go (kvs : list (string * json)) : nat :=
            match kvs with [] => 0 | (_, x) :: xs => json_size x + go xs end) kvs)
  | _ => 1
  end.

(* ================================================================== *)
(** ** [numpy_dtype] and the datatype validator *)

(** The NumPy dtypes named in [numpy_dtype]'s [conv_map]. *)
Inductive npdtype : Type := i1 | u1 | i2 | u2 | i4 | u4 | i8 | u8 | f4 | f8.

(** [conv_map] of [numpy_dtype]: predefined HDF5 type without its
    two-character byte-order suffix. *)
Definition conv_map (k : string) : option npdtype :=
  if String.eqb k "H5T_STD_I8" then Some i1
  else if String.eqb k "H5T_STD_U8" then Some u1
  else if String.eqb k "H5T_STD_I16" then Some i2
  else if String.eqb k "H5T_STD_U16" then Some u2
  else if String.eqb k "H5T_STD_I32" then Some i4
  else if String.eqb k "H5T_STD_U32" then Some u4
  else if String.eqb k "H5T_STD_I64" then Some i8
  else if String.eqb k "H5T_STD_U64" then Some u8
  else if String.eqb k "H5T_IEEE_F32" then Some f4
  else if String.eqb k "H5T_IEEE_F64" then Some f8
  else None.

(** [s[:-2]] *)
Definition drop_last2 (s : string) : string :=
  substring 0 (String.length s - 2) s.

(** [numpy_dtype(h5type)]: [h5type[:-2]] then a [conv_map] lookup whose
    [KeyError] becomes a [ValueError]. A list slice is an unhashable key;
    other objects cannot be sliced. *)
Definition numpy_dtype (h5type : json) : res npdtype :=
  match h5type with
  | JStr s =>
      match conv_map (drop_last2 s) with
      | Some d => ok d
      | None => raise ValueError "%s: Invalid predefined datatype"
      end
  | JArr _ | JObj _ => raise TypeError "unhashable type"
  | _ => raise TypeError "object has no attribute '__getitem__'"
  end.

(** [_check_atomic_type(t)] *)
Definition check_atomic_type (t : json) : res unit :=
  tcls <- getitem t "class" ;;
  if py_eq_str tcls "H5T_STRING" then
    _ <- iter_res (fun k =>
           b <- py_in k t ;;
           if b then ok tt else raise KeyError "Missing '%s' string information")
         ["charSet"; "length"; "strPad"] ;;
    cs <- getitem t "charSet" ;;
    if negb (str_in cs ["H5T_CSET_ASCII"; "H5T_CSET_UTF8"])
    then raise ValueError "%s: Invalid string character set" else
    sp <- getitem t "strPad" ;;
    if negb (str_in sp ["H5T_STR_NULLTERM"; "H5T_STR_NULLPAD"; "H5T_STR_SPACEPAD"])
    then raise ValueError "%s: Invalid string padding" else
    len <- getitem t "length" ;;
    if negb (py_eq_str len "H5T_VARIABLE") &&
       negb (match as_integral len with Some z => Z.ltb 0 z | None => false end)
    then raise ValueError "%s: Invalid string length value"
    else ok tt
  else if str_in tcls ["H5T_INTEGER"; "H5T_FLOAT"] then
    hb <- py_in "base" t ;;
    if negb hb then raise KeyError "H5T_FLOAT/H5T_INTEGER predefined datatype missing" else
    base <- getitem t "base" ;;
    _ <- numpy_dtype base ;;
    ok tt
  else if py_eq_str tcls "H5T_REFERENCE" then
    hb <- py_in "base" t ;;
    if negb hb then raise KeyError "Datatype reference base missing" else
    base <- getitem t "base" ;;
    if negb (str_in base ["H5T_STD_REF_OBJ"; "H5T_STD_REF_DSETREG"])
    then raise ValueError "%s: Invalid reference type"
    else ok tt
  else raise NotImplementedError "%s: HDF5 datatype not supported yet".

(** [check_type(t)], recursive over compound members and the bases of
    variable-length and array types. The recursion is bounded by [fuel];
    [check_type] starts it at the size of [t], which is never exhausted
    (each call descends into a strict sub-value). *)
Fixpoint check_type_fuel (fuel : nat) (t : json) {struct fuel} : res unit :=
  match fuel with
  | O => raise RuntimeError "maximum recursion depth exceeded"
  | S fuel' =>
    hc <- py_in "class" t ;;
    if negb hc then raise KeyError "Datatype class missing" else
    tcls <- getitem t "class" ;;
    if py_eq_str tcls "H5T_COMPOUND" then
      hf <- py_in "fields" t ;;
      if negb hf then raise KeyError "Missing compound datatype member list" else
      fields <- getitem t "fields" ;;
      match fields with
      | JArr fl =>
          if Nat.eqb (List.length fl) 0
          then raise ValueError "Compound datatype must have at least one member" else
          fld_names <-
            (fix members (fl : list json) : res (list json) :=
               match fl with
               | [] => ok []
               | f :: rest =>
                   hn <- py_in "name" f ;;
                   if negb hn then raise KeyError "Missing compound member name" else
                   nm <- getitem f "name" ;;
                   ln <- py_len nm ;;
                   if Nat.eqb ln 0 then raise ValueError "Empty name for a compound member" else
                   ht <- py_in "type" f ;;
                   if negb ht then raise KeyError "Compound member '%s' missing datatype" else
                   ft <- getitem f "type" ;;
                   _ <- check_type_fuel fuel' ft ;;
                   names <- members rest ;;
                   ok (nm :: names)
               end) fl ;;
          iter_res (fun f =>
                      if Nat.ltb 1 (py_count f fld_names)
                      then raise ValueError "%s: Compound member name is not unique"
                      else ok tt) fld_names
      | _ => raise TypeError "Compound datatype members must be in a list"
      end
    else if py_eq_str tcls "H5T_VLEN" then
      hb <- py_in "base" t ;;
      if negb hb then raise KeyError "H5T_VLEN datatype base missing" else
      b <- getitem t "base" ;;
      check_type_fuel fuel' b
    else if py_eq_str tcls "H5T_ARRAY" then
      hd <- py_in "dims" t ;;
      if negb hd then raise KeyError "H5T_ARRAY dimensions missing" else
      dims <- getitem t "dims" ;;
      match dims with
      | JArr dl =>
          if negb (Nat.ltb 0 (List.length dl) && Nat.leb (List.length dl) 32)
          then raise ValueError "Invalid H5T_ARRAY rank: %d" else
          _ <- iter_res (fun d =>
                 match as_integral d with
                 | None => raise TypeError "H5T_ARRAY dimension #%d: Must be integer: %s"
                 | Some z =>
                     if Z.leb z 0
                     then raise ValueError "H5T_ARRAY dimension #%d: Dimension size must be positive: %s"
                     else ok tt
                 end) dl ;;
          hb <- py_in "base" t ;;
          if negb hb then raise KeyError "H5T_ARRAY datatype base missing" else
          b <- getitem t "base" ;;
          check_type_fuel fuel' b
      | _ => raise TypeError "H5T_ARRAY dimensions must be in a list"
      end
    else check_atomic_type t
  end.

Definition check_type (t : json) : res unit := check_type_fuel (json_size t) t.

(* ================================================================== *)
(** ** The dataspace validator [check_shape] *)

(** [np.iinfo(np.uint64).max] *)
Definition uint64_max : Z := (2 ^ 64 - 1)%Z.

(** The [type(shape[k]) is not list] and rank test of [check_shape] for
    one key [k]. *)
Definition check_rank_key (shape : json) (k : string) : res unit :=
  v <- getitem shape k ;;
  match v with
  | JArr l =>
      if Nat.ltb 0 (List.length l) && Nat.leb (List.length l) 32 then ok tt
      else raise ValueError "Dataspace '%s': Invalid rank: %d"
  | _ => raise TypeError "Dataspace '%s' must be a list"
  end.

(** The loop over [shape['dims']]. *)
Definition check_dims_entry (d : json) : res unit :=
  match as_integral d with
  | None => raise TypeError "Dataspace 'dims': Dimension #%d: Must be integer: %s"
  | Some z =>
      if Z.ltb z 0 || Z.ltb uint64_max z
      then raise ValueError "Dataspace 'dims': Dimension #%d: Size out of range: %s"
      else ok tt
  end.

(** One step [i, d] of the loop over [enumerate(shape['maxdims'])];
    [dl] is [shape['dims']]. *)
Definition check_maxdims_entry (dl : list json) (i : nat) (d : json) : res unit :=
  match as_integral d with
  | Some m =>
      if Z.leb m 0 || Z.leb uint64_max m
      then raise ValueError "Dataspace 'maxdims': Dimension size out of range: %d"
      else
        match as_integral (nth i dl JNull) with
        | Some di =>
            if Z.ltb m di then raise ValueError "Dimension #%d: dims greater than maxdims"
            else ok tt
        | None => ok tt
        end
  | None =>
      if is_basestring d && negb (py_eq_str d "H5S_UNLIMITED")
      then raise ValueError "Dataspace 'maxdims': Unlimited dimension size value invalid: %s"
      else ok tt
  end.

(** [check_shape(shape)] *)
Definition check_shape (shape : json) : res unit :=
  hc <- py_in "class" shape ;;
  _ <- (if hc then
          c <- getitem shape "class" ;;
          if negb (str_in c ["H5S_NULL"; "H5S_SCALAR"; "H5S_SIMPLE"])
          then raise ValueError "%s: Invalid dataspace class" else ok tt
        else raise KeyError "Dataspace class missing") ;;
  cls <- getitem shape "class" ;;
  if py_eq_str cls "H5S_SIMPLE" then
    hd <- py_in "dims" shape ;;
    if negb hd then raise KeyError "Missing dataspace 'dims' information" else
    hm <- py_in "maxdims" shape ;;
    _ <- iter_res (check_rank_key shape) (if hm then ["dims"; "maxdims"] else ["dims"]) ;;
    dims <- getitem shape "dims" ;;
    match dims with
    | JArr dl =>
        _ <- iter_res check_dims_entry dl ;;
        if hm then
          maxdims <- getitem shape "maxdims" ;;
          match maxdims with
          | JArr ml =>
              if negb (Nat.eqb (List.length dl) (List.length ml))
              then raise ValueError "Dataspace dims and maxdims not of same rank" else
              iteri_res (check_maxdims_entry dl) 0 ml
          | _ => raise TypeError "Dataspace '%s' must be a list"
          end
        else ok tt
    | _ => raise TypeError "Dataspace '%s' must be a list"
    end
  else
    hd <- py_in "dims" shape ;;
    hm <- py_in "maxdims" shape ;;
    if hd || hm
    then raise KeyError "'dims' and 'maxdims' not allowed for %s dataspace"
    else ok tt.

(* ================================================================== *)
(** ** Value checks: [value_check_factory] and [value_check] *)

(** [np.iinfo(dtype)]: the range of the integer dtypes; [np.iinfo] of a
    floating dtype raises. *)
Definition iinfo (d : npdtype) : option (Z * Z) :=
  match d with
  | i1 => Some ((-128)%Z, 127%Z)
  | u1 => Some (0%Z, 255%Z)
  | i2 => Some ((-32768)%Z, 32767%Z)
  | u2 => Some (0%Z, 65535%Z)
  | i4 => Some ((- 2 ^ 31)%Z, (2 ^ 31 - 1)%Z)
  | u4 => Some (0%Z, (2 ^ 32 - 1)%Z)
  | i8 => Some ((- 2 ^ 63)%Z, (2 ^ 63 - 1)%Z)
  | u8 => Some (0%Z, (2 ^ 64 - 1)%Z)
  | f4 | f8 => None
  end.

Definition is_float_dtype (d : npdtype) : bool :=
  match d with f4 | f8 => true | _ => false end.

(** [check_string] *)
Definition check_string (v : json) : res unit :=
  if is_basestring v then ok tt
  else raise TypeError "%s: Value datatype error: Not a string.".

(** [check_integer] for the range [minval, maxval]. *)
Definition check_integer (minval maxval : Z) (v : json) : res unit :=
  match as_integral v with
  | None => raise TypeError "%s: Value datatype error: Not an integer."
  | Some z =>
      if Z.ltb z minval || Z.ltb maxval z
      then raise ValueError "%s: Value out of range for %s datatype"
      else ok tt
  end.

(** [value_check(iter_, cond)]: lists are descended into, every other
    item is given to [cond]. [value_check_item] is the loop body. *)
Fixpoint value_check_item (cond : json -> res unit) (n : json) : res unit :=
  match n with
  | JArr l =>
      (fix go (l : list json) : res unit :=
         match l with
         | [] => ok tt
         | x :: xs => _ <- value_check_item cond x ;; go xs
         end) l
  | _ => cond n
  end.

Definition value_check (cond : json -> res unit) (l : list json) : res unit :=
  iter_res (value_check_item cond) l.

(** numpy's shape of [np.asarray(v)] for nested lists (numpy < 1.24): a
    list contributes its length followed by the longest common prefix of
    its items' shapes; any other value is a scalar. *)
Fixpoint common_prefix (a b : list nat) : list nat :=
  match a, b with
  | x :: xs, y :: ys => if Nat.eqb x y then x :: common_prefix xs ys else []
  | _, _ => []
  end.

Fixpoint np_shape (v : json) : list nat :=
  match v with
  | JArr l =>
      List.length l ::
      (fix go (l : list json) : list nat :=
         match l with
         | [] => []
         | x :: xs =>
             match xs with
             | [] => np_shape x
             | _ :: _ => common_prefix (np_shape x) (go xs)
             end
         end) l
  | _ => []
  end.

(** [np_shape != tuple(dims)] negated: the dims entries are integers, as
    [check_shape] has checked. *)
Fixpoint shape_eqb (ns : list nat) (dl : list json) : bool :=
  match ns, dl with
  | [], [] => true
  | n :: ns', d :: dl' =>
      match as_integral d with
      | Some z => Z.eqb (Z.of_nat n) z && shape_eqb ns' dl'
      | None => false
      end
  | _, _ => false
  end.

(* ================================================================== *)
(** ** The object validator [validate_h5json] *)

Section Validator.

(** The range test of [check_real]: [v < minval and not np.allclose(...)]
    or [v > maxval and not np.allclose(...)] over [np.finfo(dtype)],
    evaluated in floating point. It is left abstract: every result of
    this section holds whatever this test answers. *)
Variable real_out_of_range : npdtype -> Q -> bool.

(** [check_real] *)
Definition check_real (d : npdtype) (v : json) : res unit :=
  match as_real v with
  | None => raise TypeError "%s: Value datatype error: Not a float."
  | Some q =>
      if real_out_of_range d q
      then raise ValueError "%s: Value out of range for %s datatype"
      else ok tt
  end.

(** [value_check_factory(cls, base)] *)
Definition value_check_factory (cls base : json) : res (json -> res unit) :=
  if py_eq_str cls "H5T_STRING" then ok check_string
  else if py_eq_str cls "H5T_INTEGER" then
    d <- numpy_dtype base ;;
    match iinfo d with
    | Some (mn, mx) => ok (check_integer mn mx)
    | None => raise ValueError "Invalid integer data type."
    end
  else if py_eq_str cls "H5T_FLOAT" then
    d <- numpy_dtype base ;;
    if is_float_dtype d then ok (check_real d)
    else raise ValueError "data type not inexact"
  else if str_in cls ["H5T_VLEN"; "H5T_COMPOUND"] then ok (fun _ => ok tt)
  else raise NotImplementedError "%s: HDF5 datatype class is not supported.".

(** [value_check_factory(h5j['type']['class'], h5j['type'].get('base', None))] *)
Definition type_checker (h5j : json) : res (json -> res unit) :=
  ty <- getitem h5j "type" ;;
  tcls <- getitem ty "class" ;;
  base <- dict_get_default ty "base" JNull ;;
  value_check_factory tcls base.

(** [if reqd: for k in reqd: ...] *)
Definition check_reqd (reqd : list string) (h5j : json) : res unit :=
  iter_res (fun k =>
              b <- py_in k h5j ;;
              if b then ok tt else raise KeyError "%s: Required but missing") reqd.

(** Dataspace check. *)
Definition stage_shape (h5j : json) : res unit :=
  hs <- py_in "shape" h5j ;;
  if hs then s <- getitem h5j "shape" ;; check_shape s else ok tt.

(** Datatype check. *)
Definition stage_type (h5j : json) : res unit :=
  ht <- py_in "type" h5j ;;
  if ht then t <- getitem h5j "type" ;; check_type t else ok tt.

(** Value check. [val] is the local variable of the source: [None] when
    neither the [H5S_SIMPLE] nor the [H5S_SCALAR] branch assigned it. *)
Definition stage_value (h5j : json) : res unit :=
  hv <- py_in "value" h5j ;;
  if negb hv then ok tt else
  shape <- getitem h5j "shape" ;;
  cls <- getitem shape "class" ;;
  val <- (if py_eq_str cls "H5S_SIMPLE" then
            v <- getitem h5j "value" ;;
            match v with
            | JArr l =>
                dims <- getitem shape "dims" ;;
                match dims with
                | JArr dl =>
                    if shape_eqb (np_shape v) dl then ok (Some l)
                    else raise ValueError "Reported %s and actual %s shape mismatch"
                | _ => raise TypeError "'dims' is not iterable"
                end
            | _ => raise TypeError "Value(s) must be in a list for %s dataspace"
            end
          else if py_eq_str cls "H5S_SCALAR" then
            v <- getitem h5j "value" ;;
            if is_list v then raise TypeError "Value cannot be in a list for %s dataspace"
            else ok (Some [v])
          else ok None) ;;
  cond <- type_checker h5j ;;
  match val with
  | Some l => value_check cond l
  | None => raise UnboundLocalError "local variable 'val' referenced before assignment"
  end.

(** Name check. *)
Definition stage_name (h5j : json) : res unit :=
  hn <- py_in "name" h5j ;;
  if negb hn then ok tt else
  n <- getitem h5j "name" ;;
  match n with
  | JStr s =>
      if Nat.eqb (String.length s) 0 then raise ValueError "HDF5 object name is an empty string"
      else if String.index 0 "/" s then raise ValueError "HDF5 object name contains '/' character"
      else ok tt
  | _ => raise TypeError "HDF5 object name must be a string"
  end.

(** [nameCharEncoding] of the creation properties. *)
Definition cp_encoding (cp : json) : res unit :=
  he <- py_in "nameCharEncoding" cp ;;
  if negb he then ok tt else
  e <- getitem cp "nameCharEncoding" ;;
  if negb (str_in e ["H5T_CSET_UTF8"; "H5T_CSET_ASCII"])
  then raise ValueError "%s: Invalid character encoding name"
  else ok tt.

(** [0xffffffff] *)
Definition chunk_max : Z := (2 ^ 32 - 1)%Z.

(** An [int64] result of numpy: the value modulo [2^64], read as signed. *)
Definition wrap_int64 (z : Z) : Z :=
  let m := Z.modulo z (2 ^ 64) in
  if Z.ltb m (2 ^ 63) then m else (m - 2 ^ 64)%Z.

(** [np.prod(l)] on a list of Python integers that fit in [int64]: the
    array has the platform integer dtype ([int64] on 64-bit Linux), whose
    multiplication wraps around silently. *)
Definition np_prod (l : list Z) : Z :=
  fold_left (fun acc d => wrap_int64 (acc * d)) l 1%Z.

Definition int_or_zero (d : json) : Z :=
  match as_integral d with Some z => z | None => 0%Z end.

(** The loop over [cp['layout']['dims']]. *)
Definition check_chunk_dim (d : json) : res unit :=
  match as_integral d with
  | None => raise TypeError "Chunking dimension '%s' must be integer"
  | Some z =>
      if Z.ltb 0 z && Z.leb z chunk_max then ok tt
      else raise ValueError "Chunk dimension value %d must be positive integer smaller than 2^32"
  end.

(** [for n, d in enumerate(max_dims): ...] against the chunk dims [cl]. *)
Definition check_chunk_axes (max_dims : json) (cl : list json) : res unit :=
  let step (n : nat) (d : json) : res unit :=
    if is_basestring d then ok tt
    else if py_lt_int d (int_or_zero (nth n cl JNull))
    then raise ValueError "Chunking dim size %d greater than max size %d"
    else ok tt in
  match max_dims with
  | JArr ml => iteri_res step 0 ml
  | JStr s => ok tt
  | JObj kvs => ok tt
  | _ => raise TypeError "object is not iterable"
  end.

(** Layout of the creation properties [cp] of the object [h5j]. *)
Definition cp_layout (h5j cp : json) : res unit :=
  hl <- py_in "layout" cp ;;
  if negb hl then ok tt else
  lay <- getitem cp "layout" ;;
  hc <- py_in "class" lay ;;
  if negb hc then raise KeyError "Missing layout class" else
  lc <- getitem lay "class" ;;
  if negb (str_in lc ["H5D_CONTIGUOUS"; "H5D_CHUNKED"; "H5D_COMPACT"])
  then raise ValueError "%s: Invalid layout class" else
  if py_eq_str lc "H5D_CHUNKED" then
    hd <- py_in "dims" lay ;;
    if negb hd then raise KeyError "Missing chunking dimensions" else
    cd <- getitem lay "dims" ;;
    match cd with
    | JArr cl =>
        _ <- iter_res check_chunk_dim cl ;;
        if Z.ltb chunk_max (np_prod (map int_or_zero cl))
        then raise ValueError "Number of elements in a chunk must be less than 2^32" else
        shape <- getitem h5j "shape" ;;
        sc <- getitem shape "class" ;;
        if py_eq_str sc "H5S_SIMPLE" then
          dims <- getitem shape "dims" ;;
          n <- py_len dims ;;
          if negb (Nat.eqb n (List.length cl))
          then raise ValueError "Chunk rank must be same as shape rank" else
          max_dims <- dict_get_default shape "maxdims" dims ;;
          check_chunk_axes max_dims cl
        else raise ValueError "%s: This dataspace cannot be chunked"
    | _ => raise TypeError "Chunking dimensions must be a list"
    end
  else
    hd <- py_in "dims" lay ;;
    if hd then raise KeyError "'dims' not allowed for layout class %s" else ok tt.

(** One iteration of [for n, f in enumerate(fltrs)] for the object [h5j]. *)
Definition check_filter (h5j f : json) : res unit :=
  _ <- (match f with
        | JObj _ => ok tt
        | _ => raise TypeError "Filter #%d info not in a dict"
        end) ;;
  hc <- py_in "class" f ;;
  if negb hc then raise KeyError "Filter #%d class missing" else
  hi <- py_in "id" f ;;
  if negb hi then raise KeyError "Filter #%d id missing" else
  fid <- getitem f "id" ;;
  _ <- (match as_integral fid with
        | None => raise TypeError "Filter #%d id must be integer: %s"
        | Some z => if Z.leb z 0 then raise ValueError "Filter #%d id must be positive: %d" else ok tt
        end) ;;
  fcls <- getitem f "class" ;;
  if py_eq_str fcls "H5Z_FILTER_DEFLATE" then
    hl <- py_in "level" f ;;
    if negb hl then raise KeyError "Filter #%d missing deflate level" else
    lv <- getitem f "level" ;;
    match as_integral lv with
    | None => raise TypeError "Filter #%d deflate level must be integer: %s"
    | Some z =>
        if Z.leb 0 z && Z.leb z 9 then ok tt
        else raise ValueError "Filter #%d deflate level out of range: %d"
    end
  else if py_eq_str fcls "H5Z_FILTER_FLETCHER32" then ok tt
  else if py_eq_str fcls "H5Z_FILTER_NBIT" then ok tt
  else if py_eq_str fcls "H5Z_FILTER_SCALEOFFSET" then
    hs <- py_in "scaleType" f ;;
    _ <- (if negb hs then raise KeyError "Filter #%d missing scale type" else
          st <- getitem f "scaleType" ;;
          if negb (str_in st ["H5Z_SO_FLOAT_DSCALE"; "H5Z_SO_FLOAT_ESCALE"; "H5Z_SO_INT"])
          then raise ValueError "Filter #%d invalid scale-offset filter type: %s"
          else ok tt) ;;
    ho <- py_in "scaleOffset" f ;;
    if negb ho then raise KeyError "Filter #%d missing scale offset" else
    st <- getitem f "scaleType" ;;
    _ <- (if py_eq_str st "H5Z_SO_INT" then
            ty <- getitem h5j "type" ;;
            tc <- getitem ty "class" ;;
            if negb (py_eq_str tc "H5T_INTEGER")
            then raise ValueError "%s: Scale-offset filter type only allowed for integer datatypes"
            else ok tt
          else if py_eq_str st "H5Z_SO_FLOAT_DSCALE" then
            ty <- getitem h5j "type" ;;
            tc <- getitem ty "class" ;;
            if negb (py_eq_str tc "H5T_FLOAT")
            then raise ValueError "%s: Scale-offset filter type only allowed for floating point datatypes"
            else ok tt
          else if py_eq_str st "H5Z_SO_FLOAT_ESCALE" then
            raise ValueError "%s: Scale-offset filter type not supported yet"
          else ok tt) ;;
    so <- getitem f "scaleOffset" ;;
    match as_integral so with
    | None => raise TypeError "%s: Scale offset value must be integer"
    | Some z =>
        if Z.ltb z 0 then raise ValueError "%d: Scale offset value cannot be negative"
        else ok tt
    end
  else if py_eq_str fcls "H5Z_FILTER_SHUFFLE" then ok tt
  else if py_eq_str fcls "H5Z_FILTER_SZIP" then ok tt
  else if py_eq_str fcls "H5Z_FILTER_USER" then
    hp <- py_in "parameters" f ;;
    if negb hp then raise KeyError "Filter #%d user filter missing parameters" else ok tt
  else raise ValueError "%s: Invalid filter class".

(** [Filters are allowed only for chunked layout...] *)
Definition filters_layout_check (cp : json) (fs : list json) : res unit :=
  hl <- py_in "layout" cp ;;
  if negb hl then ok tt else
  lay <- getitem cp "layout" ;;
  lc <- getitem lay "class" ;;
  if negb (py_eq_str lc "H5D_CHUNKED") && negb (Nat.eqb (List.length fs) 0)
  then raise ValueError "Filters allowed only with chunked layout"
  else ok tt.

(** Filters of the creation properties [cp] of the object [h5j]. *)
Definition cp_filters (h5j cp : json) : res unit :=
  hf <- py_in "filters" cp ;;
  if negb hf then ok tt else
  fltrs <- getitem cp "filters" ;;
  match fltrs with
  | JArr fs =>
      _ <- filters_layout_check cp fs ;;
      _ <- iter_res (check_filter h5j) fs ;;
      classes <- map_res (fun f => getitem f "class") fs ;;
      if existsb (fun c => py_eq_str c "H5Z_FILTER_SCALEOFFSET") classes &&
         existsb (fun c => py_eq_str c "H5Z_FILTER_FLETCHER32") classes
      then raise ValueError "Scale-offset compression filter cannot be combined with the Fletcher32 checksum filter"
      else ok tt
  | _ => raise TypeError "Filters must be in a list"
  end.

(** [fillValue] of the creation properties [cp] of the object [h5j]. *)
Definition cp_fill (h5j cp : json) : res unit :=
  hv <- py_in "fillValue" cp ;;
  if negb hv then ok tt else
  cond <- type_checker h5j ;;
  fv <- getitem cp "fillValue" ;;
  value_check cond [fv].

(** Creation properties. *)
Definition stage_cp (h5j : json) : res unit :=
  hc <- py_in "creationProperties" h5j ;;
  if negb hc then ok tt else
  cp <- getitem h5j "creationProperties" ;;
  _ <- cp_encoding cp ;;
  _ <- cp_layout h5j cp ;;
  _ <- cp_filters h5j cp ;;
  cp_fill h5j cp.

(** [validate_h5json(h5j, reqd)] *)
Definition validate_h5json (reqd : list string) (h5j : json) : res unit :=
  _ <- check_reqd reqd h5j ;;
  _ <- stage_shape h5j ;;
  _ <- stage_type h5j ;;
  _ <- stage_value h5j ;;
  _ <- stage_name h5j ;;
  stage_cp h5j.

End Validator.

(* ================================================================== *)
(** ** The hierarchy walker [order_objs] *)

(** A link of a group: [class], [collection], [id] and [title]. *)
Record link : Type := mk_link {
  l_class : string;
  l_collection : string;
  l_id : string;
  l_title : string
}.

(** The [{'id': ..., 'path': ...}] entries produced by the walker. *)
Record entry : Type := mk_entry { e_id : string; e_path : string }.

(** The parts of a design the walker reads: its [root] (if any) and its
    [groups], each with its [links] (a group without [links] has none). *)
Record design : Type := mk_design {
  d_root : option string;
  d_groups : list (string * list link)
}.

Definition ends_with_slash (a : string) : bool :=
  match String.get (String.length a - 1) a with
  | Some c => Ascii.eqb c "/"%char
  | None => false
  end.

(** [posixpath.join(a, b)] *)
Definition pp_join (a b : string) : string :=
  if String.prefix "/" b then b
  else if String.eqb a "" || ends_with_slash a then a ++ b
  else a ++ "/" ++ b.

Fixpoint assoc_get {A} (k : string) (l : list (string * A)) : option A :=
  match l with
  | [] => None
  | (k', v) :: rest => if String.eqb k k' then Some v else assoc_get k rest
  end.

(** [_get_hard_links(gid, collection)] *)
Definition get_hard_links (groups : list (string * list link)) (gid collection : string)
  : res (list link) :=
  match assoc_get gid groups with
  | None => raise KeyError gid
  | Some links =>
      ok (List.filter (fun l => String.eqb (l_class l) "H5L_TYPE_HARD" &&
                                String.eqb (l_collection l) collection) links)
  end.

Definition link_entry (parent : entry) (l : link) : entry :=
  mk_entry (l_id l) (pp_join (e_path parent) (l_title l)).

(** [for cg in chld_grps: tree_walker(cg)] *)
Fixpoint walk_children (walk : entry -> list entry * list entry -> res (list entry * list entry))
  (cs : list entry) (st : list entry * list entry) : res (list entry * list entry) :=
  match cs with
  | [] => ok st
  | cg :: cs' => st' <- walk cg st ;; walk_children walk cs' st'
  end.

(** [tree_walker(ginfo)], threading the two lists [grps] and [dsets] it
    appends to. [fuel] is the interpreter's recursion limit, whose
    exhaustion raises [RuntimeError]. *)
Fixpoint tree_walker (fuel : nat) (groups : list (string * list link)) (ginfo : entry)
  (st : list entry * list entry) : res (list entry * list entry) :=
  match fuel with
  | O => raise RuntimeError "maximum recursion depth exceeded"
  | S fuel' =>
      dlinks <- get_hard_links groups (e_id ginfo) "datasets" ;;
      let dsets := (snd st ++ map (link_entry ginfo) dlinks)%list in
      glinks <- get_hard_links groups (e_id ginfo) "groups" ;;
      let chld_grps := map (link_entry ginfo) glinks in
      let grps := (fst st ++ chld_grps)%list in
      walk_children (tree_walker fuel' groups) chld_grps (grps, dsets)
  end.

(** [order_objs(h5j, otype)] *)
Definition order_objs (fuel : nat) (h5j : design) (otype : string) : res (list entry) :=
  match d_root h5j with
  | None => raise KeyError "'root' key missing"
  | Some r =>
      let root := mk_entry r "/" in
      st <- tree_walker fuel (d_groups h5j) root ([root], []) ;;
      ok (if String.eqb otype "group" then fst st else snd st)
  end.

(** The walk described compositionally: the groups and the datasets found
    below [g]. The children of [g] come as one block, followed by what is
    found below each child in turn. *)
Fixpoint walk_below (fuel : nat) (groups : list (string * list link)) (g : entry)
  : res (list entry * list entry) :=
  match fuel with
  | O => raise RuntimeError "maximum recursion depth exceeded"
  | S fuel' =>
      dlinks <- get_hard_links groups (e_id g) "datasets" ;;
      glinks <- get_hard_links groups (e_id g) "groups" ;;
      let chld := map (link_entry g) glinks in
      sub <- map_res (walk_below fuel' groups) chld ;;
      ok ((chld ++ List.concat (map fst sub))%list,
          (map (link_entry g) dlinks ++ List.concat (map snd sub))%list)
  end.

(** A depth-first pre-order walk of the groups, as the spec describes it
    (each group, then the walks of its children in link order). *)
Fixpoint spec_preorder_groups (fuel : nat) (groups : list (string * list link)) (g : entry)
  : res (list entry) :=
  match fuel with
  | O => raise RuntimeError "maximum recursion depth exceeded"
  | S fuel' =>
      glinks <- get_hard_links groups (e_id g) "groups" ;;
      sub <- map_res (spec_preorder_groups fuel' groups) (map (link_entry g) glinks) ;;
      ok (g :: List.concat sub)
  end.

(** A hard link to the group [id] named [title]. *)
Definition group_link (id title : string) : link :=
  mk_link "H5L_TYPE_HARD" "groups" id title.

(** Scenario E: the chain [/ -> /a -> /a/b]. *)
Definition chain_design : design :=
  mk_design (Some "root")
    [("root", [group_link "a" "a"]); ("a", [group_link "b" "b"]); ("b", [])].

(** Root [r] with the child groups [a] and [b]; [a] with the child [c]. *)
Definition branching_design : design :=
  mk_design (Some "r")
    [("r", [group_link "a" "a"; group_link "b" "b"]); ("a", [group_link "c" "c"]);
     ("b", []); ("c", [])].

(* ================================================================== *)
(** ** The identity rewriter [substitute_uuids] *)

(** An object dict of a design as the database returns it: [id], optional
    [_pid], [_objtype], [name], optional [value], and its other keys
    (which [substitute_uuids] never reads). *)
Record obj : Type := mk_obj {
  o_id : string;
  o_pid : option string;
  o_objtype : string;
  o_name : string;
  o_value : option json;
  o_rest : list (string * json)
}.

(** [str.split('/')] *)
Fixpoint split_slash_from (s : string) (cur : string) : list string :=
  match s with
  | EmptyString => [cur]
  | String c s' =>
      if Ascii.eqb c "/"%char then cur :: split_slash_from s' ""
      else split_slash_from s' (cur ++ String c "")
  end.

Definition split_slash (s : string) : list string := split_slash_from s "".

(** ['/'.join(parts)] *)
Definition join_slash (parts : list string) : string := String.concat "/" parts.

Section Rewriter.

(** [str(uuid4())] at its [n]-th call in a run. *)
Variable uuid4 : nat -> string.

(** The [defaultdict] [sub_uuid] and the number of identifiers it has
    generated so far. *)
Record ustate : Type := mk_ustate {
  us_map : gmap string string;
  us_next : nat
}.

Definition M (A : Type) : Type := ustate -> res (A * ustate).

Definition mret {A} (a : A) : M A := fun s => ok (a, s).
Definition mraise {A} (e : exc) (msg : string) : M A := fun _ => raise e msg.
Definition mbind {A B} (m : M A) (k : A -> M B) : M B :=
  fun s => match m s with
           | inl e => inl e
           | inr (a, s') => k a s'
           end.

Notation "x <~ m ;; k" := (mbind m (fun x => k))
  (at level 63, m at next level, right associativity).

(** [sub_uuid[k]]: the cached substitute of [k], or a fresh one that is
    stored for later use. *)
Definition sub_lookup (k : string) : M string :=
  fun s =>
    match us_map s !! k with
    | Some v => ok (v, s)
    | None =>
        let v := uuid4 (us_next s) in
        ok (v, mk_ustate (<[k := v]> (us_map s)) (S (us_next s)))
    end.

(** [replace_uuid(val, sub_uuid)] *)
Definition replace_uuid (val : json) : M json :=
  match val with
  | JStr s =>
      if String.prefix "datasets/" s then
        match split_slash s with
        | p0 :: p1 :: rest => q <~ sub_lookup p1 ;; mret (JStr (join_slash (p0 :: q :: rest)))
        | _ => mret val
        end
      else mret val
  | _ => mret val
  end.

(** The items of a list given to [scrub_value]: nested lists are scrubbed
    in place, every other item [val[i]] becomes [replacer(val[i])]. *)
Fixpoint scrub_item (v : json) : M json :=
  match v with
  | JArr l =>
      l' <~ (fix go (l : list json) : M (list json) :=
               match l with
               | [] => mret []
               | x :: xs => y <~ scrub_item x ;; ys <~ go xs ;; mret (y :: ys)
               end) l ;;
      mret (JArr l')
  | _ => replace_uuid v
  end.

(** [scrub_value(val, replacer)]: a list is rewritten in place; an empty
    string or dict has nothing to iterate over; a non-empty string does
    not support item assignment, and a non-empty dict gains an integer
    key, which changes its size during iteration; other values are not
    iterable. *)
Definition scrub_value (v : json) : M json :=
  match v with
  | JArr _ => scrub_item v
  | JStr "" => mret v
  | JStr _ => mraise TypeError "object does not support item assignment"
  | JObj [] => mret v
  | JObj _ => mraise RuntimeError "dictionary changed size during iteration"
  | _ => mraise TypeError "object is not iterable"
  end.

(** Attributes whose value carries identifiers. *)
Definition is_link_attr (o : obj) : bool :=
  String.eqb (o_objtype o) "attribute" &&
  (String.eqb (o_name o) "REFERENCE_LIST" || String.eqb (o_name o) "DIMENSION_LIST").

(** The body of [for o in objs]: the object as it is after the update. *)
Definition substitute_obj (o : obj) : M obj :=
  nid <~ sub_lookup (o_id o) ;;
  npid <~ (match o_pid o with
           | Some p => p' <~ sub_lookup p ;; mret (Some p')
           | None => mret None
           end) ;;
  nval <~ (if is_link_attr o then
             match o_value o with
             | Some v => v' <~ scrub_value v ;; mret (Some v')
             | None => mret None
             end
           else mret (o_value o)) ;;
  mret (mk_obj nid npid (o_objtype o) (o_name o) nval (o_rest o)).

Fixpoint mmap {A B} (f : A -> M B) (l : list A) : M (list B) :=
  match l with
  | [] => mret []
  | x :: xs => y <~ f x ;; ys <~ mmap f xs ;; mret (y :: ys)
  end.

(** [substitute_uuids(objs, root_uuid)]. The object dicts are updated in
    place: the first component is the list [objs] as the caller sees it
    after the call, the second the returned new root UUID. *)
Definition substitute_uuids (objs : list obj) (root_uuid : string)
  : M (list obj * string) :=
  _ <~ sub_lookup root_uuid ;;
  objs' <~ mmap substitute_obj objs ;;
  r <~ sub_lookup root_uuid ;;
  mret (objs', r).

(** A call starts with an empty [defaultdict]. *)
Definition run_substitute_uuids (objs : list obj) (root_uuid : string)
  : res ((list obj * string) * ustate) :=
  substitute_uuids objs root_uuid (mk_ustate ∅ 0).

End Rewriter.

(** The rewriting [substitute_uuids] performs, read through a fixed map [m]
    from old to new identifiers in place of the lazily filled
    [defaultdict]; [None] where [m] lacks an identifier. *)
Fixpoint opt_map {A B} (f : A -> option B) (l : list A) : option (list B) :=
  match l with
  | [] => Some []
  | x :: xs =>
      match f x with
      | Some y => match opt_map f xs with Some ys => Some (y :: ys) | None => None end
      | None => None
      end
  end.

Definition map_leaf (m : gmap string string) (v : json) : option json :=
  match v with
  | JStr s =>
      if String.prefix "datasets/" s then
        match split_slash s with
        | p0 :: p1 :: rest =>
            match m !! p1 with
            | Some q => Some (JStr (join_slash (p0 :: q :: rest)))
            | None => None
            end
        | _ => Some v
        end
      else Some v
  | _ => Some v
  end.

Fixpoint map_item (m : gmap string string) (v : json) : option json :=
  match v with
  | JArr l =>
      match (fix go (l : list json) : option (list json) :=
               match l with
               | [] => Some []
               | x :: xs =>
                   match map_item m x with
                   | Some y => match go xs with Some ys => Some (y :: ys) | None => None end
                   | None => None
                   end
               end) l with
      | Some l' => Some (JArr l')
      | None => None
      end
  | _ => map_leaf m v
  end.

Definition map_value (m : gmap string string) (v : json) : option json :=
  match v with
  | JArr _ => map_item m v
  | _ => Some v
  end.

Definition map_obj (m : gmap string string) (o : obj) : option obj :=
  match m !! o_id o with
  | None => None
  | Some nid =>
      match (match o_pid o with
             | Some p => match m !! p with Some q => Some (Some q) | None => None end
             | None => Some None
             end) with
      | None => None
      | Some npid =>
          match (if is_link_attr o then
                   match o_value o with
                   | Some v => match map_value m v with Some v' => Some (Some v') | None => None end
                   | None => Some None
                   end
                 else Some (o_value o)) with
          | None => None
          | Some nval => Some (mk_obj nid npid (o_objtype o) (o_name o) nval (o_rest o))
          end
      end
  end.

(** The identifiers of the input that [substitute_uuids] rewrites: the
    root, each [id] and [_pid], and the second path segment of the
    ["datasets/..."] strings in REFERENCE_LIST and DIMENSION_LIST values. *)
Fixpoint value_ids (v : json) : list string :=
  match v with
  | JArr l => List.concat (map value_ids l)
  | JStr s =>
      if String.prefix "datasets/" s then
        match split_slash s with _ :: p1 :: _ => [p1] | _ => [] end
      else []
  | _ => []
  end.

Definition obj_ids (o : obj) : list string :=
  o_id o :: ((match o_pid o with Some p => [p] | None => [] end) ++
             (if is_link_attr o then
                match o_value o with Some v => value_ids v | None => [] end
              else []))%list.

Definition old_ids (objs : list obj) (root_uuid : string) : list string :=
  root_uuid :: List.concat (map obj_ids objs).

(** Invariants of the [defaultdict]: every stored substitute is one of the
    identifiers generated so far, and (for an injective generator) no two
    old identifiers share a substitute. *)
Definition gen_inv (uuid4 : nat -> string) (s : ustate) : Prop :=
  forall k v, us_map s !! k = Some v -> exists n, n < us_next s /\ v = uuid4 n.

Definition inj_inv (s : ustate) : Prop :=
  forall k1 k2 v, us_map s !! k1 = Some v -> us_map s !! k2 = Some v -> k1 = k2.

Definition grows (uuid4 : nat -> string) (s s' : ustate) : Prop :=
  us_map s ⊆ us_map s' /\ us_next s <= us_next s' /\
  (gen_inv uuid4 s -> gen_inv uuid4 s') /\
  ((forall n1 n2, uuid4 n1 = uuid4 n2 -> n1 = n2) ->
   gen_inv uuid4 s -> inj_inv s -> inj_inv s').

(** A generator of identifiers: ["A"], ["B"], ... *)
Definition letter_uuid (n : nat) : string := String (ascii_of_nat (65 + n)) "".

(** Scenario D: root group [G1] and dataset [D1] linked from it. *)
Definition scenario_d_objs : list obj :=
  [mk_obj "G1" None "group" "" None [];
   mk_obj "D1" (Some "G1") "dataset" "data" None []].

(** A dataset with a reference attribute [ref] (not a REFERENCE_LIST or
    DIMENSION_LIST) pointing to itself. *)
Definition reference_attr_objs : list obj :=
  [mk_obj "G1" None "group" "" None [];
   mk_obj "D1" (Some "G1") "dataset" "data" None [];
   mk_obj "A1" (Some "D1") "attribute" "ref" (Some (JStr "datasets/D1")) []].

(** Scenario D with a REFERENCE_LIST attribute of [D1] naming [D1]. *)
Definition reference_list_objs : list obj :=
  [mk_obj "G1" None "group" "" None [];
   mk_obj "D1" (Some "G1") "dataset" "data" None [];
   mk_obj "A1" (Some "D1") "attribute" "REFERENCE_LIST"
          (Some (JArr [JArr [JStr "datasets/D1"; JInt 0]])) []].

(** Nested induction on JSON values: the elements of a list are smaller. *)
Section json_nested_ind.
Variable P : json -> Prop.
Hypothesis HNull : P JNull.
Hypothesis HBool : forall b, P (JBool b).
Hypothesis HInt : forall z, P (JInt z).
Hypothesis HFloat : forall q, P (JFloat q).
Hypothesis HStr : forall s, P (JStr s).
Hypothesis HArr : forall l, Forall P l -> P (JArr l).
Hypothesis HObj : forall kvs, P (JObj kvs).

Fixpoint json_nested_ind (v : json) : P v :=
  match v with
  | JNull => HNull
  | JBool b => HBool b
  | JInt z => HInt z
  | JFloat q => HFloat q
  | JStr s => HStr s
  | JArr l =>
      HArr l ((fix go (l : list json) : Forall P l :=
                 match l with
                 | [] => @List.Forall_nil _ P
                 | x :: xs => @List.Forall_cons _ P x xs (json_nested_ind x) (go xs)
                 end) l)
  | JObj kvs => HObj kvs
  end.
End json_nested_ind.

(* ================================================================== *)
(** ** Further functions of [util.py] *)

(** [merge_dicts(d1, d2)]: the value yielded for a key present in both
    dicts, [dict(merge_dicts(d1[k], d2[k]))] when both values are dicts
    and [d2[k]] otherwise. For two dicts, the inner loop runs over the
    keys of [set(d1.keys()).union(d2.keys())] in the set's iteration
    order and finds the key in [d1] ([in_d1]), then in [d2]. *)
Fixpoint merge_nested (v1 v2 : json) {struct v1} : json :=
  match v1, v2 with
  | JObj d1, JObj d2 =>
      let item (k : string) : list (string * json) :=
        (fix in_d1 (l : list (string * json)) : list (string * json) :=
           match l with
           | [] =>
               match dict_get k d2 with
               | Some w2 => [(k, w2)]
               | None => []
               end
           | (k', w1) :: rest =>
               if String.eqb k k' then
                 match dict_get k d2 with
                 | Some w2 => [(k, merge_nested w1 w2)]
                 | None => [(k, w1)]
                 end
               else in_d1 rest
           end) d1 in
      JObj (List.concat (map item (elements (list_to_set (map fst d1) ∪
                                             list_to_set (map fst d2) : gset string))))
  | _, _ => v2
  end.

(** The [(key, value)] pairs yielded by the generator [merge_dicts(d1, d2)]. *)
Definition merge_dicts (d1 d2 : list (string * json)) : list (string * json) :=
  match merge_nested (JObj d1) (JObj d2) with JObj kvs => kvs | _ => [] end.

(** [conv_map] of [h5dtype_name]. *)
Definition h5dtype_conv_map (k : string) : option string :=
  if String.eqb k "H5T_STD_I8" then Some "int8"
  else if String.eqb k "H5T_STD_U8" then Some "uint8"
  else if String.eqb k "H5T_STD_I16" then Some "int16"
  else if String.eqb k "H5T_STD_U16" then Some "uint16"
  else if String.eqb k "H5T_STD_I32" then Some "int32"
  else if String.eqb k "H5T_STD_U32" then Some "uint32"
  else if String.eqb k "H5T_STD_I64" then Some "int64"
  else if String.eqb k "H5T_STD_U64" then Some "uint64"
  else if String.eqb k "H5T_IEEE_F32" then Some "float32"
  else if String.eqb k "H5T_IEEE_F64" then Some "float64"
  else if String.eqb k "H5T_STRING" then Some "string"
  else if String.eqb k "H5T_COMPOUND" then Some "compound"
  else if String.eqb k "H5T_ARRAY" then Some "array"
  else if String.eqb k "H5T_BITFIELD" then Some "bitfield"
  else if String.eqb k "H5T_REFERENCE" then Some "reference"
  else if String.eqb k "H5T_OPAQUE" then Some "opaque"
  else if String.eqb k "H5T_VLEN" then Some "vlen"
  else None.

(** [conv_map[key]] for any JSON value [key]: the table has string keys
    only; lists and dicts are unhashable. *)
Definition conv_getitem (key : json) : res string :=
  match key with
  | JStr s =>
      match h5dtype_conv_map s with
      | Some n => ok n
      | None => raise KeyError s
      end
  | JArr _ | JObj _ => raise TypeError "unhashable type"
  | _ => raise KeyError "%s"
  end.

(** [v[:-2]]: a string or a list loses its last two items; a dict cannot
    be indexed by a slice; other values cannot be indexed. *)
Definition slice_drop_last2 (v : json) : res json :=
  match v with
  | JStr s => ok (JStr (drop_last2 s))
  | JArr l => ok (JArr (firstn (List.length l - 2) l))
  | JObj _ => raise TypeError "unhashable type"
  | _ => raise TypeError "object has no attribute '__getitem__'"
  end.

(** [h5dtype_name(h5dtype)]: a [KeyError] raised in the [try] block
    becomes a [ValueError]; other exceptions pass through. *)
Definition h5dtype_name (h5dtype : json) : res string :=
  match (dtcls <- getitem h5dtype "class" ;;
         if str_in dtcls ["H5T_FLOAT"; "H5T_INTEGER"] then
           base <- getitem h5dtype "base" ;;
           key <- slice_drop_last2 base ;;
           conv_getitem key
         else conv_getitem dtcls) with
  | inl (KeyError, _) => raise ValueError "%s: Invalid HDF5 datatype"
  | r => r
  end.

(** [any(f(a) for a in l)]: stops at the first true item. *)
Fixpoint py_any (f : json -> res bool) (l : list json) : res bool :=
  match l with
  | [] => ok false
  | a :: rest => b <- f a ;; if b then ok true else py_any f rest
  end.

(** [a['name'] == 'REFERENCE_LIST' and a['type']['class'] == 'H5T_COMPOUND'] *)
Definition ref_list_test (a : json) : res bool :=
  n <- getitem a "name" ;;
  if py_eq_str n "REFERENCE_LIST" then
    t <- getitem a "type" ;;
    c <- getitem t "class" ;;
    ok (py_eq_str c "H5T_COMPOUND")
  else ok false.

(** [a['name'] == 'CLASS' and a['value'] == 'DIMENSION_SCALE'] *)
Definition scale_class_test (a : json) : res bool :=
  n <- getitem a "name" ;;
  if py_eq_str n "CLASS" then
    v <- getitem a "value" ;;
    ok (py_eq_str v "DIMENSION_SCALE")
  else ok false.

(** [is_dimscale(attrs)] *)
Definition is_dimscale (attrs : list json) : res bool :=
  ref_list <- py_any ref_list_test attrs ;;
  cls_ <- py_any scale_class_test attrs ;;
  ok (ref_list && cls_).

(** [a['name'] == 'DIMENSION_LIST' and a['type']['class'] == 'H5T_VLEN'] *)
Definition dim_list_test (a : json) : res bool :=
  n <- getitem a "name" ;;
  if py_eq_str n "DIMENSION_LIST" then
    t <- getitem a "type" ;;
    c <- getitem t "class" ;;
    ok (py_eq_str c "H5T_VLEN")
  else ok false.

(** [is_dimlist(attrs)] *)
Definition is_dimlist (attrs : list json) : res bool :=
  dim_list <- py_any dim_list_test attrs ;;
  ok (if dim_list then true else false).

(** [string.hexdigits] *)
Definition hexdigits : string := "0123456789abcdefABCDEF".

Section RandomString.

(** The index [int(random() * len(seq))] that the [i]-th call of
    [random.choice(seq)] picks from its sequence. *)
Variable choice_index : nat -> nat.

(** [random_string(nchar)]: [range(nchar)] is empty for [nchar <= 0]. *)
Definition random_string (nchar : Z) : string :=
  string_of_list_ascii
    (map (fun i => nth (choice_index i) (list_ascii_of_string hexdigits) "0"%char)
         (seq 0 (Z.to_nat nchar))).

End RandomString.

(** The items of a value that [value_check] hands to its test: every
    non-list item, at any depth of nesting. *)
Fixpoint json_leaves (v : json) : list json :=
  match v with
  | JArr l => List.concat (map json_leaves l)
  | _ => [v]
  end.

(** [v[k1][k2]...[kn]] through nested dicts. *)
Fixpoint get_path (p : list string) (v : json) : option json :=
  match p with
  | [] => Some v
  | k :: p' =>
      match v with
      | JObj kvs => match dict_get k kvs with Some w => get_path p' w | None => None end
      | _ => None
      end
  end.

(** numpy's [dtype.name] of the dtypes of [numpy_dtype]. *)
Definition dtype_name (d : npdtype) : string :=
  match d with
  | i1 => "int8" | u1 => "uint8" | i2 => "int16" | u2 => "uint16"
  | i4 => "int32" | u4 => "uint32" | i8 => "int64" | u8 => "uint64"
  | f4 => "float32" | f8 => "float64"
  end.

(* ================================================================== *)
(** ** Statements of the specification and example inputs *)

(** The enumeration of the spec: the predefined 8/16/32/64-bit integer
    and 32/64-bit float types, each with an endianness suffix. *)
Definition spec_numeric_bases : list string :=
  List.concat (map (fun b => [b ++ "LE"; b ++ "BE"])
    ["H5T_STD_I8"; "H5T_STD_U8"; "H5T_STD_I16"; "H5T_STD_U16";
     "H5T_STD_I32"; "H5T_STD_U32"; "H5T_STD_I64"; "H5T_STD_U64";
     "H5T_IEEE_F32"; "H5T_IEEE_F64"]).

(** A [dims] entry accepted by [check_shape]. *)
Definition dims_entry_ok (d : json) : Prop :=
  exists z, d = JInt z /\ (0 <= z <= uint64_max)%Z.

(** A [maxdims] entry that is unlimited, or a positive integer below
    [2^64 - 1] and at least its [dims] entry. *)
Definition maxdims_entry_ok (d m : json) : Prop :=
  m = JStr "H5S_UNLIMITED" \/
  exists zd zm, d = JInt zd /\ m = JInt zm /\ (0 < zm < uint64_max)%Z /\ (zd <= zm)%Z.

(** A dataset whose [2^32-1] by [2^32-1] chunk covers its whole dataspace. *)
Definition big_chunk_dataset : json :=
  JObj [("shape", JObj [("class", JStr "H5S_SIMPLE");
                        ("dims", JArr [JInt chunk_max; JInt chunk_max])]);
        ("creationProperties",
          JObj [("layout", JObj [("class", JStr "H5D_CHUNKED");
                                 ("dims", JArr [JInt chunk_max; JInt chunk_max])])])].

(** Scenario B: dataspace [dims=[2,3]] without [maxdims], chunk [[2,4]]. *)
Definition chunk_exceeds_dims_dataset : json :=
  JObj [("shape", JObj [("class", JStr "H5S_SIMPLE"); ("dims", JArr [JInt 2; JInt 3])]);
        ("creationProperties",
          JObj [("layout", JObj [("class", JStr "H5D_CHUNKED");
                                 ("dims", JArr [JInt 2; JInt 4])])])].

(** The same chunk with the second axis declared unlimited. *)
Definition chunk_unlimited_dataset : json :=
  JObj [("shape", JObj [("class", JStr "H5S_SIMPLE"); ("dims", JArr [JInt 2; JInt 3]);
                        ("maxdims", JArr [JInt 2; JStr "H5S_UNLIMITED"])]);
        ("creationProperties",
          JObj [("layout", JObj [("class", JStr "H5D_CHUNKED");
                                 ("dims", JArr [JInt 2; JInt 4])])])].

(** [shape.get('maxdims', shape['dims'])] as the bound of the chunk. *)
Definition effective_max_dims (skvs : list (string * json)) : option json :=
  match dict_get "maxdims" skvs with
  | Some m => Some m
  | None => dict_get "dims" skvs
  end.

(** Deflate-compressed dataset without a [layout] entry. *)
Definition filters_without_layout_dataset : json :=
  JObj [("creationProperties",
          JObj [("filters", JArr [JObj [("class", JStr "H5Z_FILTER_DEFLATE");
                                        ("id", JInt 1); ("level", JInt 5)]])])].

(** The same filter with an explicit contiguous layout, the layout HDF5
    (and [h5json_to_db]) use when none is given. *)
Definition filters_contiguous_layout_dataset : json :=
  JObj [("creationProperties",
          JObj [("layout", JObj [("class", JStr "H5D_CONTIGUOUS")]);
                ("filters", JArr [JObj [("class", JStr "H5Z_FILTER_DEFLATE");
                                        ("id", JInt 1); ("level", JInt 5)]])])].

(** A value on a [H5S_NULL] dataspace, with a reference datatype. *)
Definition null_reference_dataset : json :=
  JObj [("shape", JObj [("class", JStr "H5S_NULL")]);
        ("type", JObj [("class", JStr "H5T_REFERENCE"); ("base", JStr "H5T_STD_REF_OBJ")]);
        ("value", JInt 3)].

(** [h5j['type']['class']] when both lookups succeed. *)
Definition type_class (h5j : json) : option json :=
  match getitem h5j "type" with
  | inr ty => match getitem ty "class" with inr c => Some c | inl _ => None end
  | inl _ => None
  end.

(** Example inputs and the predicates of the further properties below. *)

(** A chunked, deflate-compressed integer dataset that [validate_h5json]
    accepts. *)
Definition example_dataset_kvs : list (string * json) :=
  [("name", JStr "temp");
   ("shape", JObj [("class", JStr "H5S_SIMPLE"); ("dims", JArr [JInt 2; JInt 3]);
                   ("maxdims", JArr [JInt 4; JStr "H5S_UNLIMITED"])]);
   ("type", JObj [("class", JStr "H5T_INTEGER"); ("base", JStr "H5T_STD_U8LE")]);
   ("value", JArr [JArr [JInt 1; JInt 2; JInt 3]; JArr [JInt 4; JInt 5; JInt 6]]);
   ("creationProperties",
     JObj [("layout", JObj [("class", JStr "H5D_CHUNKED"); ("dims", JArr [JInt 1; JInt 3])]);
           ("filters", JArr [JObj [("class", JStr "H5Z_FILTER_DEFLATE"); ("id", JInt 1);
                                   ("level", JInt 5)]])])].

(** A compound datatype with an integer and a float field. *)
Definition compound_type_kvs : list (string * json) :=
  [("class", JStr "H5T_COMPOUND");
   ("fields", JArr [JObj [("name", JStr "x");
                          ("type", JObj [("class", JStr "H5T_INTEGER"); ("base", JStr "H5T_STD_I8LE")])];
                    JObj [("name", JStr "y");
                          ("type", JObj [("class", JStr "H5T_FLOAT"); ("base", JStr "H5T_IEEE_F64LE")])]])].

(** A 3 by 2 array datatype of 32-bit big-endian integers. *)
Definition array_type_kvs : list (string * json) :=
  [("class", JStr "H5T_ARRAY"); ("dims", JArr [JInt 3; JInt 2]);
   ("base", JObj [("class", JStr "H5T_INTEGER"); ("base", JStr "H5T_STD_I32BE")])].

(** The attributes of a dimension scale. *)
Definition dimscale_attrs : list json :=
  [JObj [("name", JStr "CLASS"); ("value", JStr "DIMENSION_SCALE")];
   JObj [("name", JStr "REFERENCE_LIST");
         ("type", JObj [("class", JStr "H5T_COMPOUND")])]].

(** The attributes of a dataset with attached dimension scales. *)
Definition dimlist_attrs : list json :=
  [JObj [("name", JStr "DIMENSION_LIST");
         ("type", JObj [("class", JStr "H5T_VLEN")])]].

(** A root group whose only link is a hard link to itself. *)
Definition self_loop_design : design :=
  mk_design (Some "r") [("r", [group_link "r" "again"])].

(** What [_check_atomic_type] requires of a datatype of class [s]. *)
Definition atomic_ok (kvs : list (string * json)) (s : string) : Prop :=
  (s = "H5T_STRING" ->
   exists cs sp len, dict_get "charSet" kvs = Some cs /\
     (cs = JStr "H5T_CSET_ASCII" \/ cs = JStr "H5T_CSET_UTF8") /\
     dict_get "strPad" kvs = Some sp /\
     (sp = JStr "H5T_STR_NULLTERM" \/ sp = JStr "H5T_STR_NULLPAD" \/ sp = JStr "H5T_STR_SPACEPAD") /\
     dict_get "length" kvs = Some len /\
     (len = JStr "H5T_VARIABLE" \/ exists z, as_integral len = Some z /\ (0 < z)%Z)) /\
  ((s = "H5T_INTEGER" \/ s = "H5T_FLOAT") ->
   exists b d, dict_get "base" kvs = Some b /\ numpy_dtype b = ok d) /\
  (s = "H5T_REFERENCE" ->
   exists b, dict_get "base" kvs = Some b /\
     (b = JStr "H5T_STD_REF_OBJ" \/ b = JStr "H5T_STD_REF_DSETREG")).

(** The inner loop of [merge_nested] for the key [k]. *)
Definition merge_item (d1 d2 : list (string * json)) (k : string) : list (string * json) :=
  (fix in_d1 (l : list (string * json)) : list (string * json) :=
     match l with
     | [] =>
         match dict_get k d2 with
         | Some w2 => [(k, w2)]
         | None => []
         end
     | (k', w1) :: rest =>
         if String.eqb k k' then
           match dict_get k d2 with
           | Some w2 => [(k, merge_nested w1 w2)]
           | None => [(k, w1)]
           end
         else in_d1 rest
     end) d1.

(** The keys [merge_nested] iterates over: the union of both key sets. *)
Definition merge_keys (d1 d2 : list (string * json)) : list string :=
  elements (list_to_set (map fst d1) ∪ list_to_set (map fst d2) : gset string).

(** The value the merge holds for a key, from the values of both dicts. *)
Definition merge_val (o1 o2 : option json) : option json :=
  match o1, o2 with
  | Some w1, Some w2 => Some (merge_nested w1 w2)
  | Some w1, None => Some w1
  | None, o => o
  end.

(** [l] is a hard link of the group [p] into the collection [coll]. *)
Definition hard_link (groups : list (string * list link)) (p : entry) (coll : string) (l : link) : Prop :=
  exists links, assoc_get (e_id p) groups = Some links /\ In l links /\
    l_class l = "H5L_TYPE_HARD" /\ l_collection l = coll.

(** The group entries reachable from the root [r] through hard group links. *)
Inductive reached (groups : list (string * list link)) (r : string) : entry -> Prop :=
| reached_root : reached groups r (mk_entry r "/")
| reached_link (p : entry) (l : link) :
    reached groups r p -> hard_link groups p "groups" l -> reached groups r (link_entry p l).

(** The dataset entries reached from the root [r]: the targets of hard
    dataset links of reached groups. *)
Definition dataset_of (groups : list (string * list link)) (r : string) (e : entry) : Prop :=
  exists p l, reached groups r p /\ hard_link groups p "datasets" l /\ e = link_entry p l.

(** What a run of an operation of the rewriter does to the [defaultdict]:
    it only grows, it stores exactly the keys of [K] besides its old ones,
    and it calls the generator once per new key. *)
Definition track (K : list string) (s s' : ustate) : Prop :=
  us_map s ⊆ us_map s' /\
  (us_next s = size (us_map s) -> us_next s' = size (us_map s')) /\
  (forall k, is_Some (us_map s' !! k) -> is_Some (us_map s !! k) \/ In k K) /\
  (forall k, In k K -> is_Some (us_map s' !! k)).

(** The attribute values [scrub_value] accepts. *)
Definition scrubbable (v : json) : Prop :=
  (exists l, v = JArr l) \/ v = JStr "" \/ v = JObj [].

(* ================================================================== *)
(** ** Lemmas on the result monad and the loops *)

Lemma rbind_inr {A B} (m : res A) (k : A -> res B) (b : B) :
  rbind m k = inr b -> exists a, m = inr a /\ k a = inr b.
Proof. destruct m as [e|a]; simpl; [discriminate | eauto]. Qed.

Lemma rbind_ok {A B} (m : res A) (k : A -> res B) (a : A) :
  m = inr a -> rbind m k = k a.
Proof. intros ->. reflexivity. Qed.

Lemma unit_res_ok (r : res unit) : (exists u, r = inr u) -> r = ok tt.
Proof. intros [[] ->]. reflexivity. Qed.

(** Destructs every successful [rbind] in hypothesis [H]. *)
Ltac res_inv H :=
  repeat match type of H with
  | rbind ?m ?k = _ =>
      let a := fresh "a" in
      let Hm := fresh "Hm" in
      let H' := fresh H in
      apply rbind_inr in H; destruct H as [a [Hm H']]; clear H; rename H' into H
  end.

Lemma iter_res_ok {A} (f : A -> res unit) (l : list A) :
  iter_res f l = ok tt <-> Forall (fun x => f x = ok tt) l.
Proof.
  induction l as [|x xs IH]; simpl.
  - split; auto.
  - split.
    + intros H. destruct (f x) as [e|[]] eqn:Hf; simpl in H; [discriminate|].
      constructor; [exact Hf | apply IH; exact H].
    + intros H. inversion H as [|? ? Hx Hxs]; subst.
      rewrite Hx. simpl. apply IH. exact Hxs.
Qed.

Lemma iter_res_In {A} (f : A -> res unit) (l : list A) (x : A) :
  iter_res f l = ok tt -> In x l -> f x = ok tt.
Proof.
  intros H Hin. apply iter_res_ok in H.
  rewrite List.Forall_forall in H. apply H, Hin.
Qed.

Lemma iteri_res_ok {A} (f : nat -> A -> res unit) (i : nat) (l : list A) :
  (forall j x, l !! j = Some x -> f (i + j) x = ok tt) ->
  iteri_res f i l = ok tt.
Proof.
  revert i. induction l as [|x xs IH]; intros i H; simpl; [reflexivity|].
  specialize (H 0 x) as H0. rewrite Nat.add_0_r in H0. rewrite H0 by reflexivity. simpl.
  apply IH. intros j y Hy. replace (S i + j) with (i + S j) by lia.
  apply (H (S j)). exact Hy.
Qed.

Lemma iteri_res_fail {A} (f : nat -> A -> res unit) (i : nat) (l : list A)
  (j : nat) (x : A) (e : py_err) :
  l !! j = Some x ->
  (forall j' y, j' < j -> l !! j' = Some y -> f (i + j') y = ok tt) ->
  f (i + j) x = inl e ->
  iteri_res f i l = inl e.
Proof.
  revert i j. induction l as [|y ys IH]; intros i j Hj Hbefore Hfail; [discriminate|].
  destruct j as [|j]; simpl in Hj.
  - injection Hj as ->. simpl. rewrite Nat.add_0_r in Hfail. rewrite Hfail. reflexivity.
  - simpl. specialize (Hbefore 0 y) as H0. rewrite Nat.add_0_r in H0.
    rewrite H0 by (reflexivity || lia). simpl.
    apply (IH (S i) j Hj).
    + intros j' z Hj' Hz. replace (S i + j') with (i + S j') by lia.
      apply (Hbefore (S j')); [lia | exact Hz].
    + replace (S i + j) with (i + S j) by lia. exact Hfail.
Qed.

(* ================================================================== *)
(** ** The datatype validator on atomic numeric types *)

Lemma check_type_numeric (kvs : list (string * json)) (c s : string) :
  dict_get "class" kvs = Some (JStr c) ->
  (c = "H5T_INTEGER" \/ c = "H5T_FLOAT") ->
  dict_get "base" kvs = Some (JStr s) ->
  check_type (JObj kvs) =
    match conv_map (drop_last2 s) with
    | Some _ => ok tt
    | None => raise ValueError "%s: Invalid predefined datatype"
    end.
Proof.
  intros Hc Hcls Hb.
  unfold check_type. cbn [json_size check_type_fuel].
  unfold py_in, getitem. rewrite Hc.
  destruct Hcls as [-> | ->]; cbn;
    unfold check_atomic_type, getitem, py_in; rewrite Hc; cbn; rewrite Hb; cbn;
    destruct (conv_map (drop_last2 s)); reflexivity.
Qed.

(** C5: An [H5T_INTEGER] or [H5T_FLOAT] datatype with a string
    [base] validates exactly when [base] without its last two characters
    is one of the ten predefined type names of [numpy_dtype]'s map; the two
    trailing characters are not checked. Otherwise validation fails with
    the ValueError "Invalid predefined datatype" (UnknownBaseType). *)
Theorem check_type_numeric_base (kvs : list (string * json)) (c s : string) :
  dict_get "class" kvs = Some (JStr c) ->
  (c = "H5T_INTEGER" \/ c = "H5T_FLOAT") ->
  dict_get "base" kvs = Some (JStr s) ->
  (check_type (JObj kvs) = ok tt <-> conv_map (drop_last2 s) <> None) /\
  (conv_map (drop_last2 s) = None ->
   check_type (JObj kvs) = raise ValueError "%s: Invalid predefined datatype").
Proof.
  intros Hc Hcls Hb. rewrite (check_type_numeric kvs c s Hc Hcls Hb).
  destruct (conv_map (drop_last2 s)); split; try split; intros; try discriminate; auto.
  congruence.
Qed.

Lemma check_type_numeric_base_witness :
  dict_get "class" [("class", JStr "H5T_INTEGER"); ("base", JStr "H5T_STD_I32LE")] =
    Some (JStr "H5T_INTEGER") /\
  check_type (JObj [("class", JStr "H5T_INTEGER"); ("base", JStr "H5T_STD_I32LE")]) = ok tt.
Proof.
  split; [reflexivity|].
  apply (proj1 (check_type_numeric_base
                  [("class", JStr "H5T_INTEGER"); ("base", JStr "H5T_STD_I32LE")]
                  "H5T_INTEGER" "H5T_STD_I32LE" eq_refl (or_introl eq_refl) eq_refl)).
  vm_compute. discriminate.
Defined.

(** C5 (counterexample): The integer descriptor with base
    [H5T_STD_I32XY], which is not in the spec's enumeration, validates. *)
Lemma check_type_unchecked_suffix :
  check_type (JObj [("class", JStr "H5T_INTEGER"); ("base", JStr "H5T_STD_I32XY")]) = ok tt /\
  ~ In "H5T_STD_I32XY" spec_numeric_bases.
Proof.
  split; [vm_compute; reflexivity|].
  vm_compute. intros H. repeat (destruct H as [H|H]; [discriminate H|]). exact H.
Qed.

Lemma check_shape_simple_reduce (kvs : list (string * json)) (dl ml : list json) :
  dict_get "class" kvs = Some (JStr "H5S_SIMPLE") ->
  dict_get "dims" kvs = Some (JArr dl) ->
  dict_get "maxdims" kvs = Some (JArr ml) ->
  0 < List.length dl <= 32 -> List.length ml = List.length dl ->
  iter_res check_dims_entry dl = ok tt ->
  check_shape (JObj kvs) = iteri_res (check_maxdims_entry dl) 0 ml.
Proof.
  intros Hc Hd Hm Hlen Hml Hdl.
  unfold check_shape, check_rank_key, py_in, getitem. rewrite Hc, Hd, Hm. cbn.
  rewrite Hd, Hm. cbn. rewrite Hml.
  destruct (List.length dl) as [|n] eqn:E; [lia|].
  rewrite (proj2 (Nat.leb_le (S n) 32)) by lia. cbn.
  rewrite Hdl. cbn. rewrite Nat.eqb_refl. reflexivity.
Qed.

Lemma check_dims_entries_ok (dl : list json) :
  Forall dims_entry_ok dl -> iter_res check_dims_entry dl = ok tt.
Proof.
  intros H. apply iter_res_ok. eapply Forall_impl; [exact H|].
  intros d [z [-> Hz]]. unfold check_dims_entry. cbn.
  rewrite (proj2 (Z.ltb_ge z 0)) by lia.
  rewrite (proj2 (Z.ltb_ge uint64_max z)) by lia. reflexivity.
Qed.

Lemma check_maxdims_entry_ok (dl : list json) (j : nat) (d m : json) :
  dl !! j = Some d -> maxdims_entry_ok d m -> check_maxdims_entry dl j m = ok tt.
Proof.
  intros Hd [-> | [zd [zm [-> [-> [Hzm Hle]]]]]]; [reflexivity|].
  unfold check_maxdims_entry. cbn.
  rewrite (proj2 (Z.leb_gt zm 0)) by lia.
  rewrite (proj2 (Z.leb_gt uint64_max zm)) by lia. cbn.
  rewrite (nth_lookup_Some dl j JNull (JInt zd) Hd). cbn.
  rewrite (proj2 (Z.ltb_ge zm zd)) by lia. reflexivity.
Qed.

(** C6: For a [H5S_SIMPLE] dataspace whose [dims] is a list of
    1 to 32 integers in [0, 2^64-1] and whose [maxdims] has, entry by
    entry, either ["H5S_UNLIMITED"] or an integer [m] with
    [0 < m < 2^64-1] and [m >= dims[i]], [check_shape] succeeds; replacing
    one [maxdims] entry by an integer [m'] with [0 < m' < dims[i]] makes
    it fail with the ValueError "dims greater than maxdims"
    (DimsExceedMaxdims). *)
Theorem check_shape_maxdims (kvs : list (string * json)) (dl ml : list json) :
  dict_get "class" kvs = Some (JStr "H5S_SIMPLE") ->
  dict_get "dims" kvs = Some (JArr dl) ->
  dict_get "maxdims" kvs = Some (JArr ml) ->
  0 < List.length dl <= 32 ->
  Forall dims_entry_ok dl ->
  Forall2 maxdims_entry_ok dl ml ->
  check_shape (JObj kvs) = ok tt /\
  (forall (kvs' : list (string * json)) (i : nat) (zd zm : Z),
     dict_get "class" kvs' = Some (JStr "H5S_SIMPLE") ->
     dict_get "dims" kvs' = Some (JArr dl) ->
     dict_get "maxdims" kvs' = Some (JArr (<[i := JInt zm]> ml)) ->
     dl !! i = Some (JInt zd) ->
     (0 < zm < zd)%Z ->
     check_shape (JObj kvs') =
       raise ValueError "Dimension #%d: dims greater than maxdims").
Proof.
  intros Hc Hd Hm Hlen Hdl Hml.
  assert (Hlen' : List.length ml = List.length dl) by (symmetry; eapply Forall2_length; exact Hml).
  assert (Hdims := check_dims_entries_ok dl Hdl).
  split.
  - rewrite (check_shape_simple_reduce kvs dl ml Hc Hd Hm Hlen Hlen' Hdims).
    apply iteri_res_ok. intros j m Hj. simpl.
    destruct (Forall2_lookup_r _ _ _ _ _ Hml Hj) as [d [Hdj Hdm]].
    eapply check_maxdims_entry_ok; eauto.
  - intros kvs' i zd zm Hc' Hd' Hm' Hi Hz.
    assert (Hilt : i < List.length ml).
    { rewrite Hlen'. apply lookup_lt_is_Some_1. eauto. }
    rewrite (check_shape_simple_reduce kvs' dl (<[i := JInt zm]> ml) Hc' Hd' Hm' Hlen)
      by first [rewrite length_insert; exact Hlen' | exact Hdims].
    apply (iteri_res_fail _ 0 _ i (JInt zm)).
    + apply list_lookup_insert_eq. exact Hilt.
    + intros j' y Hj' Hy. rewrite list_lookup_insert_ne in Hy by lia.
      destruct (Forall2_lookup_r _ _ _ _ _ Hml Hy) as [d [Hdj Hdm]].
      eapply check_maxdims_entry_ok; eauto.
    + simpl. unfold check_maxdims_entry. cbn.
      assert (Hmax : (zd <= uint64_max)%Z).
      { destruct (Forall_lookup_1 _ _ _ _ Hdl Hi) as [z' [Hz' Hb]].
        injection Hz' as <-. lia. }
      rewrite (proj2 (Z.leb_gt zm 0)) by lia.
      rewrite (proj2 (Z.leb_gt uint64_max zm)) by lia. cbn.
      rewrite (nth_lookup_Some dl i JNull (JInt zd) Hi). cbn.
      rewrite (proj2 (Z.ltb_lt zm zd)) by lia. reflexivity.
Qed.

Lemma check_shape_maxdims_witness :
  check_shape (JObj [("class", JStr "H5S_SIMPLE"); ("dims", JArr [JInt 3; JInt 4]);
                     ("maxdims", JArr [JInt 5; JStr "H5S_UNLIMITED"])]) = ok tt.
Proof.
  apply (check_shape_maxdims
           [("class", JStr "H5S_SIMPLE"); ("dims", JArr [JInt 3; JInt 4]);
            ("maxdims", JArr [JInt 5; JStr "H5S_UNLIMITED"])]
           [JInt 3; JInt 4] [JInt 5; JStr "H5S_UNLIMITED"]); try reflexivity.
  - simpl. lia.
  - repeat constructor; eexists; (split; [reflexivity | unfold uint64_max; lia]).
  - constructor; [|constructor; [left; reflexivity | constructor]].
    right. exists 3%Z, 5%Z. unfold uint64_max. repeat split; lia.
Defined.

(** C6 (counterexample): Lowering [maxdims = [1]] to [[0]] below
    [dims = [1]] fails with the out-of-range ValueError, not with
    "dims greater than maxdims"; [dims = [0]], [maxdims = [0]] satisfies
    [maxdims >= dims] and still fails. *)
Lemma check_shape_nonpositive_maxdims :
  check_shape (JObj [("class", JStr "H5S_SIMPLE"); ("dims", JArr [JInt 1]);
                     ("maxdims", JArr [JInt 1])]) = ok tt /\
  check_shape (JObj [("class", JStr "H5S_SIMPLE"); ("dims", JArr [JInt 1]);
                     ("maxdims", JArr [JInt 0])]) =
    raise ValueError "Dataspace 'maxdims': Dimension size out of range: %d" /\
  check_shape (JObj [("class", JStr "H5S_SIMPLE"); ("dims", JArr [JInt 0]);
                     ("maxdims", JArr [JInt 0])]) =
    raise ValueError "Dataspace 'maxdims': Dimension size out of range: %d".
Proof. repeat split; vm_compute; reflexivity. Qed.

Lemma iteri_res_ok_inv {A} (f : nat -> A -> res unit) (i : nat) (l : list A) (j : nat) (x : A) :
  iteri_res f i l = ok tt -> l !! j = Some x -> f (i + j) x = ok tt.
Proof.
  revert i j. induction l as [|y ys IH]; intros i j H Hj; [discriminate|].
  simpl in H. destruct (f i y) as [e|[]] eqn:Hf; simpl in H; [discriminate|].
  destruct j as [|j]; simpl in Hj.
  - injection Hj as <-. rewrite Nat.add_0_r. exact Hf.
  - replace (i + S j) with (S i + j) by lia. apply IH; assumption.
Qed.

(* ================================================================== *)
(** ** The object validator: creation properties *)

Section ValidatorFacts.

Variable real_out_of_range : npdtype -> Q -> bool.

Lemma validate_cp_ok (reqd : list string) (kvs : list (string * json)) (cp : json) :
  validate_h5json real_out_of_range reqd (JObj kvs) = ok tt ->
  dict_get "creationProperties" kvs = Some cp ->
  cp_encoding cp = ok tt /\ cp_layout (JObj kvs) cp = ok tt /\
  cp_filters (JObj kvs) cp = ok tt.
Proof.
  intros H Hcp. unfold validate_h5json in H. res_inv H.
  unfold stage_cp, py_in, getitem in H. rewrite Hcp in H. simpl in H. res_inv H.
  repeat match goal with u : unit |- _ => destruct u end.
  repeat split; assumption.
Qed.

End ValidatorFacts.

Lemma py_lt_int_real (v : json) (q : Q) (c : Z) :
  as_real v = Some q -> py_lt_int v c = negb (Qle_bool (inject_Z c) q).
Proof. intros H; destruct v; try discriminate; unfold py_lt_int; rewrite H; reflexivity. Qed.

Lemma real_not_basestring (v : json) (q : Q) : as_real v = Some q -> is_basestring v = false.
Proof. destruct v; simpl; congruence. Qed.

(** C4: the chunk size check multiplies the chunk dimensions with numpy's
    [int64] product, which wraps around: the chunk [[2^32-1, 2^32-1]], whose
    product [(2^32-1)^2] is not less than [2^32], passes validation. *)
Theorem chunk_product_wraps (real_out_of_range : npdtype -> Q -> bool) :
  validate_h5json real_out_of_range [] big_chunk_dataset = ok tt /\
  (2 ^ 32 <= chunk_max * chunk_max)%Z /\
  np_prod [chunk_max; chunk_max] = (- 8589934591)%Z.
Proof. vm_compute. repeat split; congruence. Qed.

(** C7: a chunked dataset with a [H5S_SIMPLE] dataspace validates only if
    every chunk dimension is at most the numeric entry of [maxdims] (or of
    [dims] when [maxdims] is absent) on the same axis; the string entry
    [H5S_UNLIMITED] puts no bound, and scenario B ([dims=[2,3]], chunk
    [[2,4]]) fails the check. *)
Theorem chunk_within_max_dims (real_out_of_range : npdtype -> Q -> bool)
    (reqd : list string) (kvs skvs ckvs lkvs : list (string * json))
    (cl md : list json) :
  dict_get "shape" kvs = Some (JObj skvs) ->
  dict_get "class" skvs = Some (JStr "H5S_SIMPLE") ->
  dict_get "creationProperties" kvs = Some (JObj ckvs) ->
  dict_get "layout" ckvs = Some (JObj lkvs) ->
  dict_get "class" lkvs = Some (JStr "H5D_CHUNKED") ->
  dict_get "dims" lkvs = Some (JArr cl) ->
  effective_max_dims skvs = Some (JArr md) ->
  validate_h5json real_out_of_range reqd (JObj kvs) = ok tt ->
  (forall (n : nat) (c m : json) (cz : Z) (q : Q),
      cl !! n = Some c -> md !! n = Some m ->
      as_integral c = Some cz -> as_real m = Some q -> (inject_Z cz <= q)%Q) /\
  validate_h5json real_out_of_range [] chunk_exceeds_dims_dataset =
    raise ValueError "Chunking dim size %d greater than max size %d" /\
  validate_h5json real_out_of_range [] chunk_unlimited_dataset = ok tt.
Proof.
  intros Hs Hsc Hcp Hl Hlc Hld Heff Hv.
  split; [|split; vm_compute; reflexivity].
  destruct (validate_cp_ok real_out_of_range reqd kvs (JObj ckvs) Hv Hcp) as [_ [H _]].
  unfold cp_layout, py_in, getitem, dict_get_default in H. simpl in H.
  rewrite Hl in H. simpl in H. rewrite Hlc in H. simpl in H.
  rewrite Hld in H. simpl in H. res_inv H.
  destruct (Z.ltb chunk_max _); [discriminate|]. simpl in H.
  rewrite Hs in H. simpl in H. rewrite Hsc in H. simpl in H.
  unfold effective_max_dims in Heff.
  destruct (dict_get "dims" skvs) as [dims|] eqn:Hd; simpl in H; [|discriminate].
  res_inv H.
  lazymatch type of H with
  | context [if negb ?b then _ else _] => destruct (negb b); [discriminate|]
  end.
  destruct (dict_get "maxdims" skvs) as [mx|] eqn:Hmx; simpl in H;
    injection Heff as ->; res_inv H.
  all: intros n c m cz q Hc Hmn Hcz Hq.
  all: pose proof (iteri_res_ok_inv _ 0 md n m H Hmn) as Hstep; simpl in Hstep.
  all: rewrite (nth_lookup_Some cl n JNull c Hc) in Hstep.
  all: unfold int_or_zero in Hstep; rewrite Hcz in Hstep.
  all: rewrite (real_not_basestring m q Hq), (py_lt_int_real m q cz Hq) in Hstep.
  all: destruct (Qle_bool (inject_Z cz) q) eqn:Hle; simpl in Hstep;
       [apply Qle_bool_iff; exact Hle | discriminate].
Qed.

Lemma chunk_within_max_dims_witness :
  validate_h5json (fun _ _ => false) [] chunk_unlimited_dataset = ok tt /\
  (forall (n : nat) (c m : json) (cz : Z) (q : Q),
      [JInt 2; JInt 4] !! n = Some c -> [JInt 2; JStr "H5S_UNLIMITED"] !! n = Some m ->
      as_integral c = Some cz -> as_real m = Some q -> (inject_Z cz <= q)%Q).
Proof.
  split; [vm_compute; reflexivity|].
  apply (chunk_within_max_dims (fun _ _ => false) []
    [("shape", JObj [("class", JStr "H5S_SIMPLE"); ("dims", JArr [JInt 2; JInt 3]);
                     ("maxdims", JArr [JInt 2; JStr "H5S_UNLIMITED"])]);
     ("creationProperties",
       JObj [("layout", JObj [("class", JStr "H5D_CHUNKED");
                              ("dims", JArr [JInt 2; JInt 4])])])]
    [("class", JStr "H5S_SIMPLE"); ("dims", JArr [JInt 2; JInt 3]);
     ("maxdims", JArr [JInt 2; JStr "H5S_UNLIMITED"])]
    [("layout", JObj [("class", JStr "H5D_CHUNKED"); ("dims", JArr [JInt 2; JInt 4])])]
    [("class", JStr "H5D_CHUNKED"); ("dims", JArr [JInt 2; JInt 4])]
    [JInt 2; JInt 4] [JInt 2; JStr "H5S_UNLIMITED"]);
  vm_compute; reflexivity.
Defined.

(** When the creation properties declare a [layout] whose class is not
    [H5D_CHUNKED] and a non-empty [filters] list, the filter check raises
    the ValueError "Filters allowed only with chunked layout" and the object
    does not validate. *)
Theorem filters_need_chunked_layout (real_out_of_range : npdtype -> Q -> bool)
    (reqd : list string) (kvs ckvs lkvs : list (string * json)) (lc : json)
    (fs : list json) :
  dict_get "creationProperties" kvs = Some (JObj ckvs) ->
  dict_get "layout" ckvs = Some (JObj lkvs) ->
  dict_get "class" lkvs = Some lc ->
  py_eq_str lc "H5D_CHUNKED" = false ->
  dict_get "filters" ckvs = Some (JArr fs) ->
  fs <> [] ->
  cp_filters (JObj kvs) (JObj ckvs) =
    raise ValueError "Filters allowed only with chunked layout" /\
  validate_h5json real_out_of_range reqd (JObj kvs) <> ok tt.
Proof.
  intros Hcp Hl Hlc Hne Hf Hfs.
  assert (E : cp_filters (JObj kvs) (JObj ckvs) =
              raise ValueError "Filters allowed only with chunked layout").
  { unfold cp_filters, filters_layout_check, py_in, getitem. simpl.
    rewrite Hf. simpl. rewrite Hl. simpl. rewrite Hlc. simpl. rewrite Hne. simpl.
    destruct fs; [contradiction|reflexivity]. }
  split; [exact E|]. intros Hv.
  destruct (validate_cp_ok real_out_of_range reqd kvs (JObj ckvs) Hv Hcp) as [_ [_ H]].
  rewrite E in H. discriminate.
Qed.

(** C8 (code bug): the check "Filters are allowed only for chunked layout"
    sits under [if 'layout' in cp], so it is skipped when no layout is
    given, although the layout then defaults to contiguous: a deflate
    filter without a [layout] entry validates, while the same filter with
    the explicit contiguous layout is rejected. *)
Theorem filters_without_layout_accepted :
  validate_h5json (fun _ _ => false) [] filters_without_layout_dataset = ok tt /\
  validate_h5json (fun _ _ => false) [] filters_contiguous_layout_dataset =
    raise ValueError "Filters allowed only with chunked layout".
Proof. split; vm_compute; reflexivity. Qed.

Lemma filters_need_chunked_layout_witness :
  cp_filters (JObj [("creationProperties",
                      JObj [("layout", JObj [("class", JStr "H5D_CONTIGUOUS")]);
                            ("filters", JArr [JObj [("class", JStr "H5Z_FILTER_SHUFFLE"); ("id", JInt 2)]])])])
             (JObj [("layout", JObj [("class", JStr "H5D_CONTIGUOUS")]);
                    ("filters", JArr [JObj [("class", JStr "H5Z_FILTER_SHUFFLE"); ("id", JInt 2)]])]) =
    raise ValueError "Filters allowed only with chunked layout".
Proof.
  apply (filters_need_chunked_layout (fun _ _ => false) []
    [("creationProperties",
      JObj [("layout", JObj [("class", JStr "H5D_CONTIGUOUS")]);
            ("filters", JArr [JObj [("class", JStr "H5Z_FILTER_SHUFFLE"); ("id", JInt 2)]])])]
    [("layout", JObj [("class", JStr "H5D_CONTIGUOUS")]);
     ("filters", JArr [JObj [("class", JStr "H5Z_FILTER_SHUFFLE"); ("id", JInt 2)]])]
    [("class", JStr "H5D_CONTIGUOUS")] (JStr "H5D_CONTIGUOUS")
    [JObj [("class", JStr "H5Z_FILTER_SHUFFLE"); ("id", JInt 2)]]);
  [reflexivity.. | discriminate].
Defined.

(** C9: a ScaleOffset entry of [creationProperties.filters] never validates
    with the scale type [H5Z_SO_FLOAT_ESCALE], nor with [H5Z_SO_INT] unless
    the datatype class is [H5T_INTEGER], nor with [H5Z_SO_FLOAT_DSCALE]
    unless the datatype class is [H5T_FLOAT]. *)
Theorem scale_offset_type_match (real_out_of_range : npdtype -> Q -> bool)
    (reqd : list string) (kvs ckvs fkvs : list (string * json))
    (fs : list json) (st : json) :
  dict_get "creationProperties" kvs = Some (JObj ckvs) ->
  dict_get "filters" ckvs = Some (JArr fs) ->
  In (JObj fkvs) fs ->
  dict_get "class" fkvs = Some (JStr "H5Z_FILTER_SCALEOFFSET") ->
  dict_get "scaleType" fkvs = Some st ->
  (st = JStr "H5Z_SO_FLOAT_ESCALE" \/
   (st = JStr "H5Z_SO_INT" /\ type_class (JObj kvs) <> Some (JStr "H5T_INTEGER")) \/
   (st = JStr "H5Z_SO_FLOAT_DSCALE" /\ type_class (JObj kvs) <> Some (JStr "H5T_FLOAT"))) ->
  validate_h5json real_out_of_range reqd (JObj kvs) <> ok tt.
Proof.
  intros Hcp Hf Hin Hc Hst Hcase Hv.
  destruct (validate_cp_ok real_out_of_range reqd kvs (JObj ckvs) Hv Hcp) as [_ [_ H]].
  unfold cp_filters, py_in, getitem in H. simpl in H. rewrite Hf in H. simpl in H.
  res_inv H.
  destruct a0. pose proof (iter_res_In _ _ _ Hm0 Hin) as Hfi. clear H Hm Hm0 Hm1.
  unfold check_filter, py_in, getitem in Hfi. simpl in Hfi. rewrite Hc in Hfi. simpl in Hfi.
  destruct (dict_get "id" fkvs) as [fid|]; simpl in Hfi; [|discriminate].
  destruct (as_integral fid) as [z|]; simpl in Hfi; [|discriminate].
  destruct (z <=? 0)%Z; simpl in Hfi; [discriminate|].
  rewrite Hst in Hfi. simpl in Hfi.
  unfold type_class, getitem in Hcase. simpl in Hcase.
  destruct Hcase as [-> | [[-> Ht] | [-> Ht]]]; simpl in Hfi;
    destruct (dict_get "scaleOffset" fkvs); simpl in Hfi; try discriminate.
  - destruct (dict_get "type" kvs) as [[| | | | | | tkvs]|]; simpl in Hfi, Ht; try discriminate.
    destruct (dict_get "class" tkvs) as [tc|]; simpl in Hfi, Ht; try discriminate.
    destruct tc; simpl in Hfi, Ht; try discriminate.
    destruct (String.eqb s "H5T_INTEGER") eqn:E; simpl in Hfi, Ht; try discriminate.
    apply String.eqb_eq in E. subst s. simpl in Ht. contradiction.
  - destruct (dict_get "type" kvs) as [[| | | | | | tkvs]|]; simpl in Hfi, Ht; try discriminate.
    destruct (dict_get "class" tkvs) as [tc|]; simpl in Hfi, Ht; try discriminate.
    destruct tc; simpl in Hfi, Ht; try discriminate.
    destruct (String.eqb s "H5T_FLOAT") eqn:E; simpl in Hfi, Ht; try discriminate.
    apply String.eqb_eq in E. subst s. simpl in Ht. contradiction.
Qed.

Lemma scale_offset_type_match_witness :
  validate_h5json (fun _ _ => false) []
    (JObj [("type", JObj [("class", JStr "H5T_FLOAT"); ("base", JStr "H5T_IEEE_F32LE")]);
           ("creationProperties",
             JObj [("filters", JArr [JObj [("class", JStr "H5Z_FILTER_SCALEOFFSET");
                                           ("id", JInt 6);
                                           ("scaleType", JStr "H5Z_SO_INT");
                                           ("scaleOffset", JInt 0)]])])]) <> ok tt.
Proof.
  apply (scale_offset_type_match (fun _ _ => false) []
    [("type", JObj [("class", JStr "H5T_FLOAT"); ("base", JStr "H5T_IEEE_F32LE")]);
     ("creationProperties",
       JObj [("filters", JArr [JObj [("class", JStr "H5Z_FILTER_SCALEOFFSET");
                                     ("id", JInt 6);
                                     ("scaleType", JStr "H5Z_SO_INT");
                                     ("scaleOffset", JInt 0)]])])]
    [("filters", JArr [JObj [("class", JStr "H5Z_FILTER_SCALEOFFSET");
                             ("id", JInt 6);
                             ("scaleType", JStr "H5Z_SO_INT");
                             ("scaleOffset", JInt 0)]])]
    [("class", JStr "H5Z_FILTER_SCALEOFFSET"); ("id", JInt 6);
     ("scaleType", JStr "H5Z_SO_INT"); ("scaleOffset", JInt 0)]
    [JObj [("class", JStr "H5Z_FILTER_SCALEOFFSET"); ("id", JInt 6);
           ("scaleType", JStr "H5Z_SO_INT"); ("scaleOffset", JInt 0)]]
    (JStr "H5Z_SO_INT")); try reflexivity.
  - left. reflexivity.
  - right. left. split; [reflexivity | vm_compute; discriminate].
Defined.

(** C10: an object whose [shape] is a valid [H5S_NULL] dataspace and which
    carries a [value] (its required keys present and its [type], if any,
    valid) never validates: the value stage raises the error of building the
    value checker of its datatype ([value_check_factory]) when that fails,
    and otherwise the UnboundLocalError of the never assigned [val]. *)
Theorem null_dataspace_value_error (real_out_of_range : npdtype -> Q -> bool)
    (reqd : list string) (kvs skvs : list (string * json)) (v : json) :
  check_reqd reqd (JObj kvs) = ok tt ->
  dict_get "shape" kvs = Some (JObj skvs) ->
  dict_get "class" skvs = Some (JStr "H5S_NULL") ->
  check_shape (JObj skvs) = ok tt ->
  match dict_get "type" kvs with Some t => check_type t = ok tt | None => True end ->
  dict_get "value" kvs = Some v ->
  validate_h5json real_out_of_range reqd (JObj kvs) =
    match type_checker real_out_of_range (JObj kvs) with
    | inl e => inl e
    | inr _ => raise UnboundLocalError "local variable 'val' referenced before assignment"
    end.
Proof.
  intros Hr Hs Hsc Hcs Ht Hv.
  unfold validate_h5json. rewrite Hr. simpl.
  unfold stage_shape, py_in, getitem. simpl. rewrite Hs. simpl. rewrite Hcs. simpl.
  unfold stage_type, py_in, getitem. simpl.
  destruct (dict_get "type" kvs) as [t|] eqn:Hty; simpl.
  - rewrite Ht. simpl.
    unfold stage_value, py_in, getitem. simpl. rewrite Hv. simpl. rewrite Hs. simpl.
    rewrite Hsc. simpl.
    destruct (type_checker real_out_of_range (JObj kvs)); reflexivity.
  - unfold stage_value, py_in, getitem. simpl. rewrite Hv. simpl. rewrite Hs. simpl.
    rewrite Hsc. simpl.
    destruct (type_checker real_out_of_range (JObj kvs)); reflexivity.
Qed.

(** C10 (counterexample): with a reference datatype the error on a
    [H5S_NULL] dataspace with a value is the NotImplementedError of
    [value_check_factory], not an unbound local variable. *)
Lemma null_dataspace_reference_value :
  validate_h5json (fun _ _ => false) [] null_reference_dataset =
    raise NotImplementedError "%s: HDF5 datatype class is not supported.".
Proof. vm_compute. reflexivity. Qed.

Lemma null_dataspace_value_error_witness :
  validate_h5json (fun _ _ => false) ["value"]
    (JObj [("shape", JObj [("class", JStr "H5S_NULL")]);
           ("type", JObj [("class", JStr "H5T_INTEGER"); ("base", JStr "H5T_STD_I32LE")]);
           ("value", JInt 3)]) =
    match type_checker (fun _ _ => false)
            (JObj [("shape", JObj [("class", JStr "H5S_NULL")]);
                   ("type", JObj [("class", JStr "H5T_INTEGER"); ("base", JStr "H5T_STD_I32LE")]);
                   ("value", JInt 3)]) with
    | inl e => inl e
    | inr _ => raise UnboundLocalError "local variable 'val' referenced before assignment"
    end.
Proof.
  apply (null_dataspace_value_error (fun _ _ => false) ["value"]
    [("shape", JObj [("class", JStr "H5S_NULL")]);
     ("type", JObj [("class", JStr "H5T_INTEGER"); ("base", JStr "H5T_STD_I32LE")]);
     ("value", JInt 3)]
    [("class", JStr "H5S_NULL")] (JInt 3)); vm_compute; first [exact I | reflexivity].
Defined.

Lemma null_dataspace_integer_value_unbound :
  forall real_out_of_range : npdtype -> Q -> bool,
  validate_h5json real_out_of_range ["value"]
    (JObj [("shape", JObj [("class", JStr "H5S_NULL")]);
           ("type", JObj [("class", JStr "H5T_INTEGER"); ("base", JStr "H5T_STD_I32LE")]);
           ("value", JInt 3)]) =
    raise UnboundLocalError "local variable 'val' referenced before assignment".
Proof. intros rr. vm_compute. reflexivity. Qed.

(* ================================================================== *)
(** ** The hierarchy walker *)

Lemma walk_children_below (fuel : nat) (groups : list (string * list link))
    (IH : forall (g : entry) (G D : list entry),
        tree_walker fuel groups g (G, D) =
        rbind (walk_below fuel groups g) (fun gd => ok ((G ++ fst gd)%list, (D ++ snd gd)%list)))
    (cs : list entry) :
  forall G D : list entry,
  walk_children (tree_walker fuel groups) cs (G, D) =
  rbind (map_res (walk_below fuel groups) cs)
        (fun sub => ok ((G ++ List.concat (map fst sub))%list,
                        (D ++ List.concat (map snd sub))%list)).
Proof.
  induction cs as [|c cs IHcs]; intros G D; simpl.
  - rewrite !app_nil_r. reflexivity.
  - rewrite IH. destruct (walk_below fuel groups c) as [e|gd]; simpl; [reflexivity|].
    rewrite IHcs. destruct (map_res (walk_below fuel groups) cs) as [e|sub]; simpl;
      [reflexivity|].
    rewrite !app_assoc. reflexivity.
Qed.

Lemma tree_walker_below (fuel : nat) (groups : list (string * list link)) :
  forall (g : entry) (G D : list entry),
  tree_walker fuel groups g (G, D) =
  rbind (walk_below fuel groups g) (fun gd => ok ((G ++ fst gd)%list, (D ++ snd gd)%list)).
Proof.
  induction fuel as [|fuel IH]; intros g G D; [reflexivity|].
  simpl.
  destruct (get_hard_links groups (e_id g) "datasets") as [e|dl]; simpl; [reflexivity|].
  destruct (get_hard_links groups (e_id g) "groups") as [e|gl]; simpl; [reflexivity|].
  rewrite (walk_children_below fuel groups IH).
  destruct (map_res (walk_below fuel groups) (map (link_entry g) gl)) as [e|sub]; simpl;
    [reflexivity|].
  rewrite !app_assoc. reflexivity.
Qed.

(** C3: [order_objs] lists the root, then each group's hard-linked child
    groups as one block in link-declaration order, followed by what is found
    below each child in turn ([walk_below]); datasets by the same scheme.
    The chain [/ -> /a -> /a/b] yields root, [a], [b] with the paths [/],
    [/a], [/a/b]. *)
Theorem order_objs_children_first (fuel : nat) (h5j : design) (r : string) :
  d_root h5j = Some r ->
  order_objs fuel h5j "group" =
    rbind (walk_below fuel (d_groups h5j) (mk_entry r "/"))
          (fun gd => ok (mk_entry r "/" :: fst gd)) /\
  order_objs fuel h5j "dataset" =
    rbind (walk_below fuel (d_groups h5j) (mk_entry r "/")) (fun gd => ok (snd gd)) /\
  order_objs 10 chain_design "group" =
    ok [mk_entry "root" "/"; mk_entry "a" "/a"; mk_entry "b" "/a/b"].
Proof.
  intros Hr. unfold order_objs. rewrite Hr, tree_walker_below.
  split; [|split; [|vm_compute; reflexivity]];
    destruct (walk_below fuel (d_groups h5j) (mk_entry r "/")); reflexivity.
Qed.

Lemma order_objs_children_first_witness :
  order_objs 10 branching_design "group" =
    rbind (walk_below 10 (d_groups branching_design) (mk_entry "r" "/"))
          (fun gd => ok (mk_entry "r" "/" :: fst gd)).
Proof. apply (order_objs_children_first 10 branching_design "r"). reflexivity. Defined.

(** C3 (counterexample): root [r] with the child groups [a] and [b], and
    [a] with the child [c]: the walker lists [r, a, b, c], a depth-first
    pre-order lists [r, a, c, b]. *)
Lemma order_objs_not_preorder :
  order_objs 10 branching_design "group" =
    ok [mk_entry "r" "/"; mk_entry "a" "/a"; mk_entry "b" "/b"; mk_entry "c" "/a/c"] /\
  spec_preorder_groups 10 (d_groups branching_design) (mk_entry "r" "/") =
    ok [mk_entry "r" "/"; mk_entry "a" "/a"; mk_entry "c" "/a/c"; mk_entry "b" "/b"].
Proof. split; vm_compute; reflexivity. Qed.

(* ================================================================== *)
(** ** The identity rewriter *)

Lemma mbind_inr {A B} (m : M A) (k : A -> M B) (s : ustate) (b : B) (s'' : ustate) :
  mbind m k s = inr (b, s'') -> exists a s', m s = inr (a, s') /\ k a s' = inr (b, s'').
Proof. unfold mbind. destruct (m s) as [e|[a s']]; [discriminate|eauto]. Qed.

Lemma opt_map_mono {A B} (g : gmap string string -> A -> option B)
    (m m' : gmap string string) (l : list A) :
  (forall x b, In x l -> g m x = Some b -> g m' x = Some b) ->
  forall l', opt_map (g m) l = Some l' -> opt_map (g m') l = Some l'.
Proof.
  induction l as [|x xs IH]; intros Hg l' H; simpl in *; [exact H|].
  destruct (g m x) as [y|] eqn:Ex; [|discriminate].
  destruct (opt_map (g m) xs) as [ys|] eqn:Exs; [|discriminate].
  rewrite (Hg x y (or_introl eq_refl) Ex).
  rewrite (IH (fun x' b Hin => Hg x' b (or_intror Hin)) ys eq_refl). exact H.
Qed.

Lemma opt_map_Forall2 {A B} (f : A -> option B) (P : A -> B -> Prop) (l : list A) :
  (forall x y, In x l -> f x = Some y -> P x y) ->
  forall l', opt_map f l = Some l' -> Forall2 P l l'.
Proof.
  induction l as [|x xs IH]; intros Hf l' H; simpl in H.
  - injection H as <-. constructor.
  - destruct (f x) as [y|] eqn:Ex; [|discriminate].
    destruct (opt_map f xs) as [ys|] eqn:Exs; [|discriminate].
    injection H as <-. constructor.
    + apply Hf; [left; reflexivity | exact Ex].
    + apply IH; [intros x' y' Hin; apply Hf; right; exact Hin | reflexivity].
Qed.

Lemma map_item_arr (m : gmap string string) (l : list json) :
  map_item m (JArr l) =
  match opt_map (map_item m) l with Some l' => Some (JArr l') | None => None end.
Proof.
  simpl.
  match goal with
  | |- match ?a with _ => _ end = match ?b with _ => _ end =>
      replace a with b; [reflexivity|]
  end.
  induction l as [|x xs IH]; simpl; [reflexivity|]. rewrite IH. reflexivity.
Qed.

Lemma map_leaf_mono (m m' : gmap string string) (v v' : json) :
  m ⊆ m' -> map_leaf m v = Some v' -> map_leaf m' v = Some v'.
Proof.
  intros Hm. unfold map_leaf. destruct v as [| | | |s| |]; auto.
  destruct (String.prefix "datasets/" s); auto.
  destruct (split_slash s) as [|p0 [|p1 rest]]; auto.
  destruct (m !! p1) as [q|] eqn:E; [|discriminate].
  rewrite (lookup_weaken m m' p1 q E Hm). auto.
Qed.

Lemma map_item_mono (m m' : gmap string string) (v : json) :
  m ⊆ m' -> forall v', map_item m v = Some v' -> map_item m' v = Some v'.
Proof.
  intros Hm. induction v as [| | | | |l IH|] using json_nested_ind; intros v' H;
    try (apply (map_leaf_mono m m' _ _ Hm); exact H).
  rewrite map_item_arr in H |- *.
  destruct (opt_map (map_item m) l) as [l'|] eqn:E; [|discriminate].
  rewrite (opt_map_mono map_item m m' l) with (l' := l'); [exact H| |exact E].
  intros x b Hin. rewrite List.Forall_forall in IH. apply IH. exact Hin.
Qed.

Lemma map_value_mono (m m' : gmap string string) (v v' : json) :
  m ⊆ m' -> map_value m v = Some v' -> map_value m' v = Some v'.
Proof. intros Hm. unfold map_value. destruct v; auto. apply map_item_mono. exact Hm. Qed.

Lemma map_obj_mono (m m' : gmap string string) (o o' : obj) :
  m ⊆ m' -> map_obj m o = Some o' -> map_obj m' o = Some o'.
Proof.
  intros Hm. unfold map_obj.
  destruct (m !! o_id o) as [nid|] eqn:E1; [|discriminate].
  rewrite (lookup_weaken _ _ _ _ E1 Hm).
  destruct (o_pid o) as [p|].
  - destruct (m !! p) as [q|] eqn:E2; [|discriminate].
    rewrite (lookup_weaken _ _ _ _ E2 Hm).
    destruct (is_link_attr o); [|auto].
    destruct (o_value o) as [v|]; [|auto].
    destruct (map_value m v) as [v'|] eqn:E3; [|discriminate].
    rewrite (map_value_mono m m' v v' Hm E3). auto.
  - destruct (is_link_attr o); [|auto].
    destruct (o_value o) as [v|]; [|auto].
    destruct (map_value m v) as [v'|] eqn:E3; [|discriminate].
    rewrite (map_value_mono m m' v v' Hm E3). auto.
Qed.

Section RewriterFacts.

Variable uuid4 : nat -> string.

Lemma grows_refl (s : ustate) : grows uuid4 s s.
Proof. unfold grows. repeat split; auto. Qed.

Lemma grows_trans (s1 s2 s3 : ustate) :
  grows uuid4 s1 s2 -> grows uuid4 s2 s3 -> grows uuid4 s1 s3.
Proof.
  intros (M12 & N12 & G12 & I12) (M23 & N23 & G23 & I23).
  repeat split.
  - etrans; eassumption.
  - lia.
  - auto.
  - intros Hu Hg Hi. apply (I23 Hu (G12 Hg)). apply (I12 Hu Hg Hi).
Qed.

Lemma sub_lookup_spec (k : string) (s : ustate) (v : string) (s' : ustate) :
  sub_lookup uuid4 k s = inr (v, s') -> grows uuid4 s s' /\ us_map s' !! k = Some v.
Proof.
  unfold sub_lookup. destruct (us_map s !! k) as [v0|] eqn:E; intros H;
    injection H as <- <-.
  - split; [apply grows_refl | exact E].
  - split; [|simpl; apply lookup_insert_eq].
    unfold grows; simpl. repeat split.
    + apply insert_subseteq. exact E.
    + lia.
    + intros Hg k' v' Hk'. cbn [us_map us_next] in *. apply lookup_insert_Some in Hk' as [[_ <-]|[_ Hk']].
      * exists (us_next s). split; [lia|reflexivity].
      * destruct (Hg _ _ Hk') as [n [Hn ->]]. exists n. split; [lia|reflexivity].
    + intros Hu Hg Hi k1 k2 v' H1 H2. cbn [us_map us_next] in *.
      apply lookup_insert_Some in H1 as [[<- <-]|[N1 H1]];
      apply lookup_insert_Some in H2 as [[<- E2]|[N2 H2]].
      * reflexivity.
      * destruct (Hg _ _ H2) as [n [Hn Hv]]. apply Hu in Hv. lia.
      * destruct (Hg _ _ H1) as [n [Hn Hv]]. rewrite <- E2 in Hv. apply Hu in Hv. lia.
      * exact (Hi _ _ _ H1 H2).
Qed.

Lemma replace_uuid_spec (v : json) (s : ustate) (v' : json) (s' : ustate) :
  replace_uuid uuid4 v s = inr (v', s') ->
  grows uuid4 s s' /\ map_leaf (us_map s') v = Some v'.
Proof.
  unfold replace_uuid, map_leaf.
  destruct v as [| | | |str| |];
    try (intros H; injection H as <- <-; split; [apply grows_refl | reflexivity]).
  destruct (String.prefix "datasets/" str);
    [|intros H; injection H as <- <-; split; [apply grows_refl | reflexivity]].
  destruct (split_slash str) as [|p0 [|p1 rest]];
    try (intros H; injection H as <- <-; split; [apply grows_refl | reflexivity]).
  intros H. apply mbind_inr in H as (q & s1 & Hq & H). injection H as <- <-.
  apply sub_lookup_spec in Hq as [G L]. rewrite L. auto.
Qed.

Lemma scrub_item_arr (l : list json) :
  scrub_item uuid4 (JArr l) = mbind (mmap (scrub_item uuid4) l) (fun l' => mret (JArr l')).
Proof.
  simpl.
  match goal with
  | |- mbind ?a _ = mbind ?b _ => replace a with b; [reflexivity|]
  end.
  induction l as [|x xs IH]; simpl; [reflexivity|]. rewrite IH. reflexivity.
Qed.

Lemma mmap_spec {A B} (f : A -> M B) (g : gmap string string -> A -> option B) (l : list A) :
  (forall m m' x b, m ⊆ m' -> g m x = Some b -> g m' x = Some b) ->
  Forall (fun x => forall s b s', f x s = inr (b, s') ->
                   grows uuid4 s s' /\ g (us_map s') x = Some b) l ->
  forall s l' s', mmap f l s = inr (l', s') ->
  grows uuid4 s s' /\ opt_map (g (us_map s')) l = Some l'.
Proof.
  intros Hmono Hf. induction Hf as [|x xs Hx Hxs IH]; intros s l' s' H; simpl in H.
  - injection H as <- <-. split; [apply grows_refl | reflexivity].
  - apply mbind_inr in H as (y & s1 & Hy & H).
    apply mbind_inr in H as (ys & s2 & Hys & H). injection H as <- <-.
    destruct (Hx _ _ _ Hy) as [G1 E1]. destruct (IH _ _ _ Hys) as [G2 E2].
    split; [eapply grows_trans; eassumption|]. simpl.
    rewrite (Hmono _ _ _ _ (proj1 G2) E1), E2. reflexivity.
Qed.

Lemma scrub_item_spec (v : json) :
  forall s v' s', scrub_item uuid4 v s = inr (v', s') ->
  grows uuid4 s s' /\ map_item (us_map s') v = Some v'.
Proof.
  induction v as [|b|z|q|str|l IH|kvs] using json_nested_ind; intros s v' s' H;
    try (apply replace_uuid_spec; exact H).
  rewrite scrub_item_arr in H. apply mbind_inr in H as (l' & s1 & Hl & H).
  injection H as <- <-.
  destruct (mmap_spec (scrub_item uuid4) map_item l
              (fun m m' x b Hm => map_item_mono m m' x Hm b) IH _ _ _ Hl) as [G E].
  split; [exact G|]. rewrite map_item_arr, E. reflexivity.
Qed.

Lemma scrub_value_spec (v : json) (s : ustate) (v' : json) (s' : ustate) :
  scrub_value uuid4 v s = inr (v', s') ->
  grows uuid4 s s' /\ map_value (us_map s') v = Some v'.
Proof.
  destruct v as [| | | |str|l|kvs]; simpl; try discriminate.
  - destruct str; [|discriminate]. intros H. injection H as <- <-.
    split; [apply grows_refl | reflexivity].
  - intros H. exact (scrub_item_spec (JArr l) s v' s' H).
  - destruct kvs; [|discriminate]. intros H. injection H as <- <-.
    split; [apply grows_refl | reflexivity].
Qed.

Lemma substitute_obj_spec (o : obj) (s : ustate) (o' : obj) (s' : ustate) :
  substitute_obj uuid4 o s = inr (o', s') ->
  grows uuid4 s s' /\ map_obj (us_map s') o = Some o'.
Proof.
  unfold substitute_obj. intros H.
  apply mbind_inr in H as (nid & s1 & Hid & H).
  apply mbind_inr in H as (npid & s2 & Hpid & H).
  apply mbind_inr in H as (nval & s3 & Hval & H).
  injection H as <- <-.
  destruct (sub_lookup_spec _ _ _ _ Hid) as [G1 L1].
  assert (P2 : grows uuid4 s1 s2 /\
               match o_pid o with
               | Some p => match us_map s2 !! p with Some q => Some (Some q) | None => None end
               | None => Some None
               end = Some npid).
  { destruct (o_pid o) as [p|].
    - apply mbind_inr in Hpid as (p' & s2' & Hp & Hr). injection Hr as <- <-.
      destruct (sub_lookup_spec _ _ _ _ Hp) as [G L]. rewrite L. auto.
    - injection Hpid as <- <-. split; [apply grows_refl | reflexivity]. }
  destruct P2 as [G2 E2].
  assert (P3 : grows uuid4 s2 s3 /\
               (if is_link_attr o then
                  match o_value o with
                  | Some v => match map_value (us_map s3) v with
                              | Some v' => Some (Some v') | None => None end
                  | None => Some None
                  end
                else Some (o_value o)) = Some nval).
  { destruct (is_link_attr o).
    - destruct (o_value o) as [v|].
      + apply mbind_inr in Hval as (v' & s3' & Hv & Hr). injection Hr as <- <-.
        destruct (scrub_value_spec _ _ _ _ Hv) as [G E]. rewrite E. auto.
      + injection Hval as <- <-. split; [apply grows_refl | reflexivity].
    - injection Hval as <- <-. split; [apply grows_refl | reflexivity]. }
  destruct P3 as [G3 E3].
  split; [eapply grows_trans; [eassumption | eapply grows_trans; eassumption]|].
  unfold map_obj.
  assert (M13 : us_map s1 ⊆ us_map s3) by (etrans; [apply G2 | apply G3]).
  rewrite (lookup_weaken _ _ _ _ L1 M13).
  assert (E2' : match o_pid o with
                | Some p => match us_map s3 !! p with Some q => Some (Some q) | None => None end
                | None => Some None
                end = Some npid).
  { destruct (o_pid o) as [p|]; [|exact E2].
    destruct (us_map s2 !! p) as [q|] eqn:Ep; [|discriminate].
    rewrite (lookup_weaken _ _ _ _ Ep (proj1 G3)). exact E2. }
  rewrite E2', E3. reflexivity.
Qed.

Lemma substitute_uuids_spec (objs : list obj) (root : string) (s0 : ustate)
    (objs' : list obj) (r : string) (s : ustate) :
  substitute_uuids uuid4 objs root s0 = inr ((objs', r), s) ->
  grows uuid4 s0 s /\ us_map s !! root = Some r /\
  opt_map (map_obj (us_map s)) objs = Some objs'.
Proof.
  unfold substitute_uuids. intros H.
  apply mbind_inr in H as (r0 & s1 & H1 & H).
  apply mbind_inr in H as (l & s2 & H2 & H).
  apply mbind_inr in H as (r1 & s3 & H3 & H).
  injection H as <- <- <-.
  destruct (sub_lookup_spec _ _ _ _ H1) as [G1 _].
  destruct (mmap_spec (substitute_obj uuid4) map_obj objs
              (fun m m' x b Hm => map_obj_mono m m' x b Hm)
              (proj2 (List.Forall_forall _ _) (fun x _ => substitute_obj_spec x))
              _ _ _ H2) as [G2 E2].
  destruct (sub_lookup_spec _ _ _ _ H3) as [G3 L3].
  split; [eapply grows_trans; [eassumption | eapply grows_trans; eassumption]|].
  split; [exact L3|].
  apply (opt_map_mono map_obj (us_map s2)); [|exact E2].
  intros x b _. apply map_obj_mono. apply G3.
Qed.

Lemma run_substitute_uuids_spec (objs : list obj) (root : string)
    (objs' : list obj) (r : string) (s : ustate) :
  run_substitute_uuids uuid4 objs root = inr ((objs', r), s) ->
  us_map s !! root = Some r /\ opt_map (map_obj (us_map s)) objs = Some objs' /\
  gen_inv uuid4 s /\
  ((forall n1 n2, uuid4 n1 = uuid4 n2 -> n1 = n2) -> inj_inv s).
Proof.
  unfold run_substitute_uuids. intros H.
  destruct (substitute_uuids_spec _ _ _ _ _ _ H) as [(_ & _ & G & I) [L E]].
  assert (G0 : gen_inv uuid4 (mk_ustate ∅ 0)).
  { intros k v Hk. simpl in Hk. rewrite lookup_empty in Hk. discriminate. }
  assert (I0 : inj_inv (mk_ustate ∅ 0)).
  { intros k1 k2 v Hk. simpl in Hk. rewrite lookup_empty in Hk. discriminate. }
  repeat split; auto.
Qed.

End RewriterFacts.

Lemma map_obj_frame (m : gmap string string) (o o' : obj) :
  map_obj m o = Some o' ->
  m !! o_id o = Some (o_id o') /\ o_objtype o' = o_objtype o /\
  o_name o' = o_name o /\ o_rest o' = o_rest o /\
  (is_link_attr o = false -> o_value o' = o_value o).
Proof.
  unfold map_obj. destruct (m !! o_id o) as [nid|]; [|discriminate].
  destruct (match o_pid o with
            | Some p => match m !! p with Some q => Some (Some q) | None => None end
            | None => Some None
            end) as [npid|]; [|discriminate].
  destruct (is_link_attr o) eqn:Hl.
  - destruct (match o_value o with
              | Some v => match map_value m v with Some v' => Some (Some v') | None => None end
              | None => Some None
              end) as [nval|]; [|discriminate].
    intros H. injection H as <-. simpl. repeat split; auto. discriminate.
  - intros H. injection H as <-. simpl. repeat split; auto.
Qed.

Lemma o_id_in_old_ids (objs : list obj) (root : string) (o : obj) :
  In o objs -> In (o_id o) (old_ids objs root).
Proof.
  intros Hin. right. apply in_concat. exists (obj_ids o). split.
  - apply in_map. exact Hin.
  - left. reflexivity.
Qed.

Lemma map_obj_pid (m : gmap string string) (o o' : obj) :
  map_obj m o = Some o' ->
  match o_pid o with
  | Some p => exists q, m !! p = Some q /\ o_pid o' = Some q
  | None => o_pid o' = None
  end.
Proof.
  unfold map_obj. destruct (m !! o_id o) as [nid|]; [|discriminate].
  destruct (o_pid o) as [p|] eqn:Hp.
  - destruct (m !! p) as [q|] eqn:Hq; [|discriminate].
    destruct (if is_link_attr o then _ else _) as [nval|]; [|discriminate].
    intros H. injection H as <-. exists q. split; reflexivity.
  - destruct (if is_link_attr o then _ else _) as [nval|]; [|discriminate].
    intros H. injection H as <-. reflexivity.
Qed.

Lemma o_pid_in_old_ids (objs : list obj) (root : string) (o : obj) (p : string) :
  In o objs -> o_pid o = Some p -> In p (old_ids objs root).
Proof.
  intros Hin Hp. right. apply in_concat. exists (obj_ids o). split.
  - apply in_map. exact Hin.
  - unfold obj_ids. rewrite Hp. right. apply in_or_app. left. left. reflexivity.
Qed.

(** C1: [substitute_uuids] updates the object dicts of [objs] in place and
    returns only the new root identifier: afterwards every object of the
    caller's list carries a new [id] (distinct from its old one when the
    generated identifiers avoid the old ones) and, when it has a [_pid], a
    new [_pid] (likewise distinct from the old one), while its [_objtype], [name],
    its other keys and, unless it is a REFERENCE_LIST or DIMENSION_LIST
    attribute, its [value] are unchanged; the returned root differs from
    the old root. *)
Theorem substitute_uuids_in_place (uuid4 : nat -> string) (objs : list obj)
    (root : string) (objs' : list obj) (r : string) (s : ustate) :
  run_substitute_uuids uuid4 objs root = inr ((objs', r), s) ->
  (forall n, ~ In (uuid4 n) (old_ids objs root)) ->
  r <> root /\
  Forall2 (fun o o' => o_id o' <> o_id o /\
                       (forall p, o_pid o = Some p -> exists p', o_pid o' = Some p' /\ p' <> p) /\
                       (o_pid o = None -> o_pid o' = None) /\
                       o_objtype o' = o_objtype o /\
                       o_name o' = o_name o /\ o_rest o' = o_rest o /\
                       (is_link_attr o = false -> o_value o' = o_value o)) objs objs'.
Proof.
  intros H Hfresh.
  destruct (run_substitute_uuids_spec uuid4 _ _ _ _ _ H) as (L & E & G & _).
  split.
  - intros ->. destruct (G _ _ L) as [n [_ Hn]]. apply (Hfresh n).
    rewrite <- Hn. left. reflexivity.
  - apply (opt_map_Forall2 (map_obj (us_map s))); [|exact E].
    intros o o' Hin Ho. destruct (map_obj_frame _ _ _ Ho) as (Li & Ht & Hn & Hr & Hv).
    pose proof (map_obj_pid _ _ _ Ho) as Hp.
    split; [|split; [|split]]; [| | |repeat split; auto].
    + intros Heq. destruct (G _ _ Li) as [n [_ Hu]]. apply (Hfresh n).
      rewrite <- Hu, Heq. apply o_id_in_old_ids. exact Hin.
    + intros p Ep. rewrite Ep in Hp. destruct Hp as [q [Lq Eq]].
      exists q. split; [exact Eq|]. intros ->.
      destruct (G _ _ Lq) as [n [_ Hu]]. apply (Hfresh n).
      rewrite <- Hu. exact (o_pid_in_old_ids _ _ _ _ Hin Ep).
    + intros Ep. rewrite Ep in Hp. exact Hp.
Qed.

Lemma substitute_uuids_in_place_witness :
  "A" <> "G1" /\
  Forall2 (fun o o' => o_id o' <> o_id o /\
                       (forall p, o_pid o = Some p -> exists p', o_pid o' = Some p' /\ p' <> p) /\
                       (o_pid o = None -> o_pid o' = None) /\
                       o_objtype o' = o_objtype o /\
                       o_name o' = o_name o /\ o_rest o' = o_rest o /\
                       (is_link_attr o = false -> o_value o' = o_value o))
    scenario_d_objs
    [mk_obj "A" None "group" "" None []; mk_obj "B" (Some "A") "dataset" "data" None []].
Proof.
  apply (substitute_uuids_in_place letter_uuid scenario_d_objs "G1"
           [mk_obj "A" None "group" "" None []; mk_obj "B" (Some "A") "dataset" "data" None []]
           "A" (mk_ustate (<["D1" := "B"]> (<["G1" := "A"]> ∅)) 2)).
  - vm_compute. reflexivity.
  - intros n Hn. simpl in Hn. unfold letter_uuid in Hn. intuition discriminate.
Defined.

(** C1 (counterexample): after the call the caller's list holds the
    rewritten object, not the object it passed in, and the result is the
    new root identifier alone. *)
Lemma substitute_uuids_mutates_input :
  run_substitute_uuids letter_uuid [mk_obj "G1" None "group" "" None []] "G1" =
    inr (([mk_obj "A" None "group" "" None []], "A"), mk_ustate (<["G1" := "A"]> ∅) 1) /\
  [mk_obj "A" None "group" "" None []] <> [mk_obj "G1" None "group" "" None []].
Proof. split; [vm_compute; reflexivity | discriminate]. Qed.

(** C2: one map [m] (the final [defaultdict]) explains the whole rewrite:
    the returned root is [m] of the old root, and every object becomes
    [map_obj m] of itself, i.e. its [id], its [_pid] and the identifier
    segment of each ["datasets/..."] string in a REFERENCE_LIST or
    DIMENSION_LIST value are replaced by their images under [m], every other
    part is kept; the images are fresh (none is an old identifier) when the
    generator avoids the old identifiers, and distinct old identifiers get
    distinct images when the generator is injective. *)
Theorem substitute_uuids_one_map (uuid4 : nat -> string) (objs : list obj)
    (root : string) (objs' : list obj) (r : string) (s : ustate) :
  run_substitute_uuids uuid4 objs root = inr ((objs', r), s) ->
  us_map s !! root = Some r /\
  opt_map (map_obj (us_map s)) objs = Some objs' /\
  ((forall n, ~ In (uuid4 n) (old_ids objs root)) ->
   forall k v, us_map s !! k = Some v -> ~ In v (old_ids objs root)) /\
  ((forall n1 n2, uuid4 n1 = uuid4 n2 -> n1 = n2) ->
   forall k1 k2 v, us_map s !! k1 = Some v -> us_map s !! k2 = Some v -> k1 = k2).
Proof.
  intros H.
  destruct (run_substitute_uuids_spec uuid4 _ _ _ _ _ H) as (L & E & G & I).
  split; [exact L|]. split; [exact E|]. split.
  - intros Hfresh k v Hk. destruct (G _ _ Hk) as [n [_ ->]]. apply Hfresh.
  - intros Hu. apply (I Hu).
Qed.

Lemma substitute_uuids_one_map_witness :
  us_map (mk_ustate (<["A1" := "C"]> (<["D1" := "B"]> (<["G1" := "A"]> ∅))) 3) !! "G1" = Some "A" /\
  opt_map (map_obj (<["A1" := "C"]> (<["D1" := "B"]> (<["G1" := "A"]> ∅)))) reference_list_objs =
    Some [mk_obj "A" None "group" "" None [];
          mk_obj "B" (Some "A") "dataset" "data" None [];
          mk_obj "C" (Some "B") "attribute" "REFERENCE_LIST"
                 (Some (JArr [JArr [JStr "datasets/B"; JInt 0]])) []].
Proof.
  refine (match substitute_uuids_one_map letter_uuid reference_list_objs "G1"
            [mk_obj "A" None "group" "" None [];
             mk_obj "B" (Some "A") "dataset" "data" None [];
             mk_obj "C" (Some "B") "attribute" "REFERENCE_LIST"
                    (Some (JArr [JArr [JStr "datasets/B"; JInt 0]])) []]
            "A" (mk_ustate (<["A1" := "C"]> (<["D1" := "B"]> (<["G1" := "A"]> ∅))) 3) _ with
          | conj L (conj E _) => conj L E
          end).
  vm_compute. reflexivity.
Defined.

(** C2 (counterexample): the identifier [D1] stored in the value of an
    attribute that is neither REFERENCE_LIST nor DIMENSION_LIST is left as
    it is, so an old identifier remains in the output. *)
Lemma substitute_uuids_keeps_reference :
  In "D1" (old_ids reference_attr_objs "G1") /\
  match run_substitute_uuids letter_uuid reference_attr_objs "G1" with
  | inr ((objs', _), _) => In (Some (JStr "datasets/D1")) (map o_value objs')
  | inl _ => False
  end.
Proof.
  split.
  - simpl. auto 10.
  - vm_compute. auto 10.
Qed.

(* ================================================================== *)
(** ** Further properties: Value checks *)

Lemma value_check_item_ok (cond : json -> res unit) (v : json) :
  value_check_item cond v = ok tt <-> Forall (fun x => cond x = ok tt) (json_leaves v).
Proof.
  induction v as [| | | | |l IH|] using json_nested_ind; simpl;
    try (rewrite Forall_singleton; reflexivity).
  induction l as [|x xs IHl]; simpl.
  - split; auto.
  - inversion IH as [|? ? Hx Hxs]; subst.
    rewrite Forall_app, <- Hx, <- (IHl Hxs).
    destruct (value_check_item cond x) as [e|[]]; simpl.
    + split; [discriminate | intros [H _]; discriminate].
    + tauto.
Qed.

Lemma value_check_item_fail (cond : json -> res unit) (v : json) (e : py_err) :
  value_check_item cond v = inl e -> exists x, In x (json_leaves v) /\ cond x = inl e.
Proof.
  induction v as [| | | | |l IH|] using json_nested_ind; simpl;
    try (intros H; eexists; split; [left; reflexivity | exact H]).
  induction l as [|x xs IHl]; simpl; [discriminate|].
  inversion IH as [|? ? Hx Hxs]; subst.
  destruct (value_check_item cond x) as [e'|[]] eqn:E; simpl.
  - intros [= ->]. destruct (Hx eq_refl) as [y [Hy Hc]].
    exists y. split; [apply in_or_app; left; exact Hy | exact Hc].
  - intros H. destruct (IHl Hxs H) as [y [Hy Hc]].
    exists y. split; [apply in_or_app; right; exact Hy | exact Hc].
Qed.

Lemma value_check_leaves_aux (cond : json -> res unit) (l : list json) :
  (value_check cond l = ok tt <->
   Forall (fun x => cond x = ok tt) (List.concat (map json_leaves l))) /\
  (forall e, value_check cond l = inl e ->
   exists x, In x (List.concat (map json_leaves l)) /\ cond x = inl e).
Proof.
  unfold value_check. split.
  - rewrite iter_res_ok. induction l as [|v vs IH]; simpl; [split; auto|].
    rewrite Forall_cons, Forall_app, value_check_item_ok, IH. reflexivity.
  - induction l as [|v vs IH]; simpl; [discriminate|].
    intros e. destruct (value_check_item cond v) as [e'|[]] eqn:E; simpl.
    + intros [= ->]. destruct (value_check_item_fail _ _ _ E) as [y [Hy Hc]].
      exists y. split; [apply in_or_app; left; exact Hy | exact Hc].
    + intros H. destruct (IH e H) as [y [Hy Hc]].
      exists y. split; [apply in_or_app; right; exact Hy | exact Hc].
Qed.

(** X1: [value_check(iter_, cond)] succeeds exactly when [cond] succeeds on every
    non-list item of [iter_], at any depth of nesting; when it fails, it
    fails with the error [cond] raised on one such item. *)
Theorem value_check_leaves (cond : json -> res unit) (l : list json) :
  (value_check cond l = ok tt <->
   Forall (fun x => cond x = ok tt) (List.concat (map json_leaves l))) /\
  (forall e, value_check cond l = inl e ->
   exists x, In x (List.concat (map json_leaves l)) /\ cond x = inl e).
Proof. exact (value_check_leaves_aux cond l). Qed.

(* ================================================================== *)
(** ** Further properties: The object validator: required keys, names and values *)

Lemma validate_stages (real_out_of_range : npdtype -> Q -> bool) (reqd : list string) (h5j : json) :
  validate_h5json real_out_of_range reqd h5j = ok tt ->
  check_reqd reqd h5j = ok tt /\ stage_shape h5j = ok tt /\ stage_type h5j = ok tt /\
  stage_value real_out_of_range h5j = ok tt /\ stage_name h5j = ok tt /\
  stage_cp real_out_of_range h5j = ok tt.
Proof.
  intros H. unfold validate_h5json in H. res_inv H.
  repeat match goal with u : unit |- _ => destruct u end.
  repeat split; assumption.
Qed.

Lemma index_slash_none (s : string) :
  String.index 0 "/" s = None -> ~ In "/"%char (list_ascii_of_string s).
Proof.
  induction s as [|c s IH]; [simpl; auto|]. cbn -[ascii_dec].
  intros H. destruct (ascii_dec "/" c) as [<-|Hc].
  - destruct s; discriminate.
  - destruct (String.index 0 "/" s) as [n|]; [discriminate|].
    intros [H1|H1]; [congruence | exact (IH eq_refl H1)].
Qed.

(** X8: An object accepted by [validate_h5json] has every required key, and its
    [name], if present, is a non-empty string without ['/']. *)
Theorem validate_reqd_name (real_out_of_range : npdtype -> Q -> bool) (reqd : list string)
    (kvs : list (string * json)) :
  validate_h5json real_out_of_range reqd (JObj kvs) = ok tt ->
  (forall k, In k reqd -> dict_get k kvs <> None) /\
  (forall n, dict_get "name" kvs = Some n ->
   exists s, n = JStr s /\ s <> "" /\ ~ In "/"%char (list_ascii_of_string s)).
Proof.
  intros H. destruct (validate_stages _ _ _ H) as (Hr & _ & _ & _ & Hn & _). split.
  - intros k Hk. pose proof (iter_res_In _ _ _ Hr Hk) as Hx. simpl in Hx.
    destruct (dict_get k kvs); [discriminate | simpl in Hx; discriminate].
  - intros n Hget. unfold stage_name, py_in, getitem in Hn. rewrite Hget in Hn.
    simpl in Hn. destruct n as [| | | |s| |]; try discriminate.
    exists s. split; [reflexivity|].
    destruct (Nat.eqb (String.length s) 0) eqn:El; [discriminate|].
    destruct (String.index 0 "/" s) eqn:Ei; [discriminate|].
    split; [intros ->; discriminate | apply index_slash_none; exact Ei].
Qed.

Lemma py_eq_str_true (v : json) (s : string) : py_eq_str v s = true -> v = JStr s.
Proof.
  destruct v; try discriminate. simpl. intros H. apply String.eqb_eq in H. subst. reflexivity.
Qed.

Lemma getitem_obj (kvs : list (string * json)) (k : string) (v : json) :
  getitem (JObj kvs) k = inr v -> dict_get k kvs = Some v.
Proof. simpl. destruct (dict_get k kvs); [intros [= ->]; reflexivity | discriminate]. Qed.

Lemma getitem_inr (c : json) (k : string) (v : json) :
  getitem c k = inr v -> exists kvs, c = JObj kvs /\ dict_get k kvs = Some v.
Proof.
  destruct c; try discriminate. intros H. eexists. split; [reflexivity|].
  apply getitem_obj. exact H.
Qed.

Lemma leaves_of_val (l : list json) :
  List.concat (map json_leaves l) = json_leaves (JArr l).
Proof. reflexivity. Qed.

Lemma stage_value_ok (real_out_of_range : npdtype -> Q -> bool) (kvs : list (string * json))
    (v : json) :
  stage_value real_out_of_range (JObj kvs) = ok tt -> dict_get "value" kvs = Some v ->
  exists skvs cond,
    dict_get "shape" kvs = Some (JObj skvs) /\
    type_checker real_out_of_range (JObj kvs) = ok cond /\
    Forall (fun x => cond x = ok tt) (json_leaves v) /\
    ((dict_get "class" skvs = Some (JStr "H5S_SIMPLE") /\
      exists l dl, v = JArr l /\ dict_get "dims" skvs = Some (JArr dl) /\
                   shape_eqb (np_shape v) dl = true) \/
     (dict_get "class" skvs = Some (JStr "H5S_SCALAR") /\ is_list v = false)).
Proof.
  intros H Hv. unfold stage_value, py_in in H. rewrite Hv in H. simpl in H.
  apply rbind_inr in H as [sh [Hsh H]]. apply getitem_obj in Hsh.
  apply rbind_inr in H as [cls [Hcls H]].
  apply getitem_inr in Hcls as [skvs [-> Hc]].
  apply rbind_inr in H as [val [Hval H]].
  apply rbind_inr in H as [cond [Hcond H]].
  exists skvs, cond. split; [exact Hsh|]. split; [exact Hcond|].
  destruct (py_eq_str cls "H5S_SIMPLE") eqn:Es.
  - apply py_eq_str_true in Es. subst cls.
    apply rbind_inr in Hval as [v' [Hv' Hval]]. apply getitem_obj in Hv'.
    rewrite Hv in Hv'. injection Hv' as <-.
    destruct v as [| | | | |l|]; try discriminate.
    apply rbind_inr in Hval as [dims [Hd Hval]]. apply getitem_obj in Hd.
    destruct dims as [| | | | |dl|]; try discriminate.
    destruct (shape_eqb (np_shape (JArr l)) dl) eqn:Esh; [|discriminate].
    injection Hval as <-.
    split.
    + rewrite <- leaves_of_val. apply (proj1 (proj1 (value_check_leaves_aux cond l))). exact H.
    + left. split; [exact Hc|]. exists l, dl. repeat split; assumption.
  - destruct (py_eq_str cls "H5S_SCALAR") eqn:Es2; [|injection Hval as <-; discriminate].
    apply py_eq_str_true in Es2. subst cls.
    apply rbind_inr in Hval as [v' [Hv' Hval]]. apply getitem_obj in Hv'.
    rewrite Hv in Hv'. injection Hv' as <-.
    destruct (is_list v) eqn:El; [discriminate|].
    injection Hval as <-.
    split.
    + apply (proj1 (proj1 (value_check_leaves_aux cond [v]))) in H. simpl in H.
      rewrite app_nil_r in H. exact H.
    + right. split; [exact Hc | reflexivity].
Qed.

Lemma value_check_factory_class (real_out_of_range : npdtype -> Q -> bool) (cls base : json)
    (cond : json -> res unit) :
  value_check_factory real_out_of_range cls base = ok cond ->
  exists c, cls = JStr c /\
    In c ["H5T_STRING"; "H5T_INTEGER"; "H5T_FLOAT"; "H5T_VLEN"; "H5T_COMPOUND"].
Proof.
  unfold value_check_factory.
  destruct (py_eq_str cls "H5T_STRING") eqn:E1;
    [intros _; apply py_eq_str_true in E1; subst; eexists; split; [reflexivity|]; simpl; tauto|].
  destruct (py_eq_str cls "H5T_INTEGER") eqn:E2;
    [intros _; apply py_eq_str_true in E2; subst; eexists; split; [reflexivity|]; simpl; tauto|].
  destruct (py_eq_str cls "H5T_FLOAT") eqn:E3;
    [intros _; apply py_eq_str_true in E3; subst; eexists; split; [reflexivity|]; simpl; tauto|].
  unfold str_in. simpl.
  destruct (py_eq_str cls "H5T_VLEN") eqn:E4;
    [intros _; apply py_eq_str_true in E4; subst; eexists; split; [reflexivity|]; simpl; tauto|].
  destruct (py_eq_str cls "H5T_COMPOUND") eqn:E5;
    [intros _; apply py_eq_str_true in E5; subst; eexists; split; [reflexivity|]; simpl; tauto|].
  simpl. discriminate.
Qed.

Lemma type_checker_inv (real_out_of_range : npdtype -> Q -> bool) (kvs : list (string * json))
    (cond : json -> res unit) :
  type_checker real_out_of_range (JObj kvs) = ok cond ->
  exists tkvs c, dict_get "type" kvs = Some (JObj tkvs) /\
    dict_get "class" tkvs = Some (JStr c) /\
    In c ["H5T_STRING"; "H5T_INTEGER"; "H5T_FLOAT"; "H5T_VLEN"; "H5T_COMPOUND"] /\
    value_check_factory real_out_of_range (JStr c)
      (match dict_get "base" tkvs with Some b => b | None => JNull end) = ok cond.
Proof.
  unfold type_checker. intros H.
  apply rbind_inr in H as [ty [Hty H]]. apply getitem_obj in Hty.
  apply rbind_inr in H as [tcls [Htc H]]. apply getitem_inr in Htc as [tkvs [-> Htc]].
  apply rbind_inr in H as [base [Hb H]].
  destruct (value_check_factory_class _ _ _ _ H) as [c [-> Hin]].
  exists tkvs, c. split; [exact Hty|]. split; [exact Htc|]. split; [exact Hin|].
  simpl in Hb. destruct (dict_get "base" tkvs); injection Hb as <-; exact H.
Qed.

Lemma value_or_fill_leaves (real_out_of_range : npdtype -> Q -> bool) (reqd : list string)
    (kvs : list (string * json)) (v : json) :
  validate_h5json real_out_of_range reqd (JObj kvs) = ok tt ->
  (dict_get "value" kvs = Some v \/
   exists ckvs, dict_get "creationProperties" kvs = Some (JObj ckvs) /\
                dict_get "fillValue" ckvs = Some v) ->
  exists cond, type_checker real_out_of_range (JObj kvs) = ok cond /\
    Forall (fun x => cond x = ok tt) (json_leaves v).
Proof.
  intros H Hv. destruct (validate_stages _ _ _ H) as (_ & _ & _ & Hval & _ & Hcp).
  destruct Hv as [Hv | [ckvs [Hc Hf]]].
  - destruct (stage_value_ok _ _ _ Hval Hv) as (skvs & cond & _ & Hcond & Hl & _).
    exists cond. split; assumption.
  - unfold stage_cp, py_in in Hcp. rewrite Hc in Hcp. simpl in Hcp.
    rewrite Hc in Hcp. simpl in Hcp.
    apply rbind_inr in Hcp as [u1 [_ Hcp]].
    apply rbind_inr in Hcp as [u2 [_ Hcp]].
    apply rbind_inr in Hcp as [u3 [_ Hcp]].
    unfold cp_fill, py_in in Hcp. simpl in Hcp. rewrite Hf in Hcp. simpl in Hcp.
    apply rbind_inr in Hcp as [cond [Hcond Hcp]].
    exists cond. split; [exact Hcond|].
    apply (proj1 (proj1 (value_check_leaves_aux cond [v]))) in Hcp. simpl in Hcp.
    rewrite app_nil_r in Hcp. exact Hcp.
Qed.

(** X9: A [value] of an object accepted by [validate_h5json] comes with a dict
    [shape] and a dict [type] of class string, integer, float, vlen or
    compound; the dataspace is simple, the value a list and its numpy shape
    the [dims], or the dataspace is scalar and the value is not a list. *)
Theorem validate_value_shape (real_out_of_range : npdtype -> Q -> bool) (reqd : list string)
    (kvs : list (string * json)) (v : json) :
  validate_h5json real_out_of_range reqd (JObj kvs) = ok tt ->
  dict_get "value" kvs = Some v ->
  exists skvs tkvs c,
    dict_get "shape" kvs = Some (JObj skvs) /\
    dict_get "type" kvs = Some (JObj tkvs) /\ dict_get "class" tkvs = Some (JStr c) /\
    In c ["H5T_STRING"; "H5T_INTEGER"; "H5T_FLOAT"; "H5T_VLEN"; "H5T_COMPOUND"] /\
    ((dict_get "class" skvs = Some (JStr "H5S_SIMPLE") /\
      exists l dl, v = JArr l /\ dict_get "dims" skvs = Some (JArr dl) /\
                   shape_eqb (np_shape v) dl = true) \/
     (dict_get "class" skvs = Some (JStr "H5S_SCALAR") /\ is_list v = false)).
Proof.
  intros H Hv. destruct (validate_stages _ _ _ H) as (_ & _ & _ & Hval & _ & _).
  destruct (stage_value_ok _ _ _ Hval Hv) as (skvs & cond & Hs & Hcond & _ & Hcase).
  destruct (type_checker_inv _ _ _ Hcond) as (tkvs & c & Ht & Hc & Hin & _).
  exists skvs, tkvs, c. repeat split; assumption.
Qed.

(** X10: Every leaf item of the [value] or [fillValue] of an object accepted by
    [validate_h5json] fits its datatype: a string for [H5T_STRING], an
    integer within the bounds of the base type for [H5T_INTEGER], a real
    number for [H5T_FLOAT]. *)
Theorem validate_value_leaves (real_out_of_range : npdtype -> Q -> bool) (reqd : list string)
    (kvs tkvs : list (string * json)) (v : json) :
  validate_h5json real_out_of_range reqd (JObj kvs) = ok tt ->
  dict_get "type" kvs = Some (JObj tkvs) ->
  (dict_get "value" kvs = Some v \/
   exists ckvs, dict_get "creationProperties" kvs = Some (JObj ckvs) /\
                dict_get "fillValue" ckvs = Some v) ->
  forall x, In x (json_leaves v) ->
  (dict_get "class" tkvs = Some (JStr "H5T_STRING") -> exists s, x = JStr s) /\
  (forall b d mn mx, dict_get "class" tkvs = Some (JStr "H5T_INTEGER") ->
   dict_get "base" tkvs = Some b -> numpy_dtype b = ok d -> iinfo d = Some (mn, mx) ->
   exists z, as_integral x = Some z /\ (mn <= z <= mx)%Z) /\
  (dict_get "class" tkvs = Some (JStr "H5T_FLOAT") -> exists q, as_real x = Some q).
Proof.
  intros H Ht Hv x Hx.
  destruct (value_or_fill_leaves _ _ _ _ H Hv) as [cond [Hcond Hl]].
  rewrite List.Forall_forall in Hl. specialize (Hl x Hx).
  destruct (type_checker_inv _ _ _ Hcond) as (tkvs' & c & Ht' & Hc & _ & Hf).
  rewrite Ht in Ht'. injection Ht' as <-.
  split; [|split].
  - intros Hc'. rewrite Hc in Hc'. injection Hc' as ->.
    injection Hf as <-. unfold check_string in Hl.
    destruct x; try discriminate. eexists. reflexivity.
  - intros b d mn mx Hc' Hb Hd Hi. rewrite Hc in Hc'. injection Hc' as ->.
    rewrite Hb in Hf. unfold value_check_factory in Hf. simpl in Hf.
    rewrite Hd in Hf. simpl in Hf. rewrite Hi in Hf. injection Hf as <-.
    unfold check_integer in Hl. destruct (as_integral x) as [z|]; [|discriminate].
    exists z. split; [reflexivity|].
    destruct (Z.ltb z mn || Z.ltb mx z) eqn:E; [discriminate|].
    apply orb_false_iff in E as [E1 E2]. apply Z.ltb_ge in E1, E2. lia.
  - intros Hc'. rewrite Hc in Hc'. injection Hc' as ->.
    unfold value_check_factory in Hf. simpl in Hf.
    destruct (numpy_dtype _) as [e|d]; simpl in Hf; [discriminate|].
    destruct (is_float_dtype d); [|discriminate]. injection Hf as <-.
    unfold check_real in Hl. destruct (as_real x) as [q|]; [|discriminate].
    eexists. reflexivity.
Qed.

Lemma validate_reqd_name_witness :
  validate_h5json (fun _ _ => false) ["name"; "shape"; "type"] (JObj example_dataset_kvs) = ok tt /\
  exists s, JStr "temp" = JStr s /\ s <> "" /\ ~ In "/"%char (list_ascii_of_string s).
Proof.
  assert (H : validate_h5json (fun _ _ => false) ["name"; "shape"; "type"]
                (JObj example_dataset_kvs) = ok tt) by (vm_compute; reflexivity).
  split; [exact H|].
  apply (proj2 (validate_reqd_name (fun _ _ => false) ["name"; "shape"; "type"]
                  example_dataset_kvs H)).
  reflexivity.
Defined.

Lemma validate_value_shape_witness :
  validate_h5json (fun _ _ => false) [] (JObj example_dataset_kvs) = ok tt /\
  dict_get "value" example_dataset_kvs =
    Some (JArr [JArr [JInt 1; JInt 2; JInt 3]; JArr [JInt 4; JInt 5; JInt 6]]) /\
  exists skvs tkvs c,
    dict_get "shape" example_dataset_kvs = Some (JObj skvs) /\
    dict_get "type" example_dataset_kvs = Some (JObj tkvs) /\
    dict_get "class" tkvs = Some (JStr c) /\
    In c ["H5T_STRING"; "H5T_INTEGER"; "H5T_FLOAT"; "H5T_VLEN"; "H5T_COMPOUND"].
Proof.
  assert (H : validate_h5json (fun _ _ => false) [] (JObj example_dataset_kvs) = ok tt)
    by (vm_compute; reflexivity).
  assert (Hv : dict_get "value" example_dataset_kvs =
    Some (JArr [JArr [JInt 1; JInt 2; JInt 3]; JArr [JInt 4; JInt 5; JInt 6]])) by reflexivity.
  split; [exact H|]. split; [exact Hv|].
  destruct (validate_value_shape (fun _ _ => false) [] example_dataset_kvs _ H Hv)
    as (skvs & tkvs & c & Hs & Ht & Hc & Hin & _).
  exists skvs, tkvs, c. repeat split; assumption.
Defined.

Lemma validate_value_leaves_witness :
  validate_h5json (fun _ _ => false) [] (JObj example_dataset_kvs) = ok tt /\
  In (JInt 5) (json_leaves (JArr [JArr [JInt 1; JInt 2; JInt 3]; JArr [JInt 4; JInt 5; JInt 6]])) /\
  exists z, as_integral (JInt 5) = Some z /\ (0 <= z <= 255)%Z.
Proof.
  assert (H : validate_h5json (fun _ _ => false) [] (JObj example_dataset_kvs) = ok tt)
    by (vm_compute; reflexivity).
  assert (Hx : In (JInt 5) (json_leaves (JArr [JArr [JInt 1; JInt 2; JInt 3];
                                                JArr [JInt 4; JInt 5; JInt 6]])))
    by (simpl; tauto).
  split; [exact H|]. split; [exact Hx|].
  apply (proj1 (proj2 (validate_value_leaves (fun _ _ => false) [] example_dataset_kvs
    [("class", JStr "H5T_INTEGER"); ("base", JStr "H5T_STD_U8LE")] _ H eq_refl
    (or_introl eq_refl) (JInt 5) Hx)) (JStr "H5T_STD_U8LE") u1 0%Z 255%Z);
    reflexivity.
Defined.

(* ================================================================== *)
(** ** Further properties: The value-check factory and the chunk-size product *)

(** X2: For the class [H5T_INTEGER] and a base that [numpy_dtype] resolves to
    an integer type with bounds [mn] and [mx], [value_check_factory]
    returns a test that accepts exactly the integral values in [mn..mx],
    raises TypeError on a non-integral value and ValueError on an
    integral value out of range. *)
Theorem value_check_factory_integer (real_out_of_range : npdtype -> Q -> bool)
    (base : json) (d : npdtype) (mn mx : Z) :
  numpy_dtype base = ok d -> iinfo d = Some (mn, mx) ->
  exists cond, value_check_factory real_out_of_range (JStr "H5T_INTEGER") base = ok cond /\
  forall v,
    (cond v = ok tt <-> exists z, as_integral v = Some z /\ (mn <= z <= mx)%Z) /\
    (as_integral v = None -> exists m, cond v = raise TypeError m) /\
    (forall z, as_integral v = Some z -> (z < mn \/ mx < z)%Z ->
     exists m, cond v = raise ValueError m).
Proof.
  intros Hd Hi. exists (check_integer mn mx). split.
  - unfold value_check_factory. cbn. rewrite Hd. cbn. rewrite Hi. reflexivity.
  - intros v. unfold check_integer. destruct (as_integral v) as [z|].
    + split; [|split].
      * destruct (Z.ltb z mn || Z.ltb mx z) eqn:E.
        -- split; [discriminate|]. intros [z' [[= <-] Hz]].
           apply orb_true_iff in E as [E|E]; apply Z.ltb_lt in E; lia.
        -- split; [intros _; exists z; split; [reflexivity|] | reflexivity].
           apply orb_false_iff in E as [E1 E2].
           apply Z.ltb_ge in E1, E2. lia.
      * discriminate.
      * intros z' [= <-] Hz. eexists.
        replace (Z.ltb z mn || Z.ltb mx z) with true; [reflexivity|].
        symmetry. apply orb_true_iff. destruct Hz; [left|right]; apply Z.ltb_lt; lia.
    + split; [|split].
      * split; [discriminate | intros [z [Hz _]]; discriminate].
      * intros _. eexists. reflexivity.
      * intros z Hz. discriminate.
Qed.

Lemma value_check_factory_integer_witness :
  numpy_dtype (JStr "H5T_STD_U8LE") = ok u1 /\ iinfo u1 = Some (0%Z, 255%Z) /\
  exists cond,
    value_check_factory (fun _ _ => false) (JStr "H5T_INTEGER") (JStr "H5T_STD_U8LE") = ok cond /\
    forall v,
      (cond v = ok tt <-> exists z, as_integral v = Some z /\ (0 <= z <= 255)%Z) /\
      (as_integral v = None -> exists m, cond v = raise TypeError m) /\
      (forall z, as_integral v = Some z -> (z < 0 \/ 255 < z)%Z ->
       exists m, cond v = raise ValueError m).
Proof.
  split; [reflexivity|]. split; [reflexivity|].
  apply (value_check_factory_integer (fun _ _ => false) (JStr "H5T_STD_U8LE") u1 0 255);
    reflexivity.
Defined.

(** X3: [value_check_factory] by class: the [H5T_STRING] test accepts exactly
    strings and raises TypeError on anything else; for [H5T_FLOAT] with a
    float base the test raises TypeError exactly on values that are not
    real numbers; [H5T_FLOAT] with a non-float base raises ValueError;
    the [H5T_VLEN] and [H5T_COMPOUND] tests accept every value; any other
    class raises NotImplementedError. *)
Theorem value_check_factory_classes (real_out_of_range : npdtype -> Q -> bool)
    (base : json) :
  (exists cond, value_check_factory real_out_of_range (JStr "H5T_STRING") base = ok cond /\
     forall v, (cond v = ok tt <-> exists s, v = JStr s) /\
               ((forall s, v <> JStr s) -> exists m, cond v = raise TypeError m)) /\
  (forall d, numpy_dtype base = ok d -> is_float_dtype d = true ->
     exists cond, value_check_factory real_out_of_range (JStr "H5T_FLOAT") base = ok cond /\
     forall v, (as_real v = None <-> exists m, cond v = raise TypeError m)) /\
  (forall d, numpy_dtype base = ok d -> is_float_dtype d = false ->
     exists m, value_check_factory real_out_of_range (JStr "H5T_FLOAT") base = raise ValueError m) /\
  (forall c, c = "H5T_VLEN" \/ c = "H5T_COMPOUND" ->
     exists cond, value_check_factory real_out_of_range (JStr c) base = ok cond /\
     forall v, cond v = ok tt) /\
  (forall c, ~ In c ["H5T_STRING"; "H5T_INTEGER"; "H5T_FLOAT"; "H5T_VLEN"; "H5T_COMPOUND"] ->
     exists m, value_check_factory real_out_of_range (JStr c) base = raise NotImplementedError m).
Proof.
  split; [|split; [|split; [|split]]].
  - exists check_string. split; [reflexivity|]. intros v. unfold check_string.
    destruct v as [| | | |s'| |]; cbn;
      try (split; [split; [discriminate | intros [s0 Hs]; discriminate]
                  | intros _; eexists; reflexivity]).
    split; [split; [intros _; exists s'; reflexivity | reflexivity]|].
    intros Hs. exfalso. apply (Hs s'). reflexivity.
  - intros d Hd Hf. exists (check_real real_out_of_range d). split.
    + unfold value_check_factory. cbn. rewrite Hd. cbn. rewrite Hf. reflexivity.
    + intros v. unfold check_real. destruct (as_real v) as [q|].
      * split; [discriminate|]. intros [m Hm].
        destruct (real_out_of_range d q); discriminate.
      * split; [intros _; eexists; reflexivity | reflexivity].
  - intros d Hd Hf. unfold value_check_factory. cbn. rewrite Hd. cbn. rewrite Hf.
    eexists. reflexivity.
  - intros c [-> | ->]; exists (fun _ => ok tt); split; reflexivity.
  - intros c Hc. unfold value_check_factory. cbn.
    destruct (String.eqb c "H5T_STRING") eqn:E1;
      [apply String.eqb_eq in E1; subst; exfalso; apply Hc; left; reflexivity|].
    destruct (String.eqb c "H5T_INTEGER") eqn:E2;
      [apply String.eqb_eq in E2; subst; exfalso; apply Hc; right; left; reflexivity|].
    destruct (String.eqb c "H5T_FLOAT") eqn:E3;
      [apply String.eqb_eq in E3; subst; exfalso; apply Hc; do 2 right; left; reflexivity|].
    destruct (String.eqb c "H5T_VLEN") eqn:E4;
      [apply String.eqb_eq in E4; subst; exfalso; apply Hc; do 3 right; left; reflexivity|].
    destruct (String.eqb c "H5T_COMPOUND") eqn:E5;
      [apply String.eqb_eq in E5; subst; exfalso; apply Hc; do 4 right; left; reflexivity|].
    eexists. reflexivity.
Qed.

Lemma np_prod_fold (l : list Z) (acc : Z) :
  Forall (fun d => 0 < d)%Z l -> (0 < acc)%Z -> (acc * fold_right Z.mul 1%Z l < 2 ^ 63)%Z ->
  fold_left (fun acc d => wrap_int64 (acc * d)) l acc = (acc * fold_right Z.mul 1%Z l)%Z.
Proof.
  revert acc. induction l as [|d ds IH]; intros acc Hpos Hacc Hlt; simpl; [lia|].
  inversion Hpos as [|? ? Hd Hds]; subst.
  assert (Hp : (1 <= fold_right Z.mul 1%Z ds)%Z).
  { clear -Hds. induction ds as [|x xs IHx]; simpl; [lia|].
    inversion Hds; subst. specialize (IHx H2). nia. }
  simpl in Hlt. set (p := fold_right Z.mul 1%Z ds) in *.
  assert (Hle : (acc * d <= acc * d * p)%Z).
  { rewrite <- (Z.mul_1_r (acc * d)) at 1. apply Z.mul_le_mono_nonneg_l; nia. }
  assert (Hw : wrap_int64 (acc * d) = (acc * d)%Z).
  { unfold wrap_int64. rewrite Z.mod_small by (split; nia).
    rewrite (proj2 (Z.ltb_lt _ _)) by nia. reflexivity. }
  rewrite Hw, IH; [lia | exact Hds | nia | nia].
Qed.

(** X4: The [np.prod] of the chunk check equals the exact product of the chunk
    dimensions when they are positive and the product is below [2^63]. *)
Theorem np_prod_exact (l : list Z) :
  Forall (fun d => 0 < d)%Z l -> (fold_right Z.mul 1%Z l < 2 ^ 63)%Z ->
  np_prod l = fold_right Z.mul 1%Z l.
Proof.
  intros Hpos Hlt. unfold np_prod. rewrite np_prod_fold; [lia | exact Hpos | lia | lia].
Qed.

Lemma np_prod_exact_witness :
  Forall (fun d => 0 < d)%Z [4096%Z; 4096%Z; 64%Z] /\
  (fold_right Z.mul 1%Z [4096%Z; 4096%Z; 64%Z] < 2 ^ 63)%Z /\
  np_prod [4096%Z; 4096%Z; 64%Z] = fold_right Z.mul 1%Z [4096%Z; 4096%Z; 64%Z].
Proof.
  assert (H1 : Forall (fun d => 0 < d)%Z [4096%Z; 4096%Z; 64%Z]) by (repeat constructor; lia).
  assert (H2 : (fold_right Z.mul 1%Z [4096%Z; 4096%Z; 64%Z] < 2 ^ 63)%Z) by (simpl; lia).
  split; [exact H1|]. split; [exact H2|]. exact (np_prod_exact _ H1 H2).
Defined.

(* ================================================================== *)
(** ** Further properties: The dataspace validator and the dataset path rewriting *)

(** X5: [check_shape]: a dataspace without [class] raises KeyError, one with a
    class other than [H5S_NULL], [H5S_SCALAR] or [H5S_SIMPLE] raises
    ValueError, and a null or scalar dataspace validates exactly when it
    has neither [dims] nor [maxdims] (KeyError otherwise). *)
Theorem check_shape_class (kvs : list (string * json)) :
  (dict_get "class" kvs = None ->
   check_shape (JObj kvs) = raise KeyError "Dataspace class missing") /\
  (forall c, dict_get "class" kvs = Some c ->
   str_in c ["H5S_NULL"; "H5S_SCALAR"; "H5S_SIMPLE"] = false ->
   check_shape (JObj kvs) = raise ValueError "%s: Invalid dataspace class") /\
  (forall c, c = "H5S_NULL" \/ c = "H5S_SCALAR" -> dict_get "class" kvs = Some (JStr c) ->
   (check_shape (JObj kvs) = ok tt <->
    dict_get "dims" kvs = None /\ dict_get "maxdims" kvs = None) /\
   (dict_get "dims" kvs <> None \/ dict_get "maxdims" kvs <> None ->
    exists m, check_shape (JObj kvs) = raise KeyError m)).
Proof.
  split; [|split].
  - intros H. unfold check_shape. cbn. rewrite H. reflexivity.
  - intros c H Hc. unfold check_shape. cbn -[str_in]. rewrite H. cbn -[str_in]. rewrite Hc. reflexivity.
  - intros c Hc H.
    assert (E : check_shape (JObj kvs) =
                if (if dict_get "dims" kvs then true else false) ||
                   (if dict_get "maxdims" kvs then true else false)
                then raise KeyError "'dims' and 'maxdims' not allowed for %s dataspace"
                else ok tt).
    { unfold check_shape. cbn. rewrite H.
      destruct Hc as [-> | ->]; reflexivity. }
    rewrite E. destruct (dict_get "dims" kvs), (dict_get "maxdims" kvs); cbn;
      (split; [split; [try discriminate; auto | intros [H1 H2]; try discriminate; reflexivity]|]);
      try (intros _; eexists; reflexivity).
    intros [H1|H1]; exfalso; apply H1; reflexivity.
Qed.

Lemma split_slash_from_nonempty (s cur : string) : split_slash_from s cur <> [].
Proof.
  revert cur. induction s as [|c s IH]; intros cur; simpl; [discriminate|].
  destruct (Ascii.eqb c "/"); [discriminate | apply IH].
Qed.

Lemma str_app_cons (c : ascii) (s1 s2 : string) :
  (String c s1 ++ s2)%string = String c (s1 ++ s2)%string.
Proof. reflexivity. Qed.

Lemma str_app_nil_l (s : string) : ("" ++ s)%string = s.
Proof. reflexivity. Qed.

Lemma str_app_nil_r (s : string) : (s ++ "")%string = s.
Proof. induction s as [|c s IH]; [reflexivity|]. rewrite str_app_cons, IH. reflexivity. Qed.

Lemma str_app_assoc (s1 s2 s3 : string) :
  (s1 ++ (s2 ++ s3))%string = ((s1 ++ s2) ++ s3)%string.
Proof.
  induction s1 as [|c s1 IH]; [reflexivity|]. rewrite !str_app_cons, IH. reflexivity.
Qed.

Lemma join_slash_cons2 (a b : string) (rest : list string) :
  join_slash (a :: b :: rest) = (a ++ "/" ++ join_slash (b :: rest))%string.
Proof. reflexivity. Qed.

Lemma join_split_slash_from (s cur : string) :
  join_slash (split_slash_from s cur) = (cur ++ s)%string.
Proof.
  revert cur. induction s as [|c s IH]; intros cur; simpl.
  - rewrite str_app_nil_r. reflexivity.
  - destruct (Ascii.eqb c "/") eqn:Hc.
    + apply Ascii.eqb_eq in Hc as ->.
      destruct (split_slash_from s "") as [|b rest] eqn:E;
        [exfalso; exact (split_slash_from_nonempty s "" E)|].
      rewrite join_slash_cons2, <- E, IH. reflexivity.
    + rewrite IH, <- str_app_assoc. reflexivity.
Qed.

Lemma join_split_slash (s : string) : join_slash (split_slash s) = s.
Proof. unfold split_slash. rewrite join_split_slash_from. reflexivity. Qed.

(** A string without ['/'] characters. *)
Lemma split_slash_from_no_slash (s tail cur : string) :
  forallb (fun c => negb (Ascii.eqb c "/")) (list_ascii_of_string s) = true ->
  split_slash_from (s ++ tail) cur = split_slash_from tail (cur ++ s).
Proof.
  revert cur. induction s as [|c s IH]; intros cur H; simpl.
  - rewrite str_app_nil_r. reflexivity.
  - simpl in H. apply andb_true_iff in H as [Hc H].
    destruct (Ascii.eqb c "/"); [discriminate|].
    rewrite IH by exact H. rewrite <- str_app_assoc. reflexivity.
Qed.

Lemma split_slash_datasets (r : string) :
  split_slash ("datasets/" ++ r) = "datasets" :: split_slash_from r "".
Proof. reflexivity. Qed.

Lemma prefix_app (p r : string) : String.prefix p (p ++ r) = true.
Proof.
  induction p as [|c p IH]; [destruct r; reflexivity|].
  rewrite str_app_cons. simpl. destruct (ascii_dec c c) as [_|n]; [exact IH|].
  exfalso. apply n. reflexivity.
Qed.

Lemma join_slash_datasets (q : string) (rest : list string) :
  join_slash ("datasets" :: q :: rest) = ("datasets/" ++ join_slash (q :: rest))%string.
Proof. reflexivity. Qed.

(** X6: [replace_uuid] on ["datasets/" ++ id ++ tail], where [id] has no ['/'] and
    [tail] is empty or starts with ['/'], replaces [id] by its substitute
    from the identifier map and keeps [tail]. *)
Theorem replace_uuid_segment (uuid4 : nat -> string) (id tail : string)
    (s s' : ustate) (q : string) :
  forallb (fun c => negb (Ascii.eqb c "/")) (list_ascii_of_string id) = true ->
  (tail = "" \/ exists t, tail = String "/" t) ->
  sub_lookup uuid4 id s = inr (q, s') ->
  replace_uuid uuid4 (JStr ("datasets/" ++ id ++ tail)) s =
    inr (JStr ("datasets/" ++ q ++ tail), s').
Proof.
  intros Hid Htail Hq. unfold replace_uuid.
  rewrite prefix_app, split_slash_datasets, split_slash_from_no_slash by exact Hid.
  rewrite str_app_nil_l.
  destruct Htail as [-> | [t ->]].
  - simpl. unfold mbind. rewrite Hq. unfold mret.
    rewrite join_slash_datasets. simpl. rewrite str_app_nil_r. reflexivity.
  - simpl. unfold mbind. rewrite Hq. unfold mret.
    rewrite join_slash_datasets.
    destruct (split_slash_from t "") as [|b rest] eqn:E;
      [exfalso; exact (split_slash_from_nonempty t "" E)|].
    rewrite join_slash_cons2, <- E, join_split_slash_from, str_app_nil_l. reflexivity.
Qed.

Lemma replace_uuid_segment_witness :
  replace_uuid letter_uuid (JStr ("datasets/" ++ "D1" ++ "/x")) (mk_ustate ∅ 0) =
    inr (JStr ("datasets/" ++ "A" ++ "/x"), mk_ustate {[ "D1" := "A" ]} 1).
Proof.
  apply (replace_uuid_segment letter_uuid "D1" "/x" (mk_ustate ∅ 0) _ "A").
  - reflexivity.
  - right. exists "x". reflexivity.
  - reflexivity.
Defined.

(* ================================================================== *)
(** ** Further properties: Simple dataspaces *)

Lemma check_shape_simple_ok_aux (kvs : list (string * json)) :
  check_shape (JObj kvs) = ok tt ->
  dict_get "class" kvs = Some (JStr "H5S_SIMPLE") ->
  exists dl, dict_get "dims" kvs = Some (JArr dl) /\ 0 < List.length dl <= 32 /\
    Forall (fun d => exists z, as_integral d = Some z /\ (0 <= z <= uint64_max)%Z) dl /\
    (forall m, dict_get "maxdims" kvs = Some m ->
     exists ml, m = JArr ml /\ List.length ml = List.length dl /\
     forall i d x, dl !! i = Some d -> ml !! i = Some x ->
       (forall zm, as_integral x = Some zm ->
        (0 < zm < uint64_max)%Z /\ exists zd, as_integral d = Some zd /\ (zd <= zm)%Z) /\
       (is_basestring x = true -> x = JStr "H5S_UNLIMITED")).
Proof.
  intros H Hc. unfold check_shape, py_in in H. simpl in H. rewrite Hc in H. simpl in H.
  destruct (dict_get "dims" kvs) as [dims|] eqn:Hd; simpl in H; [|discriminate].
  apply rbind_inr in H as [u [Hrank H]]. simpl in H.
  destruct dims as [| | | | |dl|]; try discriminate.
  apply rbind_inr in H as [u' [Hdims H]]. destruct u, u'.
  assert (Hlen : 0 < List.length dl <= 32).
  { assert (Hk : check_rank_key (JObj kvs) "dims" = ok tt).
    { apply (iter_res_In _ _ _ Hrank). destruct (dict_get "maxdims" kvs); simpl; auto. }
    unfold check_rank_key in Hk. simpl in Hk. rewrite Hd in Hk. simpl in Hk.
    destruct (Nat.ltb 0 (List.length dl) && Nat.leb (List.length dl) 32) eqn:E; [|discriminate].
    apply andb_true_iff in E as [E1 E2]. apply Nat.ltb_lt in E1. apply Nat.leb_le in E2. lia. }
  exists dl. split; [reflexivity|]. split; [exact Hlen|]. split.
  - apply iter_res_ok in Hdims. eapply Forall_impl; [exact Hdims|].
    intros d Hd'. unfold check_dims_entry in Hd'.
    destruct (as_integral d) as [z|]; [|discriminate].
    exists z. split; [reflexivity|].
    destruct (Z.ltb z 0 || Z.ltb uint64_max z) eqn:E; [discriminate|].
    apply orb_false_iff in E as [E1 E2]. apply Z.ltb_ge in E1, E2. lia.
  - intros m Hm. rewrite Hm in H. simpl in H.
    destruct m as [| | | | |ml|]; try discriminate.
    exists ml. split; [reflexivity|].
    destruct (negb (Nat.eqb (List.length dl) (List.length ml))) eqn:E; [discriminate|].
    apply negb_false_iff, Nat.eqb_eq in E. split; [lia|].
    intros i d x Hdi Hx.
    pose proof (iteri_res_ok_inv _ _ _ _ _ H Hx) as Hi. simpl in Hi.
    unfold check_maxdims_entry in Hi. split.
    + intros zm Hzm. rewrite Hzm in Hi.
      destruct (Z.leb zm 0 || Z.leb uint64_max zm) eqn:E1; [discriminate|].
      apply orb_false_iff in E1 as [E1 E2]. apply Z.leb_gt in E1, E2.
      split; [lia|].
      rewrite (nth_lookup_Some dl i JNull d Hdi) in Hi.
      apply iter_res_ok in Hdims. rewrite List.Forall_forall in Hdims.
      assert (Hin : In d dl) by (eapply list_elem_of_In, list_elem_of_lookup_2; eauto).
      specialize (Hdims d Hin). unfold check_dims_entry in Hdims.
      destruct (as_integral d) as [zd|]; [|discriminate].
      exists zd. split; [reflexivity|].
      destruct (Z.ltb zm zd) eqn:E3; [discriminate|]. apply Z.ltb_ge in E3. lia.
    + intros Hs. destruct x as [| | | |s| |]; try discriminate. simpl in Hi.
      destruct (String.eqb s "H5S_UNLIMITED") eqn:Es; [apply String.eqb_eq in Es; subst; reflexivity|].
      discriminate.
Qed.

(** X7: A simple dataspace accepted by [check_shape] has a list [dims] of 1 to 32
    integers in [0..2^64-1]; a [maxdims] entry, if present, is a list of the
    same length whose integers are in [1..2^64-2] and at least the matching
    [dims] entry, and whose strings are [H5S_UNLIMITED]. *)
Theorem check_shape_simple_ok (kvs : list (string * json)) :
  check_shape (JObj kvs) = ok tt ->
  dict_get "class" kvs = Some (JStr "H5S_SIMPLE") ->
  exists dl, dict_get "dims" kvs = Some (JArr dl) /\ 0 < List.length dl <= 32 /\
    Forall (fun d => exists z, as_integral d = Some z /\ (0 <= z <= uint64_max)%Z) dl /\
    (forall m, dict_get "maxdims" kvs = Some m ->
     exists ml, m = JArr ml /\ List.length ml = List.length dl /\
     forall i d x, dl !! i = Some d -> ml !! i = Some x ->
       (forall zm, as_integral x = Some zm ->
        (0 < zm < uint64_max)%Z /\ exists zd, as_integral d = Some zd /\ (zd <= zm)%Z) /\
       (is_basestring x = true -> x = JStr "H5S_UNLIMITED")).
Proof. exact (check_shape_simple_ok_aux kvs). Qed.

Lemma check_shape_simple_ok_witness :
  check_shape (JObj [("class", JStr "H5S_SIMPLE"); ("dims", JArr [JInt 2; JInt 3]);
                     ("maxdims", JArr [JInt 4; JStr "H5S_UNLIMITED"])]) = ok tt /\
  exists dl, dict_get "dims" [("class", JStr "H5S_SIMPLE"); ("dims", JArr [JInt 2; JInt 3]);
                              ("maxdims", JArr [JInt 4; JStr "H5S_UNLIMITED"])] = Some (JArr dl) /\
             0 < List.length dl <= 32.
Proof.
  assert (H : check_shape (JObj [("class", JStr "H5S_SIMPLE"); ("dims", JArr [JInt 2; JInt 3]);
                     ("maxdims", JArr [JInt 4; JStr "H5S_UNLIMITED"])]) = ok tt)
    by (vm_compute; reflexivity).
  split; [exact H|].
  destruct (check_shape_simple_ok _ H eq_refl) as (dl & Hd & Hl & _).
  exists dl. split; assumption.
Defined.

(* ================================================================== *)
(** ** Further properties: Filters and chunked layouts *)

Lemma check_filter_ok (h5j f : json) :
  check_filter h5j f = ok tt ->
  exists fkvs s fid z, f = JObj fkvs /\ dict_get "class" fkvs = Some (JStr s) /\
    In s ["H5Z_FILTER_DEFLATE"; "H5Z_FILTER_FLETCHER32"; "H5Z_FILTER_NBIT";
          "H5Z_FILTER_SCALEOFFSET"; "H5Z_FILTER_SHUFFLE"; "H5Z_FILTER_SZIP";
          "H5Z_FILTER_USER"] /\
    dict_get "id" fkvs = Some fid /\ as_integral fid = Some z /\ (0 < z)%Z /\
    (s = "H5Z_FILTER_DEFLATE" ->
     exists lv zl, dict_get "level" fkvs = Some lv /\ as_integral lv = Some zl /\ (0 <= zl <= 9)%Z).
Proof.
  intros H. destruct f as [| | | | | |fkvs]; try discriminate.
  unfold check_filter, py_in, getitem in H. simpl in H.
  destruct (dict_get "class" fkvs) as [fcls|] eqn:Hc; simpl in H; [|discriminate].
  destruct (dict_get "id" fkvs) as [fid|] eqn:Hi; simpl in H; [|discriminate].
  destruct (as_integral fid) as [z|] eqn:Hz; simpl in H; [|discriminate].
  destruct (Z.leb z 0) eqn:Ez; simpl in H; [discriminate|]. apply Z.leb_gt in Ez.
  destruct fcls as [| | | |s| |]; simpl in H; try discriminate.
  exists fkvs, s, fid, z. split; [reflexivity|]. split; [assumption|].
  split; [|split; [assumption|split; [assumption|split; [lia|]]]].
  - destruct (s =? "H5Z_FILTER_DEFLATE") eqn:E1; [apply String.eqb_eq in E1; subst; simpl; tauto|].
    destruct (s =? "H5Z_FILTER_FLETCHER32") eqn:E2; [apply String.eqb_eq in E2; subst; simpl; tauto|].
    destruct (s =? "H5Z_FILTER_NBIT") eqn:E3; [apply String.eqb_eq in E3; subst; simpl; tauto|].
    destruct (s =? "H5Z_FILTER_SCALEOFFSET") eqn:E4; [apply String.eqb_eq in E4; subst; simpl; tauto|].
    destruct (s =? "H5Z_FILTER_SHUFFLE") eqn:E5; [apply String.eqb_eq in E5; subst; simpl; tauto|].
    destruct (s =? "H5Z_FILTER_SZIP") eqn:E6; [apply String.eqb_eq in E6; subst; simpl; tauto|].
    destruct (s =? "H5Z_FILTER_USER") eqn:E7; [apply String.eqb_eq in E7; subst; simpl; tauto|].
    discriminate.
  - intros ->. simpl in H.
    destruct (dict_get "level" fkvs) as [lv|] eqn:Hl; simpl in H; [|discriminate].
    destruct (as_integral lv) as [zl|] eqn:Hzl; [|discriminate].
    exists lv, zl. split; [reflexivity|]. split; [exact Hzl|].
    destruct (Z.leb 0 zl && Z.leb zl 9) eqn:E; [|discriminate].
    apply andb_true_iff in E as [E1 E2]. apply Z.leb_le in E1, E2. lia.
Qed.

Lemma map_res_In {A B} (f : A -> res B) (l : list A) (l' : list B) (x : A) (y : B) :
  map_res f l = ok l' -> In x l -> f x = ok y -> In y l'.
Proof.
  revert l'. induction l as [|a l IH]; intros l' H Hin Hf; [destruct Hin|].
  simpl in H. apply rbind_inr in H as [b [Hb H]]. apply rbind_inr in H as [bs [Hbs H]].
  injection H as <-. destruct Hin as [->|Hin].
  - rewrite Hf in Hb. injection Hb as ->. left. reflexivity.
  - right. exact (IH bs Hbs Hin Hf).
Qed.

Lemma existsb_In_true {A} (p : A -> bool) (l : list A) (x : A) :
  In x l -> p x = true -> existsb p l = true.
Proof. intros Hin Hp. apply existsb_exists. exists x. auto. Qed.

(** X11: The [filters] of an object accepted by [validate_h5json] are a list of
    dicts, each with a known filter class and a positive integer [id]
    (a deflate filter with a [level] in [0..9]), and the list never holds
    both a scale-offset and a Fletcher-32 filter. *)
Theorem validate_filters (rr : npdtype -> Q -> bool) (reqd : list string)
  (kvs ckvs : list (string * json)) (fl : json) :
  validate_h5json rr reqd (JObj kvs) = ok tt ->
  dict_get "creationProperties" kvs = Some (JObj ckvs) ->
  dict_get "filters" ckvs = Some fl ->
  exists fs, fl = JArr fs /\
  (forall f, In f fs ->
   exists fkvs s fid z, f = JObj fkvs /\ dict_get "class" fkvs = Some (JStr s) /\
    In s ["H5Z_FILTER_DEFLATE"; "H5Z_FILTER_FLETCHER32"; "H5Z_FILTER_NBIT";
          "H5Z_FILTER_SCALEOFFSET"; "H5Z_FILTER_SHUFFLE"; "H5Z_FILTER_SZIP";
          "H5Z_FILTER_USER"] /\
    dict_get "id" fkvs = Some fid /\ as_integral fid = Some z /\ (0 < z)%Z /\
    (s = "H5Z_FILTER_DEFLATE" ->
     exists lv zl, dict_get "level" fkvs = Some lv /\ as_integral lv = Some zl /\ (0 <= zl <= 9)%Z)) /\
  ~ (exists k1 k2, In (JObj k1) fs /\ In (JObj k2) fs /\
     dict_get "class" k1 = Some (JStr "H5Z_FILTER_SCALEOFFSET") /\
     dict_get "class" k2 = Some (JStr "H5Z_FILTER_FLETCHER32")).
Proof.
  intros H Hcp Hf.
  destruct (validate_cp_ok rr reqd kvs (JObj ckvs) H Hcp) as [_ [_ Hfl]].
  unfold cp_filters, py_in, getitem in Hfl. rewrite Hf in Hfl. simpl in Hfl.
  destruct fl as [| | | | |fs|]; try discriminate.
  apply rbind_inr in Hfl as [u [_ Hfl]].
  apply rbind_inr in Hfl as [u' [Hit Hfl]]. destruct u'.
  apply rbind_inr in Hfl as [classes [Hcl Hfl]].
  exists fs. split; [reflexivity|]. split.
  - intros f Hin. apply check_filter_ok with (h5j := JObj kvs).
    exact (iter_res_In _ _ _ Hit Hin).
  - intros [k1 [k2 [H1 [H2 [Hc1 Hc2]]]]].
    assert (E1 : existsb (fun c => py_eq_str c "H5Z_FILTER_SCALEOFFSET") classes = true).
    { apply existsb_In_true with (x := JStr "H5Z_FILTER_SCALEOFFSET"); [|reflexivity].
      apply (map_res_In _ _ _ _ _ Hcl H1). simpl. rewrite Hc1. reflexivity. }
    assert (E2 : existsb (fun c => py_eq_str c "H5Z_FILTER_FLETCHER32") classes = true).
    { apply existsb_In_true with (x := JStr "H5Z_FILTER_FLETCHER32"); [|reflexivity].
      apply (map_res_In _ _ _ _ _ Hcl H2). simpl. rewrite Hc2. reflexivity. }
    rewrite E1, E2 in Hfl. discriminate.
Qed.

(** X12: A chunked layout of an object accepted by [validate_h5json] has a list
    of chunk dimensions, each an integer in [1..2^32-1], and the dataset's
    dataspace is simple with as many [dims] as the chunk. *)
Theorem validate_chunked (rr : npdtype -> Q -> bool) (reqd : list string)
  (kvs ckvs lkvs : list (string * json)) :
  validate_h5json rr reqd (JObj kvs) = ok tt ->
  dict_get "creationProperties" kvs = Some (JObj ckvs) ->
  dict_get "layout" ckvs = Some (JObj lkvs) ->
  dict_get "class" lkvs = Some (JStr "H5D_CHUNKED") ->
  exists cl skvs dl, dict_get "dims" lkvs = Some (JArr cl) /\
    Forall (fun d => exists z, as_integral d = Some z /\ (0 < z <= chunk_max)%Z) cl /\
    dict_get "shape" kvs = Some (JObj skvs) /\
    dict_get "class" skvs = Some (JStr "H5S_SIMPLE") /\
    dict_get "dims" skvs = Some (JArr dl) /\ List.length dl = List.length cl.
Proof.
  intros H Hcp Hl Hc.
  destruct (validate_stages rr reqd _ H) as [_ [Hsh _]].
  destruct (validate_cp_ok rr reqd kvs (JObj ckvs) H Hcp) as [_ [Hlay _]].
  unfold cp_layout, py_in, getitem in Hlay. rewrite Hl in Hlay. simpl in Hlay.
  rewrite Hc in Hlay. simpl in Hlay.
  destruct (dict_get "dims" lkvs) as [cd|] eqn:Hd; simpl in Hlay; [|discriminate].
  destruct cd as [| | | | |cl|]; try discriminate.
  apply rbind_inr in Hlay as [u [Hcl Hlay]]. destruct u.
  destruct (Z.ltb chunk_max (np_prod (map int_or_zero cl))); [discriminate|].
  destruct (dict_get "shape" kvs) as [shape|] eqn:Hs; simpl in Hlay; [|discriminate].
  destruct shape as [| | | | | |skvs]; try discriminate.
  simpl in Hlay.
  destruct (dict_get "class" skvs) as [sc|] eqn:Hsc; simpl in Hlay; [|discriminate].
  destruct (py_eq_str sc "H5S_SIMPLE") eqn:Esc; [|discriminate].
  apply py_eq_str_true in Esc. subst sc.
  unfold stage_shape, py_in, getitem in Hsh. rewrite Hs in Hsh. simpl in Hsh.
  destruct (check_shape_simple_ok_aux skvs Hsh Hsc) as [dl [Hdl _]].
  rewrite Hdl in Hlay. simpl in Hlay.
  exists cl, skvs, dl. split; [reflexivity|]. split.
  - apply iter_res_ok in Hcl. eapply Forall_impl; [exact Hcl|].
    intros d Hd'. unfold check_chunk_dim in Hd'.
    destruct (as_integral d) as [z|]; [|discriminate].
    exists z. split; [reflexivity|].
    destruct (Z.ltb 0 z && Z.leb z chunk_max) eqn:E; [|discriminate].
    apply andb_true_iff in E as [E1 E2]. apply Z.ltb_lt in E1. apply Z.leb_le in E2. lia.
  - split; [reflexivity|]. split; [exact Hsc|]. split; [exact Hdl|].
    destruct (Nat.eqb (List.length dl) (List.length cl)) eqn:E; [|discriminate].
    apply Nat.eqb_eq. exact E.
Qed.

Lemma validate_filters_witness :
  validate_h5json (fun _ _ => false) [] (JObj example_dataset_kvs) = ok tt /\
  exists fs, JArr [JObj [("class", JStr "H5Z_FILTER_DEFLATE"); ("id", JInt 1); ("level", JInt 5)]]
             = JArr fs /\
  ~ (exists k1 k2, In (JObj k1) fs /\ In (JObj k2) fs /\
     dict_get "class" k1 = Some (JStr "H5Z_FILTER_SCALEOFFSET") /\
     dict_get "class" k2 = Some (JStr "H5Z_FILTER_FLETCHER32")).
Proof.
  assert (H : validate_h5json (fun _ _ => false) [] (JObj example_dataset_kvs) = ok tt)
    by (vm_compute; reflexivity).
  split; [exact H|].
  destruct (validate_filters (fun _ _ => false) [] example_dataset_kvs _ _ H eq_refl eq_refl)
    as (fs & Hfs & _ & Hno).
  exists fs. split; assumption.
Defined.

Lemma validate_chunked_witness :
  validate_h5json (fun _ _ => false) [] (JObj example_dataset_kvs) = ok tt /\
  exists cl skvs dl, dict_get "dims" [("class", JStr "H5D_CHUNKED"); ("dims", JArr [JInt 1; JInt 3])]
                       = Some (JArr cl) /\
    dict_get "shape" example_dataset_kvs = Some (JObj skvs) /\
    dict_get "dims" skvs = Some (JArr dl) /\ List.length dl = List.length cl.
Proof.
  assert (H : validate_h5json (fun _ _ => false) [] (JObj example_dataset_kvs) = ok tt)
    by (vm_compute; reflexivity).
  split; [exact H|].
  destruct (validate_chunked (fun _ _ => false) [] example_dataset_kvs _ _ H eq_refl eq_refl eq_refl)
    as (cl & skvs & dl & Hc & _ & Hs & _ & Hd & Hl).
  exists cl, skvs, dl. repeat split; assumption.
Defined.

(* ================================================================== *)
(** ** Further properties: The datatype validator on compound types *)

Lemma json_size_pos (v : json) : 1 <= json_size v.
Proof. destruct v; simpl; lia. Qed.

Lemma json_size_obj_cons (k : string) (v : json) (kvs : list (string * json)) :
  json_size (JObj ((k, v) :: kvs)) = json_size v + json_size (JObj kvs).
Proof. simpl. lia. Qed.

Lemma json_size_arr_cons (x : json) (l : list json) :
  json_size (JArr (x :: l)) = json_size x + json_size (JArr l).
Proof. simpl. lia. Qed.

Lemma json_size_dict_get (k : string) (kvs : list (string * json)) (v : json) :
  dict_get k kvs = Some v -> json_size v < json_size (JObj kvs).
Proof.
  induction kvs as [|[k' w] kvs IH]; [discriminate|].
  rewrite json_size_obj_cons. cbn [dict_get]. destruct (String.eqb k k').
  - intros [= ->]. pose proof (json_size_pos (JObj kvs)). lia.
  - intros H. specialize (IH H). lia.
Qed.

Lemma json_size_In (x : json) (l : list json) :
  In x l -> json_size x < json_size (JArr l).
Proof.
  induction l as [|y l IH]; [destruct 1|].
  rewrite json_size_arr_cons. intros [->|H].
  - pose proof (json_size_pos (JArr l)). lia.
  - specialize (IH H). lia.
Qed.

Lemma getitem_size (c : json) (k : string) (v : json) :
  getitem c k = ok v -> json_size v < json_size c.
Proof.
  destruct c as [| | | | | |kvs]; try discriminate. simpl.
  destruct (dict_get k kvs) eqn:E; [intros [= <-]; exact (json_size_dict_get _ _ _ E)|discriminate].
Qed.

Lemma rbind_ext {A B} (m : res A) (k k' : A -> res B) :
  (forall x, m = ok x -> k x = k' x) -> rbind m k = rbind m k'.
Proof. destruct m as [e|a]; simpl; [reflexivity|]. intros H. apply H. reflexivity. Qed.

Lemma check_type_fuel_stable (n m : nat) (t : json) :
  json_size t <= n -> json_size t <= m -> check_type_fuel n t = check_type_fuel m t.
Proof.
  revert m t. induction n as [|n IH]; intros m t Hn Hm.
  { pose proof (json_size_pos t). lia. }
  destruct m as [|m]; [pose proof (json_size_pos t); lia|].
  cbn [check_type_fuel]. apply rbind_ext. intros hc _.
  destruct (negb hc); [reflexivity|].
  apply rbind_ext. intros tcls _.
  destruct (py_eq_str tcls "H5T_COMPOUND").
  - apply rbind_ext. intros hf _. destruct (negb hf); [reflexivity|].
    apply rbind_ext. intros fields Hfields.
    pose proof (getitem_size _ _ _ Hfields) as Hsz.
    destruct fields as [| | | | |fl|]; try reflexivity.
    destruct (Nat.eqb (List.length fl) 0); [reflexivity|].
    f_equal.
    assert (Hfl : forall f, In f fl -> json_size f < json_size t).
    { intros f Hf. pose proof (json_size_In _ _ Hf). lia. }
    clear Hfields Hsz. induction fl as [|f fl IHfl]; [reflexivity|].
    apply rbind_ext. intros hn _. destruct (negb hn); [reflexivity|].
    apply rbind_ext. intros nm _. apply rbind_ext. intros ln _.
    destruct (Nat.eqb ln 0); [reflexivity|].
    apply rbind_ext. intros ht _. destruct (negb ht); [reflexivity|].
    apply rbind_ext. intros ft Hft.
    pose proof (getitem_size _ _ _ Hft) as Hs1.
    pose proof (Hfl f (or_introl eq_refl)) as Hs2.
    rewrite (IH m ft) by lia. apply rbind_ext. intros u _.
    rewrite IHfl; [reflexivity|]. intros g Hg. apply Hfl. right. exact Hg.
  - destruct (py_eq_str tcls "H5T_VLEN").
    + apply rbind_ext. intros hb _. destruct (negb hb); [reflexivity|].
      apply rbind_ext. intros b Hb. pose proof (getitem_size _ _ _ Hb).
      apply IH; lia.
    + destruct (py_eq_str tcls "H5T_ARRAY"); [|reflexivity].
      apply rbind_ext. intros hd _. destruct (negb hd); [reflexivity|].
      apply rbind_ext. intros dims _. destruct dims; try reflexivity.
      destruct (negb _); [reflexivity|].
      apply rbind_ext. intros u _. apply rbind_ext. intros hb _.
      destruct (negb hb); [reflexivity|].
      apply rbind_ext. intros b Hb. pose proof (getitem_size _ _ _ Hb).
      apply IH; lia.
Qed.

Lemma check_type_fuel_adequate (n : nat) (t : json) :
  json_size t <= n -> check_type_fuel n t = check_type t.
Proof. intros H. apply check_type_fuel_stable; lia. Qed.

(** X13: A compound datatype accepted by [check_type] has a non-empty list of
    fields, each a dict with a non-empty [name] and a [type] that
    [check_type] accepts, and no field name occurs twice. *)
Theorem check_type_compound (kvs : list (string * json)) :
  check_type (JObj kvs) = ok tt ->
  dict_get "class" kvs = Some (JStr "H5T_COMPOUND") ->
  exists fl names, dict_get "fields" kvs = Some (JArr fl) /\ fl <> [] /\
    Forall2 (fun f nm => exists fk ft ln, f = JObj fk /\ dict_get "name" fk = Some nm /\
               py_len nm = ok ln /\ ln <> 0 /\
               dict_get "type" fk = Some ft /\ check_type ft = ok tt) fl names /\
    (forall nm, In nm names -> py_count nm names <= 1).
Proof.
  intros H Hc. unfold check_type in H.
  pose proof (json_size_pos (JObj kvs)) as Hpos.
  destruct (json_size (JObj kvs)) as [|n] eqn:Hsz; [lia|].
  cbn [check_type_fuel py_in getitem] in H. rewrite Hc in H. cbn -[check_type_fuel] in H.
  destruct (dict_get "fields" kvs) as [fields|] eqn:Hf; cbn -[check_type_fuel] in H; [|discriminate].
  destruct fields as [| | | | |fl|]; try discriminate.
  destruct (Nat.eqb (List.length fl) 0) eqn:Hlen; [discriminate|].
  apply rbind_inr in H as [names [Hm Hu]].
  exists fl, names. split; [reflexivity|]. split.
  { intros ->. discriminate. }
  split.
  - assert (Hb : forall f, In f fl -> json_size f < n).
    { intros f Hin. pose proof (json_size_In _ _ Hin). pose proof (json_size_dict_get _ _ _ Hf). lia. }
    clear Hlen Hu Hf. revert names Hm Hb. induction fl as [|f fl IH]; intros names Hm Hb.
    + injection Hm as <-. constructor.
    + apply rbind_inr in Hm as [hn [Hhn Hm]]. destruct hn; [|discriminate]. simpl in Hm.
      apply rbind_inr in Hm as [nm [Hnm Hm]].
      apply rbind_inr in Hm as [ln [Hln Hm]].
      destruct (Nat.eqb ln 0) eqn:Eln; [discriminate|].
      apply rbind_inr in Hm as [ht [Hht Hm]]. destruct ht; [|discriminate]. simpl in Hm.
      apply rbind_inr in Hm as [ft [Hft Hm]].
      apply rbind_inr in Hm as [u [Hct Hm]]. destruct u.
      apply rbind_inr in Hm as [names' [Hrest Hm]]. injection Hm as <-.
      constructor.
      * destruct (getitem_inr _ _ _ Hnm) as [fk [-> Hnm']].
        apply getitem_obj in Hft.
        exists fk, ft, ln. repeat split; try assumption.
        -- apply Nat.eqb_neq. exact Eln.
        -- rewrite <- (check_type_fuel_adequate n); [exact Hct|].
           pose proof (json_size_dict_get _ _ _ Hft).
           pose proof (Hb (JObj fk) (or_introl eq_refl)). lia.
      * apply IH; [exact Hrest|]. intros g Hg. apply Hb. right. exact Hg.
  - intros nm Hin. pose proof (iter_res_In _ _ _ Hu Hin) as Hx. simpl in Hx.
    destruct (py_count nm names) as [|[|k]]; [lia|lia|discriminate].
Qed.

Lemma check_type_compound_witness :
  check_type (JObj compound_type_kvs) = ok tt /\
  exists fl names, dict_get "fields" compound_type_kvs = Some (JArr fl) /\ fl <> [] /\
    (forall nm, In nm names -> py_count nm names <= 1).
Proof.
  assert (H : check_type (JObj compound_type_kvs) = ok tt) by (vm_compute; reflexivity).
  split; [exact H|].
  destruct (check_type_compound _ H eq_refl) as (fl & names & Hf & Hne & _ & Hu).
  exists fl, names. repeat split; assumption.
Defined.

(* ================================================================== *)
(** ** Further properties: The datatype validator on every class *)

Lemma str_in_eq (v : json) (l : list string) :
  str_in v l = true -> exists s, v = JStr s /\ In s l.
Proof.
  unfold str_in. intros H. apply existsb_exists in H as [s [Hin Hs]].
  exists s. split; [apply py_eq_str_true; exact Hs | exact Hin].
Qed.

Lemma check_atomic_type_ok (kvs : list (string * json)) :
  check_atomic_type (JObj kvs) = ok tt ->
  exists s, dict_get "class" kvs = Some (JStr s) /\
    In s ["H5T_STRING"; "H5T_INTEGER"; "H5T_FLOAT"; "H5T_REFERENCE"] /\ atomic_ok kvs s.
Proof.
  intros H. unfold check_atomic_type in H. cbn [getitem] in H.
  destruct (dict_get "class" kvs) as [tcls|] eqn:Hc; cbn -[str_in] in H; [|simpl in H; discriminate H].
  destruct tcls as [| | | |s| |]; cbn -[str_in] in H; try discriminate.
  exists s. split; [reflexivity|].
  destruct (s =? "H5T_STRING") eqn:E1.
  - apply String.eqb_eq in E1. subst s. split; [simpl; tauto|]. unfold atomic_ok.
    split; [|split; [intros [Habs|Habs]; discriminate Habs | intros Habs; discriminate Habs]].
    intros _.
    apply rbind_inr in H as [u [Hk H]]. destruct u.
    apply rbind_inr in H as [cs [Hcs H]].
    destruct (str_in cs ["H5T_CSET_ASCII"; "H5T_CSET_UTF8"]) eqn:Ecs; [|simpl in H; discriminate H].
    cbn -[str_in] in H. apply rbind_inr in H as [sp [Hsp H]].
    destruct (str_in sp ["H5T_STR_NULLTERM"; "H5T_STR_NULLPAD"; "H5T_STR_SPACEPAD"]) eqn:Esp; [|simpl in H; discriminate H].
    cbn -[str_in] in H. apply rbind_inr in H as [len [Hlen H]].
    apply getitem_obj in Hcs, Hsp, Hlen.
    exists cs, sp, len. split; [exact Hcs|]. split.
    { apply str_in_eq in Ecs as [c [-> Hin]]. simpl in Hin. intuition congruence. }
    split; [exact Hsp|]. split.
    { apply str_in_eq in Esp as [c [-> Hin]]. simpl in Hin. intuition congruence. }
    split; [exact Hlen|].
    destruct (py_eq_str len "H5T_VARIABLE") eqn:Ev.
    + left. apply py_eq_str_true. exact Ev.
    + right. destruct (as_integral len) as [z|]; [|simpl in H; discriminate H].
      exists z. split; [reflexivity|]. destruct (Z.ltb 0 z) eqn:Ez; [|simpl in H; discriminate H].
      apply Z.ltb_lt. exact Ez.
  - destruct (str_in (JStr s) ["H5T_INTEGER"; "H5T_FLOAT"]) eqn:E2.
    + apply str_in_eq in E2 as [s' [[= <-] Hin]].
      split; [simpl in *; tauto|].
      destruct (dict_get "base" kvs) as [b|] eqn:Hb; cbn -[str_in numpy_dtype] in H; [|discriminate H].
      apply rbind_inr in H as [d [Hd _]]. unfold atomic_ok.
      split; [intros ->; discriminate|]. split.
      * intros _. exists b, d. split; assumption.
      * intros ->. simpl in Hin. intuition discriminate.
    + destruct (s =? "H5T_REFERENCE") eqn:E3; [|simpl in H; discriminate H].
      apply String.eqb_eq in E3. subst s. split; [simpl; tauto|].
      destruct (dict_get "base" kvs) as [b|] eqn:Hb; cbn -[str_in] in H; [|discriminate H].
      destruct (str_in b ["H5T_STD_REF_OBJ"; "H5T_STD_REF_DSETREG"]) eqn:Eb; [|simpl in H; discriminate H].
      unfold atomic_ok.
      split; [intros Habs; discriminate Habs|]. split; [intros [Habs|Habs]; discriminate Habs|].
      intros _. exists b. split; [exact Hb|].
      apply str_in_eq in Eb as [c [-> Hin]]. simpl in Hin. intuition congruence.
Qed.

Lemma check_type_ok_class_aux (t : json) :
  check_type t = ok tt ->
  exists kvs s, t = JObj kvs /\ dict_get "class" kvs = Some (JStr s) /\
    In s ["H5T_COMPOUND"; "H5T_VLEN"; "H5T_ARRAY"; "H5T_STRING"; "H5T_INTEGER";
          "H5T_FLOAT"; "H5T_REFERENCE"] /\ atomic_ok kvs s.
Proof.
  intros H. unfold check_type in H.
  pose proof (json_size_pos t) as Hpos.
  destruct (json_size t) as [|n] eqn:Hsz; [lia|].
  cbn [check_type_fuel] in H.
  apply rbind_inr in H as [hc [Hhc H]]. destruct hc; [|discriminate H]. simpl in H.
  apply rbind_inr in H as [tcls [Htcls H]].
  destruct (getitem_inr _ _ _ Htcls) as [kvs [-> Hc]].
  exists kvs.
  destruct tcls as [| | | |s| |]; simpl in H;
    try (apply check_atomic_type_ok in H as [s' [Hc' _]]; congruence).
  exists s. split; [reflexivity|]. split; [exact Hc|].
  destruct (s =? "H5T_COMPOUND") eqn:E1.
  { apply String.eqb_eq in E1. subst s. split; [simpl; tauto|].
    repeat split; intros Habs; try destruct Habs as [Habs|Habs]; discriminate Habs. }
  destruct (s =? "H5T_VLEN") eqn:E2.
  { apply String.eqb_eq in E2. subst s. split; [simpl; tauto|].
    repeat split; intros Habs; try destruct Habs as [Habs|Habs]; discriminate Habs. }
  destruct (s =? "H5T_ARRAY") eqn:E3.
  { apply String.eqb_eq in E3. subst s. split; [simpl; tauto|].
    repeat split; intros Habs; try destruct Habs as [Habs|Habs]; discriminate Habs. }
  apply check_atomic_type_ok in H as [s' [Hc' [Hin Hat]]].
  rewrite Hc in Hc'. injection Hc' as <-. split; [simpl in *; tauto | exact Hat].
Qed.

(** X14: A datatype accepted by [check_type] is a dict whose [class] is one of
    the seven supported classes; a string type has a known character set,
    padding and a variable or positive length, an integer or float type has
    a base [numpy_dtype] resolves, and a reference type has an object or
    region reference base. *)
Theorem check_type_ok_class (t : json) :
  check_type t = ok tt ->
  exists kvs s, t = JObj kvs /\ dict_get "class" kvs = Some (JStr s) /\
    In s ["H5T_COMPOUND"; "H5T_VLEN"; "H5T_ARRAY"; "H5T_STRING"; "H5T_INTEGER";
          "H5T_FLOAT"; "H5T_REFERENCE"] /\ atomic_ok kvs s.
Proof. exact (check_type_ok_class_aux t). Qed.

(** X15: A vlen datatype accepted by [check_type] has a [base] that [check_type]
    accepts; an array datatype has 1 to 32 positive integer [dims] and such
    a [base]. *)
Theorem check_type_vlen_array (kvs : list (string * json)) :
  check_type (JObj kvs) = ok tt ->
  (dict_get "class" kvs = Some (JStr "H5T_VLEN") ->
   exists b, dict_get "base" kvs = Some b /\ check_type b = ok tt) /\
  (dict_get "class" kvs = Some (JStr "H5T_ARRAY") ->
   exists dl b, dict_get "dims" kvs = Some (JArr dl) /\ 0 < List.length dl <= 32 /\
     Forall (fun d => exists z, as_integral d = Some z /\ (0 < z)%Z) dl /\
     dict_get "base" kvs = Some b /\ check_type b = ok tt).
Proof.
  intros H. unfold check_type in H.
  pose proof (json_size_pos (JObj kvs)) as Hpos.
  destruct (json_size (JObj kvs)) as [|n] eqn:Hsz; [lia|].
  split; intros Hc; cbn [check_type_fuel py_in getitem] in H; rewrite Hc in H;
    cbn -[check_type_fuel] in H.
  - destruct (dict_get "base" kvs) as [b|] eqn:Hb; cbn -[check_type_fuel] in H; [|discriminate H].
    exists b. split; [reflexivity|].
    rewrite <- (check_type_fuel_adequate n); [exact H|].
    pose proof (json_size_dict_get _ _ _ Hb). lia.
  - destruct (dict_get "dims" kvs) as [dims|] eqn:Hd; cbn -[check_type_fuel] in H; [|discriminate H].
    destruct dims as [| | | | |dl|]; try discriminate H.
    destruct (List.length dl) as [|ln] eqn:Eln; [discriminate H|].
    match type of H with context [(?a <=? ?b)%nat] => destruct (a <=? b)%nat eqn:Er end;
      [|discriminate H].
    apply Nat.leb_le in Er.
    cbn -[check_type_fuel iter_res] in H.
    apply rbind_inr in H as [u [Hdl H]]. destruct u.
    destruct (dict_get "base" kvs) as [b|] eqn:Hb; cbn -[check_type_fuel] in H; [|discriminate H].
    exists dl, b. split; [reflexivity|]. split; [lia|]. split.
    + apply iter_res_ok in Hdl. eapply Forall_impl; [exact Hdl|].
      intros d Hd'. cbv beta in Hd'. destruct (as_integral d) as [z|]; [|discriminate Hd'].
      exists z. split; [reflexivity|]. destruct (Z.leb z 0) eqn:Ez; [discriminate Hd'|].
      apply Z.leb_gt. exact Ez.
    + split; [reflexivity|].
      rewrite <- (check_type_fuel_adequate n); [exact H|].
      pose proof (json_size_dict_get _ _ _ Hb). lia.
Qed.

Lemma check_type_ok_class_witness :
  check_type (JObj array_type_kvs) = ok tt /\
  exists kvs s, JObj array_type_kvs = JObj kvs /\ dict_get "class" kvs = Some (JStr s) /\
    In s ["H5T_COMPOUND"; "H5T_VLEN"; "H5T_ARRAY"; "H5T_STRING"; "H5T_INTEGER";
          "H5T_FLOAT"; "H5T_REFERENCE"].
Proof.
  assert (H : check_type (JObj array_type_kvs) = ok tt) by (vm_compute; reflexivity).
  split; [exact H|].
  destruct (check_type_ok_class _ H) as (kvs & s & E & Hc & Hin & _).
  exists kvs, s. repeat split; assumption.
Defined.

Lemma check_type_vlen_array_witness :
  check_type (JObj array_type_kvs) = ok tt /\
  exists dl b, dict_get "dims" array_type_kvs = Some (JArr dl) /\ 0 < List.length dl <= 32 /\
    dict_get "base" array_type_kvs = Some b /\ check_type b = ok tt.
Proof.
  assert (H : check_type (JObj array_type_kvs) = ok tt) by (vm_compute; reflexivity).
  split; [exact H|].
  destruct (proj2 (check_type_vlen_array _ H) eq_refl) as (dl & b & Hd & Hl & _ & Hb & Hbt).
  exists dl, b. exact (conj Hd (conj Hl (conj Hb Hbt))).
Defined.

(* ================================================================== *)
(** ** Further properties: [h5dtype_name], [is_dimscale] and [is_dimlist] *)

Lemma conv_map_h5dtype (k : string) (d : npdtype) :
  conv_map k = Some d -> h5dtype_conv_map k = Some (dtype_name d).
Proof.
  unfold conv_map, h5dtype_conv_map.
  repeat (destruct (k =? _); [intros [= <-]; reflexivity|]). discriminate.
Qed.

Lemma conv_map_none (k : string) :
  conv_map k = None ->
  h5dtype_conv_map k = None \/
  exists n, h5dtype_conv_map k = Some n /\
    In n ["string"; "compound"; "array"; "bitfield"; "reference"; "opaque"; "vlen"].
Proof.
  unfold conv_map, h5dtype_conv_map.
  intros H.
  repeat (destruct (k =? _); [first [discriminate H | right; eexists; split; [reflexivity|simpl; tauto]]|]).
  left. reflexivity.
Qed.

Lemma h5dtype_name_numeric_aux (kvs : list (string * json)) (c : string) (b : json) :
  dict_get "class" kvs = Some (JStr c) -> (c = "H5T_FLOAT" \/ c = "H5T_INTEGER") ->
  dict_get "base" kvs = Some b ->
  (forall d, numpy_dtype b = ok d -> h5dtype_name (JObj kvs) = ok (dtype_name d)) /\
  ((forall s, b <> JStr s) -> exists m m',
     numpy_dtype b = raise TypeError m /\ h5dtype_name (JObj kvs) = raise TypeError m') /\
  (forall s e m, b = JStr s -> numpy_dtype b = inl (e, m) ->
     h5dtype_name (JObj kvs) = raise ValueError "%s: Invalid HDF5 datatype" \/
     exists n, h5dtype_name (JObj kvs) = ok n /\
       In n ["string"; "compound"; "array"; "bitfield"; "reference"; "opaque"; "vlen"]).
Proof.
  intros Hc Hcl Hb.
  assert (Hin : str_in (JStr c) ["H5T_FLOAT"; "H5T_INTEGER"] = true).
  { destruct Hcl as [-> | ->]; reflexivity. }
  assert (E : h5dtype_name (JObj kvs) =
              match (key <- slice_drop_last2 b ;; conv_getitem key) with
              | inl (KeyError, _) => raise ValueError "%s: Invalid HDF5 datatype"
              | r => r end).
  { unfold h5dtype_name. cbn [getitem]. rewrite Hc. cbn [rbind].
    destruct Hcl as [-> | ->]; cbn [getitem str_in existsb py_eq_str String.eqb]; rewrite Hb; reflexivity. }
  rewrite E. split; [|split].
  - intros d Hd. destruct b as [| | | |s| |]; try discriminate Hd.
    simpl in Hd. destruct (conv_map (drop_last2 s)) eqn:Hm; [|discriminate Hd].
    injection Hd as ->. simpl. rewrite (conv_map_h5dtype _ _ Hm). reflexivity.
  - intros Hns. destruct b as [| | | |s| |];
      try (exfalso; apply (Hns s); reflexivity);
      eexists; eexists; split; reflexivity.
  - intros s e m -> Hd. simpl in Hd |- *.
    destruct (conv_map (drop_last2 s)) eqn:Hm; [discriminate Hd|].
    destruct (conv_map_none _ Hm) as [Hn | [n [Hn Hnin]]]; rewrite Hn.
    + left. reflexivity.
    + right. exists n. split; [reflexivity | exact Hnin].
Qed.

(** X16: [h5dtype_name] never fails on a datatype that [check_type] accepts, and
    returns one of fifteen names: the eight integer and two float numpy
    names, string, compound, array, reference or vlen. *)
Theorem check_type_h5dtype_name (t : json) :
  check_type t = ok tt ->
  exists n, h5dtype_name t = ok n /\
    In n ["int8"; "uint8"; "int16"; "uint16"; "int32"; "uint32"; "int64"; "uint64";
          "float32"; "float64"; "string"; "compound"; "array"; "reference"; "vlen"].
Proof.
  intros H. destruct (check_type_ok_class_aux t H) as [kvs [s [-> [Hc [Hin Hat]]]]].
  destruct Hat as [_ [Hnum _]].
  simpl in Hin. destruct Hin as [<-|[<-|[<-|[<-|[<-|[<-|[<-|[]]]]]]]].
  1-4, 7: eexists; split; [unfold h5dtype_name; cbn [getitem]; rewrite Hc; reflexivity | simpl; tauto].
  all: destruct (Hnum ltac:(tauto)) as [b [d [Hb Hd]]].
  all: eexists; split;
    [apply (h5dtype_name_numeric_aux kvs _ b Hc ltac:(tauto) Hb); exact Hd
    | destruct d; simpl; tauto].
Qed.

(** X17: For an integer or float datatype, [h5dtype_name] returns the numpy name
    of the type [numpy_dtype] resolves its base to; a base that is not a
    string raises TypeError in both functions; a string base that
    [numpy_dtype] rejects makes [h5dtype_name] raise ValueError or return
    one of the non-numeric names. *)
Theorem h5dtype_name_numeric (kvs : list (string * json)) (c : string) (b : json) :
  dict_get "class" kvs = Some (JStr c) -> (c = "H5T_FLOAT" \/ c = "H5T_INTEGER") ->
  dict_get "base" kvs = Some b ->
  (forall d, numpy_dtype b = ok d -> h5dtype_name (JObj kvs) = ok (dtype_name d)) /\
  ((forall s, b <> JStr s) -> exists m m',
     numpy_dtype b = raise TypeError m /\ h5dtype_name (JObj kvs) = raise TypeError m') /\
  (forall s e m, b = JStr s -> numpy_dtype b = inl (e, m) ->
     h5dtype_name (JObj kvs) = raise ValueError "%s: Invalid HDF5 datatype" \/
     exists n, h5dtype_name (JObj kvs) = ok n /\
       In n ["string"; "compound"; "array"; "bitfield"; "reference"; "opaque"; "vlen"]).
Proof. exact (h5dtype_name_numeric_aux kvs c b). Qed.

(** X18: [h5dtype_name] raises TypeError on a non-dict, ValueError on a dict
    without [class], and ValueError on an integer or float datatype
    without [base]. *)
Theorem h5dtype_name_errors :
  (forall v, (forall kvs, v <> JObj kvs) -> exists m, h5dtype_name v = raise TypeError m) /\
  (forall kvs, dict_get "class" kvs = None ->
     h5dtype_name (JObj kvs) = raise ValueError "%s: Invalid HDF5 datatype") /\
  (forall kvs c, dict_get "class" kvs = Some (JStr c) -> (c = "H5T_FLOAT" \/ c = "H5T_INTEGER") ->
     dict_get "base" kvs = None ->
     h5dtype_name (JObj kvs) = raise ValueError "%s: Invalid HDF5 datatype").
Proof.
  split; [|split].
  - intros v Hv. destruct v as [| | | | | |kvs]; try (eexists; reflexivity).
    exfalso. exact (Hv kvs eq_refl).
  - intros kvs Hc. unfold h5dtype_name. cbn [getitem]. rewrite Hc. reflexivity.
  - intros kvs c Hc Hcl Hb. unfold h5dtype_name. cbn [getitem]. rewrite Hc. cbn [rbind].
    destruct Hcl as [-> | ->]; cbn [getitem str_in existsb py_eq_str String.eqb];
      rewrite Hb; reflexivity.
Qed.

Lemma py_any_true (f : json -> res bool) (l : list json) (b : bool) :
  py_any f l = ok b -> (b = true <-> exists a, In a l /\ f a = ok true).
Proof.
  revert b. induction l as [|a l IH]; intros b H.
  - injection H as <-. split; [discriminate | intros [a [[] _]]].
  - simpl in H. apply rbind_inr in H as [b0 [Hb0 H]]. destruct b0.
    + injection H as <-. split; [intros _; exists a; split; [left; reflexivity | exact Hb0]|reflexivity].
    + rewrite (IH b H). split.
      * intros [x [Hx Hfx]]. exists x. split; [right; exact Hx | exact Hfx].
      * intros [x [[<-|Hx] Hfx]]; [rewrite Hfx in Hb0; discriminate Hb0|]. exists x. split; assumption.
Qed.

Lemma ref_list_test_true (a : json) :
  ref_list_test a = ok true <->
  exists t, getitem a "name" = ok (JStr "REFERENCE_LIST") /\ getitem a "type" = ok t /\
    getitem t "class" = ok (JStr "H5T_COMPOUND").
Proof.
  unfold ref_list_test. split.
  - intros H. apply rbind_inr in H as [n [Hn H]].
    destruct (py_eq_str n "REFERENCE_LIST") eqn:En; [|discriminate H].
    apply py_eq_str_true in En. subst n.
    apply rbind_inr in H as [t [Ht H]]. apply rbind_inr in H as [c [Hc H]].
    injection H as Hc'. apply py_eq_str_true in Hc'. subst c.
    exists t. auto.
  - intros [t [Hn [Ht Hc]]]. rewrite Hn. simpl. rewrite Ht. simpl. rewrite Hc. reflexivity.
Qed.

Lemma scale_class_test_true (a : json) :
  scale_class_test a = ok true <->
  getitem a "name" = ok (JStr "CLASS") /\ getitem a "value" = ok (JStr "DIMENSION_SCALE").
Proof.
  unfold scale_class_test. split.
  - intros H. apply rbind_inr in H as [n [Hn H]].
    destruct (py_eq_str n "CLASS") eqn:En; [|discriminate H].
    apply py_eq_str_true in En. subst n.
    apply rbind_inr in H as [v [Hv H]].
    injection H as Hv'. apply py_eq_str_true in Hv'. subst v. auto.
  - intros [Hn Hv]. rewrite Hn. simpl. rewrite Hv. reflexivity.
Qed.

Lemma dim_list_test_true (a : json) :
  dim_list_test a = ok true <->
  exists t, getitem a "name" = ok (JStr "DIMENSION_LIST") /\ getitem a "type" = ok t /\
    getitem t "class" = ok (JStr "H5T_VLEN").
Proof.
  unfold dim_list_test. split.
  - intros H. apply rbind_inr in H as [n [Hn H]].
    destruct (py_eq_str n "DIMENSION_LIST") eqn:En; [|discriminate H].
    apply py_eq_str_true in En. subst n.
    apply rbind_inr in H as [t [Ht H]]. apply rbind_inr in H as [c [Hc H]].
    injection H as Hc'. apply py_eq_str_true in Hc'. subst c.
    exists t. auto.
  - intros [t [Hn [Ht Hc]]]. rewrite Hn. simpl. rewrite Ht. simpl. rewrite Hc. reflexivity.
Qed.

(** X19: When [is_dimscale] returns, it returns [True] exactly when the attributes
    include a compound [REFERENCE_LIST] attribute and a [CLASS] attribute
    with value [DIMENSION_SCALE]. *)
Theorem is_dimscale_iff (attrs : list json) (b : bool) :
  is_dimscale attrs = ok b ->
  (b = true <->
   (exists a t, In a attrs /\ getitem a "name" = ok (JStr "REFERENCE_LIST") /\
      getitem a "type" = ok t /\ getitem t "class" = ok (JStr "H5T_COMPOUND")) /\
   (exists a, In a attrs /\ getitem a "name" = ok (JStr "CLASS") /\
      getitem a "value" = ok (JStr "DIMENSION_SCALE"))).
Proof.
  unfold is_dimscale. intros H.
  apply rbind_inr in H as [r [Hr H]]. apply rbind_inr in H as [c [Hc H]].
  injection H as <-.
  pose proof (py_any_true _ _ _ Hr) as Er. pose proof (py_any_true _ _ _ Hc) as Ec.
  rewrite andb_true_iff, Er, Ec. split.
  - intros [[a [Ha Ht]] [a' [Ha' Hs]]]. split.
    + apply ref_list_test_true in Ht as [t Ht]. exists a, t. auto.
    + apply scale_class_test_true in Hs. exists a'. auto.
  - intros [[a [t [Ha Ht]]] [a' [Ha' Hs]]]. split.
    + exists a. split; [exact Ha|]. apply ref_list_test_true. exists t. exact Ht.
    + exists a'. split; [exact Ha'|]. apply scale_class_test_true. exact Hs.
Qed.

(** X20: When [is_dimlist] returns, it returns [True] exactly when the attributes
    include a vlen [DIMENSION_LIST] attribute. *)
Theorem is_dimlist_iff (attrs : list json) (b : bool) :
  is_dimlist attrs = ok b ->
  (b = true <->
   exists a t, In a attrs /\ getitem a "name" = ok (JStr "DIMENSION_LIST") /\
      getitem a "type" = ok t /\ getitem t "class" = ok (JStr "H5T_VLEN")).
Proof.
  unfold is_dimlist. intros H.
  apply rbind_inr in H as [r [Hr H]]. injection H as <-.
  pose proof (py_any_true _ _ _ Hr) as Er.
  destruct r; (split; [intros E; try discriminate E|]).
  - destruct (proj1 Er eq_refl) as [a [Ha Ht]]. apply dim_list_test_true in Ht as [t Ht].
    exists a, t. auto.
  - reflexivity.
  - intros [a [t [Ha Ht]]]. apply Er. exists a. split; [exact Ha|].
    apply dim_list_test_true. exists t. exact Ht.
Qed.

Lemma check_type_h5dtype_name_witness :
  check_type (JObj array_type_kvs) = ok tt /\ h5dtype_name (JObj array_type_kvs) = ok "array".
Proof.
  assert (H : check_type (JObj array_type_kvs) = ok tt) by (vm_compute; reflexivity).
  split; [exact H|].
  destruct (check_type_h5dtype_name _ H) as (n & Hn & _). rewrite Hn.
  vm_compute in Hn. injection Hn as <-. reflexivity.
Defined.

Lemma h5dtype_name_numeric_witness :
  dict_get "class" [("class", JStr "H5T_INTEGER"); ("base", JStr "H5T_STD_I32LE")] =
    Some (JStr "H5T_INTEGER") /\
  h5dtype_name (JObj [("class", JStr "H5T_INTEGER"); ("base", JStr "H5T_STD_I32LE")]) =
    ok (dtype_name i4).
Proof.
  split; [reflexivity|].
  apply (proj1 (h5dtype_name_numeric [("class", JStr "H5T_INTEGER"); ("base", JStr "H5T_STD_I32LE")]
                  "H5T_INTEGER" (JStr "H5T_STD_I32LE") eq_refl (or_intror eq_refl) eq_refl)).
  reflexivity.
Defined.

Lemma is_dimscale_iff_witness :
  is_dimscale dimscale_attrs = ok true /\
  exists a, In a dimscale_attrs /\ getitem a "name" = ok (JStr "CLASS") /\
    getitem a "value" = ok (JStr "DIMENSION_SCALE").
Proof.
  assert (H : is_dimscale dimscale_attrs = ok true) by reflexivity.
  split; [exact H|].
  exact (proj2 (proj1 (is_dimscale_iff _ _ H) eq_refl)).
Defined.

Lemma is_dimlist_iff_witness :
  is_dimlist dimlist_attrs = ok true /\
  exists a t, In a dimlist_attrs /\ getitem a "name" = ok (JStr "DIMENSION_LIST") /\
    getitem a "type" = ok t /\ getitem t "class" = ok (JStr "H5T_VLEN").
Proof.
  assert (H : is_dimlist dimlist_attrs = ok true) by reflexivity.
  split; [exact H|].
  exact (proj1 (is_dimlist_iff _ _ H) eq_refl).
Defined.

(* ================================================================== *)
(** ** Further properties: [merge_dicts] *)

Lemma merge_nested_obj (d1 d2 : list (string * json)) :
  merge_nested (JObj d1) (JObj d2) = JObj (List.concat (map (merge_item d1 d2) (merge_keys d1 d2))).
Proof. reflexivity. Qed.

Lemma merge_dicts_unfold (d1 d2 : list (string * json)) :
  merge_dicts d1 d2 = List.concat (map (merge_item d1 d2) (merge_keys d1 d2)).
Proof. unfold merge_dicts. rewrite merge_nested_obj. reflexivity. Qed.

Lemma merge_nested_dicts (d1 d2 : list (string * json)) :
  merge_nested (JObj d1) (JObj d2) = JObj (merge_dicts d1 d2).
Proof. rewrite merge_nested_obj, merge_dicts_unfold. reflexivity. Qed.

Lemma merge_item_spec (d1 d2 : list (string * json)) (k : string) :
  merge_item d1 d2 k =
  match merge_val (dict_get k d1) (dict_get k d2) with Some w => [(k, w)] | None => [] end.
Proof.
  unfold merge_item. induction d1 as [|[k' w1] rest IH]; simpl.
  - destruct (dict_get k d2); reflexivity.
  - destruct (k =? k'); [destruct (dict_get k d2); reflexivity | exact IH].
Qed.

Lemma dict_get_app (k : string) (l1 l2 : list (string * json)) :
  dict_get k (l1 ++ l2) = match dict_get k l1 with Some v => Some v | None => dict_get k l2 end.
Proof.
  induction l1 as [|[k' v] l1 IH]; simpl; [reflexivity|].
  destruct (k =? k'); [reflexivity | exact IH].
Qed.

Lemma dict_get_In_fst (k : string) (kvs : list (string * json)) :
  dict_get k kvs <> None <-> In k (map fst kvs).
Proof.
  induction kvs as [|[k' v] kvs IH]; simpl; [tauto|].
  destruct (k =? k') eqn:E.
  - apply String.eqb_eq in E. subst. split; [auto | discriminate].
  - apply String.eqb_neq in E. rewrite IH. split; [auto|]. intros [H|H]; [congruence | exact H].
Qed.

Lemma merge_concat_get (d1 d2 : list (string * json)) (xs : list string) (k : string) :
  List.NoDup xs ->
  dict_get k (List.concat (map (merge_item d1 d2) xs)) =
  if in_dec string_dec k xs then merge_val (dict_get k d1) (dict_get k d2) else None.
Proof.
  induction xs as [|x xs IH]; intros Hnd; [reflexivity|].
  inversion Hnd as [|? ? Hx Hnd']; subst. simpl. rewrite dict_get_app, merge_item_spec.
  destruct (string_dec x k) as [->|Hne].
  - destruct (merge_val (dict_get k d1) (dict_get k d2)) as [w|] eqn:Hw.
    + simpl. rewrite String.eqb_refl. destruct (in_dec string_dec k (k :: xs)) as [_|Hn]; [reflexivity|].
      exfalso. apply Hn. left. reflexivity.
    + rewrite (IH Hnd'). destruct (in_dec string_dec k xs); [contradiction|].
      destruct (in_dec string_dec k (k :: xs)); reflexivity.
  - assert (E : dict_get k match merge_val (dict_get x d1) (dict_get x d2) with
                            | Some w => [(x, w)] | None => [] end = None).
    { destruct (merge_val (dict_get x d1) (dict_get x d2)); simpl; [|reflexivity].
      destruct (k =? x) eqn:Ek; [apply String.eqb_eq in Ek; congruence | reflexivity]. }
    rewrite E, (IH Hnd').
    destruct (in_dec string_dec k xs) as [Hin|Hn]; destruct (in_dec string_dec k (x :: xs)) as [Hin'|Hn'].
    + reflexivity.
    + exfalso. apply Hn'. right. exact Hin.
    + destruct Hin' as [Hxk|Hin']; [congruence | contradiction].
    + reflexivity.
Qed.

Lemma merge_keys_In (d1 d2 : list (string * json)) (k : string) :
  In k (merge_keys d1 d2) <-> In k (map fst d1) \/ In k (map fst d2).
Proof.
  unfold merge_keys. rewrite <- list_elem_of_In, elem_of_elements, elem_of_union,
    !elem_of_list_to_set, !list_elem_of_In. reflexivity.
Qed.

Lemma merge_keys_NoDup (d1 d2 : list (string * json)) : List.NoDup (merge_keys d1 d2).
Proof. apply NoDup_ListNoDup, NoDup_elements. Qed.

Lemma merge_dicts_get_aux (d1 d2 : list (string * json)) (k : string) :
  dict_get k (merge_dicts d1 d2) = merge_val (dict_get k d1) (dict_get k d2).
Proof.
  rewrite merge_dicts_unfold, (merge_concat_get _ _ _ _ (merge_keys_NoDup d1 d2)).
  destruct (in_dec string_dec k (merge_keys d1 d2)) as [_|Hn]; [reflexivity|].
  rewrite merge_keys_In, <- !dict_get_In_fst in Hn.
  destruct (dict_get k d1), (dict_get k d2); try reflexivity; exfalso; apply Hn;
    [left|left|right]; discriminate.
Qed.

Lemma merge_concat_keys (d1 d2 : list (string * json)) (xs : list string) :
  (forall k, In k xs -> In k (map fst d1) \/ In k (map fst d2)) ->
  map fst (List.concat (map (merge_item d1 d2) xs)) = xs.
Proof.
  induction xs as [|x xs IH]; intros Hxs; [reflexivity|].
  simpl. rewrite map_app, merge_item_spec.
  assert (Hx : merge_val (dict_get x d1) (dict_get x d2) <> None).
  { destruct (Hxs x (or_introl eq_refl)) as [H|H]; apply dict_get_In_fst in H;
      destruct (dict_get x d1), (dict_get x d2); simpl; congruence. }
  destruct (merge_val (dict_get x d1) (dict_get x d2)); [|contradiction].
  simpl. f_equal. apply IH. intros k Hk. apply Hxs. right. exact Hk.
Qed.

(** X21: [merge_dicts(d1, d2)] yields every key once, and its keys are exactly
    the keys of [d1] and of [d2]. *)
Theorem merge_dicts_keys (d1 d2 : list (string * json)) :
  List.NoDup (map fst (merge_dicts d1 d2)) /\
  (forall k, In k (map fst (merge_dicts d1 d2)) <-> In k (map fst d1) \/ In k (map fst d2)).
Proof.
  rewrite merge_dicts_unfold, merge_concat_keys by (intros k; apply merge_keys_In).
  split; [apply merge_keys_NoDup | apply merge_keys_In].
Qed.

(** X22: The value [merge_dicts(d1, d2)] yields for a key is the nested merge of
    both values when both dicts have the key, and otherwise the value of
    the dict that has it. *)
Theorem merge_dicts_get (d1 d2 : list (string * json)) (k : string) :
  dict_get k (merge_dicts d1 d2) =
  match dict_get k d1, dict_get k d2 with
  | Some w1, Some w2 => Some (merge_nested w1 w2)
  | Some w1, None => Some w1
  | None, o2 => o2
  end.
Proof. rewrite merge_dicts_get_aux. reflexivity. Qed.

Lemma merge_nested_not_obj (v1 v2 : json) :
  (forall kvs, v1 <> JObj kvs) \/ (forall kvs, v2 <> JObj kvs) -> merge_nested v1 v2 = v2.
Proof.
  intros [H|H]; destruct v1 as [| | | | | |d1]; try reflexivity;
    [exfalso; exact (H d1 eq_refl)|].
  destruct v2 as [| | | | | |d2]; try reflexivity. exfalso. exact (H d2 eq_refl).
Qed.

(** X23: A value reached in the second dict by a path of keys is found at the
    same path of the merge, merged with the first dict's value at that
    path if there is one. *)
Theorem merge_nested_second_wins (p : list string) (v1 v2 w2 : json) :
  get_path p v2 = Some w2 ->
  get_path p (merge_nested v1 v2) =
  Some (match get_path p v1 with Some w1 => merge_nested w1 w2 | None => w2 end).
Proof.
  revert v1 v2. induction p as [|k p IH]; intros v1 v2 H.
  - simpl in *. injection H as ->. reflexivity.
  - destruct v2 as [| | | | | |d2]; try discriminate H.
    simpl in H. destruct (dict_get k d2) as [u2|] eqn:Hu2; [|discriminate H].
    destruct v1 as [| | | | | |d1];
      try (rewrite merge_nested_not_obj by (left; intros kvs; discriminate);
           simpl; rewrite Hu2; rewrite H; reflexivity).
    rewrite merge_nested_dicts. cbn [get_path]. rewrite merge_dicts_get_aux, Hu2.
    destruct (dict_get k d1) as [u1|] eqn:Hu1; simpl.
    + apply IH. exact H.
    + rewrite H. reflexivity.
Qed.

(** X24: A value reached in the first dict by a path of keys that the second dict
    lacks is kept in the merge, as long as the second dict has a dict at
    every proper prefix of the path that it has. *)
Theorem merge_nested_first_kept (p : list string) (v1 v2 w1 : json) :
  get_path p v1 = Some w1 ->
  get_path p v2 = None ->
  (forall (q r : list string) (u : json), p = (q ++ r)%list -> r <> [] -> get_path q v2 = Some u ->
   exists kvs, u = JObj kvs) ->
  get_path p (merge_nested v1 v2) = Some w1.
Proof.
  revert v1 v2. induction p as [|k p IH]; intros v1 v2 H1 H2 Hq.
  - discriminate H2.
  - destruct (Hq [] (k :: p) v2 eq_refl ltac:(discriminate) eq_refl) as [d2 ->].
    destruct v1 as [| | | | | |d1]; try discriminate H1.
    rewrite merge_nested_dicts. cbn [get_path] in *. rewrite merge_dicts_get_aux.
    destruct (dict_get k d1) as [u1|] eqn:Hu1; [|discriminate H1].
    destruct (dict_get k d2) as [u2|] eqn:Hu2; simpl.
    + apply IH; [exact H1 | exact H2|].
      intros q r u Hp Hr Hu. apply (Hq (k :: q) r u); [rewrite Hp; reflexivity | exact Hr|].
      simpl. rewrite Hu2. exact Hu.
    + exact H1.
Qed.

Lemma merge_nested_second_wins_witness :
  get_path ["a"; "b"] (JObj [("a", JObj [("b", JInt 2)])]) = Some (JInt 2) /\
  get_path ["a"; "b"] (merge_nested (JObj [("a", JObj [("b", JInt 1); ("c", JInt 3)])])
                                    (JObj [("a", JObj [("b", JInt 2)])])) = Some (JInt 2).
Proof.
  split; [reflexivity|].
  apply (merge_nested_second_wins ["a"; "b"] (JObj [("a", JObj [("b", JInt 1); ("c", JInt 3)])])
           (JObj [("a", JObj [("b", JInt 2)])]) (JInt 2) eq_refl).
Defined.

Lemma merge_nested_first_kept_witness :
  get_path ["a"; "c"] (JObj [("a", JObj [("b", JInt 1); ("c", JInt 3)])]) = Some (JInt 3) /\
  get_path ["a"; "c"] (JObj [("a", JObj [("b", JInt 2)])]) = None /\
  get_path ["a"; "c"] (merge_nested (JObj [("a", JObj [("b", JInt 1); ("c", JInt 3)])])
                                    (JObj [("a", JObj [("b", JInt 2)])])) = Some (JInt 3).
Proof.
  split; [reflexivity|]. split; [reflexivity|].
  apply (merge_nested_first_kept ["a"; "c"] (JObj [("a", JObj [("b", JInt 1); ("c", JInt 3)])])
           (JObj [("a", JObj [("b", JInt 2)])]) (JInt 3) eq_refl eq_refl).
  intros q r u Hp Hr Hu.
  destruct q as [|k1 q]; [injection Hu as <-; eexists; reflexivity|].
  injection Hp as <- Hp.
  destruct q as [|k2 q]; [simpl in Hu; injection Hu as <-; eexists; reflexivity|].
  injection Hp as <- Hp.
  destruct q as [|x q]; simpl in Hp; [subst r; contradiction (Hr eq_refl) | discriminate Hp].
Defined.

(* ================================================================== *)
(** ** Further properties: The hierarchy walker: reachability *)

Lemma get_hard_links_In (groups : list (string * list link)) (p : entry) (coll : string)
  (hl : list link) (l : link) :
  get_hard_links groups (e_id p) coll = ok hl -> In l hl -> hard_link groups p coll l.
Proof.
  unfold get_hard_links. destruct (assoc_get (e_id p) groups) as [links|] eqn:E; [|discriminate].
  intros [= <-] Hin. apply filter_In in Hin as [Hin Hf].
  apply andb_true_iff in Hf as [H1 H2]. apply String.eqb_eq in H1, H2.
  exists links. auto.
Qed.

Lemma tree_walker_reached (groups : list (string * list link)) (r : string) (fuel : nat) :
  forall g st st', reached groups r g -> tree_walker fuel groups g st = ok st' ->
  exists X Y, st' = ((fst st ++ X)%list, (snd st ++ Y)%list) /\
    Forall (reached groups r) X /\ Forall (dataset_of groups r) Y.
Proof.
  induction fuel as [|fuel IH]; intros g st st' Hg H; [discriminate H|].
  simpl in H. apply rbind_inr in H as [dl [Hdl H]]. apply rbind_inr in H as [gl [Hgl H]].
  assert (Hc : Forall (reached groups r) (map (link_entry g) gl)).
  { apply List.Forall_forall. intros e He. apply in_map_iff in He as [l [<- Hl]].
    apply reached_link; [exact Hg|]. exact (get_hard_links_In _ _ _ _ _ Hgl Hl). }
  assert (Hd : Forall (dataset_of groups r) (map (link_entry g) dl)).
  { apply List.Forall_forall. intros e He. apply in_map_iff in He as [l [<- Hl]].
    exists g, l. split; [exact Hg|]. split; [exact (get_hard_links_In _ _ _ _ _ Hdl Hl)|reflexivity]. }
  assert (Hw : forall cs st0 st1, Forall (reached groups r) cs ->
            walk_children (tree_walker fuel groups) cs st0 = ok st1 ->
            exists X Y, st1 = ((fst st0 ++ X)%list, (snd st0 ++ Y)%list) /\
              Forall (reached groups r) X /\ Forall (dataset_of groups r) Y).
  { induction cs as [|c cs IHcs]; intros st0 st1 Hcs Hw.
    - injection Hw as <-. exists [], []. destruct st0. simpl. rewrite !app_nil_r.
      split; [reflexivity|]. split; constructor.
    - simpl in Hw. apply rbind_inr in Hw as [stm [Hm Hw]].
      inversion Hcs as [|? ? Hc0 Hcs']; subst.
      destruct (IH c st0 stm Hc0 Hm) as [X1 [Y1 [-> [HX1 HY1]]]].
      destruct (IHcs _ _ Hcs' Hw) as [X2 [Y2 [-> [HX2 HY2]]]].
      exists (X1 ++ X2)%list, (Y1 ++ Y2)%list. simpl. rewrite !app_assoc.
      split; [reflexivity|]. split; apply Forall_app; auto. }
  destruct (Hw _ _ _ Hc H) as [X [Y [-> [HX HY]]]]. simpl.
  exists (map (link_entry g) gl ++ X)%list, (map (link_entry g) dl ++ Y)%list.
  rewrite !app_assoc. split; [reflexivity|]. split; apply Forall_app; auto.
Qed.

(** X25: A successful [order_objs] needs a [root]; for groups it lists the root
    at ['/'] first, then only groups reached from the root by hard group
    links, and for datasets only the targets of hard dataset links of such
    groups. *)
Theorem order_objs_reachable (fuel : nat) (h5j : design) (otype : string) (out : list entry) :
  order_objs fuel h5j otype = ok out ->
  exists r, d_root h5j = Some r /\
    (otype = "group" ->
       exists rest, out = mk_entry r "/" :: rest /\ Forall (reached (d_groups h5j) r) rest) /\
    (otype <> "group" -> Forall (dataset_of (d_groups h5j) r) out).
Proof.
  unfold order_objs. destruct (d_root h5j) as [r|]; [|discriminate].
  intros H. apply rbind_inr in H as [st [Hst H]]. injection H as <-.
  destruct (tree_walker_reached _ r _ _ _ _ (reached_root _ r) Hst) as [X [Y [-> [HX HY]]]].
  exists r. split; [reflexivity|]. split.
  - intros ->. simpl. exists X. split; [reflexivity | exact HX].
  - intros Hne. destruct (String.eqb_spec otype "group"); [contradiction|]. exact HY.
Qed.

Lemma pp_join_abs (a b : string) (t : string) :
  a = String "/" t -> exists t', pp_join a b = String "/" t'.
Proof.
  intros ->. unfold pp_join.
  destruct (String.prefix "/" b) eqn:Hp.
  - destruct b as [|c b]; [discriminate Hp|]. cbn -[ascii_dec] in Hp.
    destruct (ascii_dec "/" c) as [<-|]; [|discriminate Hp]. exists b. reflexivity.
  - destruct (String.eqb (String "/" t) "" || ends_with_slash (String "/" t)).
    + exists (t ++ b). reflexivity.
    + exists (t ++ "/" ++ b). reflexivity.
Qed.

Lemma reached_abs (groups : list (string * list link)) (r : string) (e : entry) :
  reached groups r e -> exists t, e_path e = String "/" t.
Proof.
  induction 1 as [|p l Hp [t Ht] Hl].
  - exists "". reflexivity.
  - simpl. exact (pp_join_abs _ _ _ Ht).
Qed.

(** X26: Every path that a successful [order_objs] lists is absolute: it starts
    with ['/']. *)
Theorem order_objs_abs_paths (fuel : nat) (h5j : design) (otype : string) (out : list entry) :
  order_objs fuel h5j otype = ok out ->
  Forall (fun e => exists t, e_path e = String "/" t) out.
Proof.
  unfold order_objs. destruct (d_root h5j) as [r|]; [|discriminate].
  intros H. apply rbind_inr in H as [st [Hst H]]. injection H as <-.
  destruct (tree_walker_reached _ r _ _ _ _ (reached_root _ r) Hst) as [X [Y [-> [HX HY]]]].
  destruct (String.eqb otype "group"); simpl.
  - constructor; [exists ""; reflexivity|].
    eapply Forall_impl; [exact HX|]. intros e He. exact (reached_abs _ _ _ He).
  - eapply Forall_impl; [exact HY|]. intros e [p [l [Hp [_ ->]]]].
    destruct (reached_abs _ _ _ Hp) as [t Ht]. exact (pp_join_abs _ _ _ Ht).
Qed.

Lemma tree_walker_self_loop (groups : list (string * list link)) (r : string) (links : list link)
  (l : link) (rest : list link) :
  assoc_get r groups = Some links ->
  List.filter (fun l => String.eqb (l_class l) "H5L_TYPE_HARD" &&
                        String.eqb (l_collection l) "groups") links = l :: rest ->
  l_id l = r ->
  forall fuel g st, e_id g = r -> exists m, tree_walker fuel groups g st = raise RuntimeError m.
Proof.
  intros Hg Hf Hl fuel. induction fuel as [|fuel IH]; intros g st Hgid.
  - eexists. reflexivity.
  - simpl. unfold get_hard_links. rewrite Hgid, Hg. simpl. rewrite Hf. simpl.
    destruct (IH (link_entry g l) (fst st ++ link_entry g l :: map (link_entry g) rest,
               snd st ++ map (link_entry g)
                 (List.filter (fun l => String.eqb (l_class l) "H5L_TYPE_HARD" &&
                                        String.eqb (l_collection l) "datasets") links))%list
               Hl) as [m Hm].
    exists m. rewrite Hm. reflexivity.
Qed.

(** X27: When the first hard group link of the root group points back to the
    root, [order_objs] raises RuntimeError (maximum recursion depth exceeded),
    whatever the object type. *)
Theorem order_objs_self_loop (h5j : design) (r : string) (links : list link) (l : link)
  (rest : list link) :
  d_root h5j = Some r ->
  assoc_get r (d_groups h5j) = Some links ->
  List.filter (fun l => String.eqb (l_class l) "H5L_TYPE_HARD" &&
                        String.eqb (l_collection l) "groups") links = l :: rest ->
  l_id l = r ->
  forall fuel otype, exists m, order_objs fuel h5j otype = raise RuntimeError m.
Proof.
  intros Hr Hg Hf Hl fuel otype. unfold order_objs. rewrite Hr.
  destruct (tree_walker_self_loop _ r links l rest Hg Hf Hl fuel (mk_entry r "/")
              ([mk_entry r "/"], []) eq_refl) as [m Hm].
  exists m. rewrite Hm. reflexivity.
Qed.

Lemma order_objs_reachable_witness :
  order_objs 10 branching_design "group" =
    ok [mk_entry "r" "/"; mk_entry "a" "/a"; mk_entry "b" "/b"; mk_entry "c" "/a/c"] /\
  Forall (reached (d_groups branching_design) "r")
    [mk_entry "a" "/a"; mk_entry "b" "/b"; mk_entry "c" "/a/c"].
Proof.
  assert (H : order_objs 10 branching_design "group" =
    ok [mk_entry "r" "/"; mk_entry "a" "/a"; mk_entry "b" "/b"; mk_entry "c" "/a/c"])
    by (vm_compute; reflexivity).
  split; [exact H|].
  destruct (order_objs_reachable _ _ _ _ H) as (r & Hr & Hg & _).
  injection Hr as <-. destruct (Hg eq_refl) as (rest & E & Hf).
  injection E as ->. exact Hf.
Defined.

Lemma order_objs_abs_paths_witness :
  order_objs 10 branching_design "group" =
    ok [mk_entry "r" "/"; mk_entry "a" "/a"; mk_entry "b" "/b"; mk_entry "c" "/a/c"] /\
  Forall (fun e => exists t, e_path e = String "/" t)
    [mk_entry "r" "/"; mk_entry "a" "/a"; mk_entry "b" "/b"; mk_entry "c" "/a/c"].
Proof.
  assert (H : order_objs 10 branching_design "group" =
    ok [mk_entry "r" "/"; mk_entry "a" "/a"; mk_entry "b" "/b"; mk_entry "c" "/a/c"])
    by (vm_compute; reflexivity).
  split; [exact H|]. exact (order_objs_abs_paths _ _ _ _ H).
Defined.

Lemma order_objs_self_loop_witness :
  d_root self_loop_design = Some "r" /\
  exists m, order_objs 100 self_loop_design "group" = raise RuntimeError m.
Proof.
  split; [reflexivity|].
  exact (order_objs_self_loop self_loop_design "r" [group_link "r" "again"]
           (group_link "r" "again") [] eq_refl eq_refl eq_refl eq_refl 100 "group").
Defined.

(* ================================================================== *)
(** ** Further properties: The identity rewriter: calls of the generator and success *)

Lemma track_nil (s : ustate) : track [] s s.
Proof. repeat split; auto. intros k []. Qed.

Lemma track_app (K1 K2 : list string) (s1 s2 s3 : ustate) :
  track K1 s1 s2 -> track K2 s2 s3 -> track (K1 ++ K2)%list s1 s3.
Proof.
  intros (M1 & N1 & D1 & I1) (M2 & N2 & D2 & I2). repeat split.
  - etrans; eassumption.
  - auto.
  - intros k Hk. destruct (D2 k Hk) as [Hk'|Hk']; [|right; apply in_or_app; right; exact Hk'].
    destruct (D1 k Hk') as [H|H]; [left; exact H | right; apply in_or_app; left; exact H].
  - intros k Hk. apply in_app_or in Hk as [Hk|Hk]; [|exact (I2 k Hk)].
    destruct (I1 k Hk) as [v Hv]. exists v. exact (lookup_weaken _ _ _ _ Hv M2).
Qed.

Lemma track_perm (K K' : list string) (s s' : ustate) :
  (forall k, In k K <-> In k K') -> track K s s' -> track K' s s'.
Proof.
  intros HK (Mm & N & D & I). repeat split; auto.
  - intros k Hk. destruct (D k Hk); [left; assumption | right; apply HK; assumption].
  - intros k Hk. apply I, HK, Hk.
Qed.

Section Counting.

Variable uuid4 : nat -> string.

Lemma sub_lookup_track (k : string) (s : ustate) (v : string) (s' : ustate) :
  sub_lookup uuid4 k s = inr (v, s') -> track [k] s s'.
Proof.
  unfold sub_lookup. destruct (us_map s !! k) as [v0|] eqn:E; intros H; injection H as <- <-.
  - repeat split; auto.
    + intros k' [<-|[]]. exists v0. exact E.
  - repeat split; cbn [us_map us_next].
    + apply insert_subseteq. exact E.
    + intros Hn. rewrite map_size_insert_None by exact E. lia.
    + intros k' [w Hw]. apply lookup_insert_Some in Hw as [[<- _]|[_ Hw]];
        [right; left; reflexivity | left; exists w; exact Hw].
    + intros k' [<-|[]]. rewrite lookup_insert_eq. eexists. reflexivity.
Qed.

Lemma replace_uuid_track (v : json) (s : ustate) (v' : json) (s' : ustate) :
  (forall l, v <> JArr l) ->
  replace_uuid uuid4 v s = inr (v', s') -> track (value_ids v) s s'.
Proof.
  intros Hv. unfold replace_uuid. destruct v as [| | | |str|l|];
    try (intros H; injection H as <- <-; apply track_nil).
  2: exfalso; exact (Hv l eq_refl).
  cbn [value_ids]. destruct (String.prefix "datasets/" str);
    [|intros H; injection H as <- <-; apply track_nil].
  destruct (split_slash str) as [|p0 [|p1 rest]];
    try (intros H; injection H as <- <-; apply track_nil).
  intros H. apply mbind_inr in H as (q & s1 & Hq & H). injection H as <- <-.
  exact (sub_lookup_track _ _ _ _ Hq).
Qed.

Lemma mmap_track {A B} (f : A -> M B) (ids : A -> list string) (l : list A) :
  Forall (fun x => forall s b s', f x s = inr (b, s') -> track (ids x) s s') l ->
  forall s l' s', mmap f l s = inr (l', s') -> track (List.concat (map ids l)) s s'.
Proof.
  intros Hf. induction Hf as [|x xs Hx Hxs IH]; intros s l' s' H; simpl in H.
  - injection H as <- <-. apply track_nil.
  - apply mbind_inr in H as (y & s1 & Hy & H).
    apply mbind_inr in H as (ys & s2 & Hys & H). injection H as <- <-.
    simpl. exact (track_app _ _ _ _ _ (Hx _ _ _ Hy) (IH _ _ _ Hys)).
Qed.

Lemma scrub_item_track (v : json) :
  forall s v' s', scrub_item uuid4 v s = inr (v', s') -> track (value_ids v) s s'.
Proof.
  induction v as [|b|z|q|str|l IH|kvs] using json_nested_ind; intros s v' s' H;
    try (eapply replace_uuid_track; [intros ? ?; discriminate | exact H]).
  rewrite scrub_item_arr in H. apply mbind_inr in H as (l' & s1 & Hl & H).
  injection H as <- <-. exact (mmap_track _ value_ids l IH _ _ _ Hl).
Qed.

Lemma scrub_value_track (v : json) (s : ustate) (v' : json) (s' : ustate) :
  scrub_value uuid4 v s = inr (v', s') -> track (value_ids v) s s'.
Proof.
  destruct v as [| | | |str|l|kvs]; simpl; try discriminate.
  - destruct str; [|discriminate]. intros H. injection H as <- <-. apply track_nil.
  - intros H. exact (scrub_item_track (JArr l) s v' s' H).
  - destruct kvs; [|discriminate]. intros H. injection H as <- <-. apply track_nil.
Qed.

Lemma substitute_obj_track (o : obj) (s : ustate) (o' : obj) (s' : ustate) :
  substitute_obj uuid4 o s = inr (o', s') -> track (obj_ids o) s s'.
Proof.
  unfold substitute_obj, obj_ids. intros H.
  apply mbind_inr in H as (nid & s1 & Hid & H).
  apply mbind_inr in H as (npid & s2 & Hpid & H).
  apply mbind_inr in H as (nval & s3 & Hval & H).
  injection H as <- <-.
  apply (track_app [o_id o] _ _ s1); [exact (sub_lookup_track _ _ _ _ Hid)|].
  apply track_app with s2.
  - destruct (o_pid o) as [p|].
    + apply mbind_inr in Hpid as (p' & s2' & Hp & Hr). injection Hr as <- <-.
      exact (sub_lookup_track _ _ _ _ Hp).
    + injection Hpid as <- <-. apply track_nil.
  - destruct (is_link_attr o).
    + destruct (o_value o) as [v|].
      * apply mbind_inr in Hval as (v' & s3' & Hv & Hr). injection Hr as <- <-.
        exact (scrub_value_track _ _ _ _ Hv).
      * injection Hval as <- <-. apply track_nil.
    + injection Hval as <- <-. apply track_nil.
Qed.

Lemma substitute_uuids_track (objs : list obj) (root : string) (s0 : ustate)
    (objs' : list obj) (r : string) (s : ustate) :
  substitute_uuids uuid4 objs root s0 = inr ((objs', r), s) -> track (old_ids objs root) s0 s.
Proof.
  unfold substitute_uuids. intros H.
  apply mbind_inr in H as (r0 & s1 & H1 & H).
  apply mbind_inr in H as (l & s2 & H2 & H).
  apply mbind_inr in H as (r1 & s3 & H3 & H).
  injection H as <- <- <-.
  apply (track_perm ([root] ++ (List.concat (map obj_ids objs) ++ [root]))%list).
  { intros k. unfold old_ids. rewrite !in_app_iff. simpl. tauto. }
  apply (track_app _ _ _ s1); [exact (sub_lookup_track _ _ _ _ H1)|].
  apply (track_app _ _ _ s2); [|exact (sub_lookup_track _ _ _ _ H3)].
  refine (mmap_track (substitute_obj uuid4) obj_ids objs _ _ _ _ H2).
  apply List.Forall_forall. intros x _. apply substitute_obj_track.
Qed.

End Counting.

(** X28: After a successful [substitute_uuids], the identifier map holds exactly
    the old identifiers (the root, every [id] and [_pid], and the dataset
    identifiers of link attributes), and [uuid4] has been called once for
    each distinct one. *)
Theorem substitute_uuids_uuid4_calls (uuid4 : nat -> string) (objs : list obj) (root : string)
    (objs' : list obj) (r : string) (s : ustate) :
  run_substitute_uuids uuid4 objs root = inr ((objs', r), s) ->
  (forall k, is_Some (us_map s !! k) <-> In k (old_ids objs root)) /\
  us_next s = size (list_to_set (old_ids objs root) : gset string).
Proof.
  unfold run_substitute_uuids. intros H.
  destruct (substitute_uuids_track _ _ _ _ _ _ _ H) as (_ & N & D & I).
  assert (Hdom : forall k, is_Some (us_map s !! k) <-> In k (old_ids objs root)).
  { intros k. split; [|apply I].
    intros Hk. destruct (D k Hk) as [[v Hv]|Hin]; [|exact Hin].
    simpl in Hv. rewrite lookup_empty in Hv. discriminate. }
  split; [exact Hdom|].
  rewrite N by (simpl; rewrite map_size_empty; reflexivity).
  rewrite <- size_dom. f_equal. apply set_eq. intros k.
  rewrite elem_of_dom, elem_of_list_to_set, list_elem_of_In. apply Hdom.
Qed.

Section Success.

Variable uuid4 : nat -> string.

Lemma sub_lookup_total (k : string) (s : ustate) : exists r, sub_lookup uuid4 k s = inr r.
Proof. unfold sub_lookup. destruct (us_map s !! k); eexists; reflexivity. Qed.

Lemma mbind_total {A B} (m : M A) (k : A -> M B) :
  (forall s, exists r, m s = inr r) -> (forall a s, exists r, k a s = inr r) ->
  forall s, exists r, mbind m k s = inr r.
Proof.
  intros Hm Hk s. unfold mbind. destruct (Hm s) as [[a s'] E]. rewrite E. apply Hk.
Qed.

Lemma replace_uuid_total (v : json) (s : ustate) : exists r, replace_uuid uuid4 v s = inr r.
Proof.
  unfold replace_uuid. destruct v as [| | | |str| |]; try (eexists; reflexivity).
  destruct (String.prefix "datasets/" str); [|eexists; reflexivity].
  destruct (split_slash str) as [|p0 [|p1 rest]]; try (eexists; reflexivity).
  apply mbind_total; [intros; apply sub_lookup_total | intros; eexists; reflexivity].
Qed.

Lemma mmap_total {A B} (f : A -> M B) (l : list A) :
  Forall (fun x => forall s, exists r, f x s = inr r) l ->
  forall s, exists r, mmap f l s = inr r.
Proof.
  induction 1 as [|x xs Hx Hxs IH]; intros s; [eexists; reflexivity|].
  simpl. apply mbind_total; [exact Hx|]. intros y. apply mbind_total; [exact IH|].
  intros; eexists; reflexivity.
Qed.

Lemma scrub_item_total (v : json) (s : ustate) : exists r, scrub_item uuid4 v s = inr r.
Proof.
  revert s. induction v as [|b|z|q|str|l IH|kvs] using json_nested_ind; intros s;
    try apply replace_uuid_total.
  rewrite scrub_item_arr. apply mbind_total; [|intros; eexists; reflexivity].
  apply mmap_total. exact IH.
Qed.

Lemma scrub_value_ok_iff (v : json) (s : ustate) :
  (exists r, scrub_value uuid4 v s = inr r) <-> scrubbable v.
Proof.
  unfold scrubbable. split.
  - destruct v as [| | | |str|l|kvs]; simpl; intros [r Hr]; try discriminate Hr.
    + destruct str; [right; left; reflexivity | discriminate Hr].
    + left. exists l. reflexivity.
    + destruct kvs; [right; right; reflexivity | discriminate Hr].
  - intros [[l ->]|[->| ->]]; [apply (scrub_item_total (JArr l)) | eexists; reflexivity | eexists; reflexivity].
Qed.

Lemma substitute_obj_ok_iff (o : obj) (s : ustate) :
  (exists r, substitute_obj uuid4 o s = inr r) <->
  (is_link_attr o = true -> forall v, o_value o = Some v -> scrubbable v).
Proof.
  unfold substitute_obj. destruct (sub_lookup_total (o_id o) s) as [[nid s1] E1].
  unfold mbind at 1. rewrite E1.
  assert (Hp : exists npid s2, (match o_pid o with
                                | Some p => mbind (sub_lookup uuid4 p) (fun p' => mret (Some p'))
                                | None => mret None end) s1 = inr (npid, s2)).
  { destruct (o_pid o) as [p|]; [|eexists; eexists; reflexivity].
    destruct (sub_lookup_total p s1) as [[q s2] E2]. exists (Some q), s2.
    unfold mbind. rewrite E2. reflexivity. }
  destruct Hp as [npid [s2 E2]]. unfold mbind at 1. rewrite E2.
  destruct (is_link_attr o) eqn:Hl.
  - destruct (o_value o) as [v|].
    + unfold mbind at 1. split.
      * intros [r Hr] _ v' [= <-].
        apply (scrub_value_ok_iff v s2).
        destruct (scrub_value uuid4 v s2) as [e|[v0 s3]] eqn:E3; [unfold mbind in Hr; rewrite E3 in Hr; discriminate Hr|].
        eexists; reflexivity.
      * intros H. destruct (proj2 (scrub_value_ok_iff v s2) (H eq_refl v eq_refl))
          as [[v' s3] E3].
        unfold mbind. rewrite E3. eexists; reflexivity.
    + split; [intros _ _ v' Hv; discriminate Hv | intros _; eexists; reflexivity].
  - split; [intros _ Habs; discriminate Habs | intros _; eexists; reflexivity].
Qed.

Lemma mmap_ok_iff {A B} (f : A -> M B) (P : A -> Prop) (l : list A) :
  (forall x s, (exists r, f x s = inr r) <-> P x) ->
  forall s, (exists r, mmap f l s = inr r) <-> Forall P l.
Proof.
  intros Hf. induction l as [|x xs IH]; intros s; simpl.
  - split; [intros _; constructor | intros _; eexists; reflexivity].
  - unfold mbind at 1. split.
    + intros [r Hr]. destruct (f x s) as [e|[y s1]] eqn:E1; [discriminate Hr|].
      assert (Px : P x) by (apply (Hf x s); eexists; exact E1).
      unfold mbind in Hr. destruct (mmap f xs s1) as [e|[ys s2]] eqn:E2; [discriminate Hr|].
      constructor; [exact Px|]. apply (IH s1). eexists; exact E2.
    + intros Hall. inversion Hall as [|? ? Px Pxs]; subst.
      destruct (proj2 (Hf x s) Px) as [[y s1] E1]. rewrite E1.
      destruct (proj2 (IH s1) Pxs) as [[ys s2] E2]. unfold mbind. rewrite E2.
      eexists; reflexivity.
Qed.

End Success.

(** X29: [substitute_uuids] succeeds exactly when the value of every
    [REFERENCE_LIST] or [DIMENSION_LIST] attribute, when present, is a
    list, an empty string or an empty dict. *)
Theorem run_substitute_uuids_ok_iff (uuid4 : nat -> string) (objs : list obj) (root : string) :
  (exists r, run_substitute_uuids uuid4 objs root = inr r) <->
  Forall (fun o => is_link_attr o = true -> forall v, o_value o = Some v ->
            (exists l, v = JArr l) \/ v = JStr "" \/ v = JObj []) objs.
Proof.
  unfold run_substitute_uuids, substitute_uuids.
  destruct (sub_lookup_total uuid4 root (mk_ustate ∅ 0)) as [[r0 s1] E1].
  unfold mbind at 1. rewrite E1.
  pose proof (mmap_ok_iff (substitute_obj uuid4) _ objs (substitute_obj_ok_iff uuid4) s1) as Hm.
  unfold scrubbable in Hm. rewrite <- Hm. unfold mbind at 1. split.
  - intros [r Hr]. destruct (mmap (substitute_obj uuid4) objs s1) as [e|[l s2]]; [discriminate Hr|].
    eexists; reflexivity.
  - intros [[l s2] E2]. rewrite E2. unfold mbind.
    destruct (sub_lookup_total uuid4 root s2) as [[r1 s3] E3]. rewrite E3.
    eexists; reflexivity.
Qed.

Lemma substitute_uuids_uuid4_calls_witness :
  run_substitute_uuids letter_uuid reference_attr_objs "G1" =
    inr (([mk_obj "A" None "group" "" None [];
           mk_obj "B" (Some "A") "dataset" "data" None [];
           mk_obj "C" (Some "B") "attribute" "ref" (Some (JStr "datasets/D1")) []], "A"),
         mk_ustate (<["A1" := "C"]> (<["D1" := "B"]> (<["G1" := "A"]> ∅))) 3) /\
  us_next (mk_ustate (<["A1" := "C"]> (<["D1" := "B"]> (<["G1" := "A"]> ∅))) 3) =
    size (list_to_set (old_ids reference_attr_objs "G1") : gset string).
Proof.
  assert (H : run_substitute_uuids letter_uuid reference_attr_objs "G1" =
    inr (([mk_obj "A" None "group" "" None [];
           mk_obj "B" (Some "A") "dataset" "data" None [];
           mk_obj "C" (Some "B") "attribute" "ref" (Some (JStr "datasets/D1")) []], "A"),
         mk_ustate (<["A1" := "C"]> (<["D1" := "B"]> (<["G1" := "A"]> ∅))) 3))
    by (vm_compute; reflexivity).
  split; [exact H|]. exact (proj2 (substitute_uuids_uuid4_calls _ _ _ _ _ _ H)).
Defined.

(* ================================================================== *)
(** ** Further properties: [random_string] *)

Lemma list_ascii_of_string_of_list (l : list ascii) :
  list_ascii_of_string (string_of_list_ascii l) = l.
Proof. induction l as [|a l IH]; simpl; [reflexivity|]. rewrite IH. reflexivity. Qed.

Lemma length_string_of_list (l : list ascii) :
  String.length (string_of_list_ascii l) = List.length l.
Proof. induction l as [|a l IH]; simpl; [reflexivity|]. rewrite IH. reflexivity. Qed.

(** X30: [random_string(nchar)] has [max(nchar, 0)] characters, each one of
    [string.hexdigits]. *)
Theorem random_string_hex (choice_index : nat -> nat) (nchar : Z) :
  (forall i, (choice_index i < String.length hexdigits)%nat) ->
  String.length (random_string choice_index nchar) = Z.to_nat nchar /\
  Forall (fun c => In c (list_ascii_of_string hexdigits))
         (list_ascii_of_string (random_string choice_index nchar)).
Proof.
  intros Hc. unfold random_string.
  rewrite length_string_of_list, list_ascii_of_string_of_list, length_map, length_seq.
  split; [reflexivity|].
  apply List.Forall_forall. intros c Hin. apply in_map_iff in Hin as [i [<- _]].
  apply nth_In. specialize (Hc i). exact Hc.
Qed.

Lemma random_string_hex_witness :
  (forall i, (i mod 22 < String.length hexdigits)%nat) /\
  String.length (random_string (fun i => i mod 22) 5) = Z.to_nat 5 /\
  Forall (fun c => In c (list_ascii_of_string hexdigits))
         (list_ascii_of_string (random_string (fun i => i mod 22) 5)).
Proof.
  assert (H : forall i, (i mod 22 < String.length hexdigits)%nat)
    by (intros i; change (String.length hexdigits) with 22; apply Nat.mod_upper_bound; discriminate).
  split; [exact H | apply (random_string_hex (fun i => i mod 22) 5 H)].
Defined.
